(** * G & T: label consensus and worker reliability

    A shallow embedding of [gandt/data/analyse_labels_data.py],
    [gandt/data/prepare_data.py], [gandt/serving/lambda_preprocess.py] and
    [gandt/serving/lambda_postprocess.py], with the properties of the
    label-consensus engine and of the labelling-job plumbing stated over
    it.

    Conventions of the embedding.
    - A pandas frame is the list of its rows, in row order.
    - A Python [dict] whose iteration order is observed (a [Counter], the
      [worker_quality] mapping, the [defaultdict] of ratings) is an
      association list in insertion order with unique keys; a [dict] that is
      only looked up (the decoys, the index-to-filename table) is a [gmap].
    - A Python [float] is a binary64 number ([PrimFloat.float]); a Python
      [int] is a [Z]; a Python [str] is the string of the bytes of its
      UTF-8 encoding, whose byte-wise order is the order of the code points.
    - A call that can raise returns a [result]: the value, or the class of
      the exception. *)

From Stdlib Require Import ZArith List String Ascii Floats Uint63 Sorted Permutation Lia.
From stdpp Require Import base tactics option list gmap strings sorting pretty.

Set Warnings "-inexact-float,-register-all,-clear-no-such-hyp".

Local Open Scope Z_scope.
Local Open Scope string_scope.

(** ** Exceptions *)

(** An exception is identified by the name of its class. *)
Inductive exn : Type := Exception (class_name : string).

Definition IndexError : exn := Exception "IndexError".
Definition KeyError : exn := Exception "KeyError".
Definition TypeError : exn := Exception "TypeError".
Definition ValueError : exn := Exception "ValueError".
Definition AttributeError : exn := Exception "AttributeError".
Definition ZeroDivisionError : exn := Exception "ZeroDivisionError".
Definition MergeError : exn := Exception "MergeError".

Inductive result (A : Type) : Type :=
| Ok (a : A)
| Raise (e : exn).
Arguments Ok {A} a.
Arguments Raise {A} e.

#[global] Instance result_ret : MRet result := @Ok.
#[global] Instance result_bind : MBind result :=
  fun A B f m => match m with Ok a => f a | Raise e => Raise e end.
#[global] Instance result_fmap : FMap result :=
  fun A B f m => match m with Ok a => Ok (f a) | Raise e => Raise e end.

(** [for x in l: ...] where the body can raise: the first exception ends
    the loop. *)
Fixpoint mapM_result {A B : Type} (f : A -> result B) (l : list A) : result (list B) :=
  match l with
  | [] => Ok []
  | x :: l' =>
      match f x with
      | Ok y => match mapM_result f l' with
                | Ok ys => Ok (y :: ys)
                | Raise e => Raise e
                end
      | Raise e => Raise e
      end
  end.

(** [l[0]] *)
Definition getitem0 {A : Type} (l : list A) : result A :=
  match l with
  | [] => Raise IndexError
  | x :: _ => Ok x
  end.

(** ** Insertion-ordered dictionaries *)

Section pydict.
Context {K V : Type} `{EqDecision K}.

(** [d.get(k)] *)
Fixpoint dict_get (d : list (K * V)) (k : K) : option V :=
  match d with
  | [] => None
  | (k', v) :: d' => if decide (k = k') then Some v else dict_get d' k
  end.

(** [d[k] = v]: an existing key keeps its place, a new key goes last. *)
Fixpoint dict_set (d : list (K * V)) (k : K) (v : V) : list (K * V) :=
  match d with
  | [] => [(k, v)]
  | (k', v') :: d' =>
      if decide (k = k') then (k, v) :: d' else (k', v') :: dict_set d' k v
  end.
End pydict.

(** ** Numbers *)

(** The conversion of an [int] operand that meets a [float]. It is exact
    below 2^53 and rounds to nearest below 2^63, as Python does; no list
    length reaches that bound. *)
Definition float_of_int (z : Z) : float :=
  if (z <? 0)%Z
  then PrimFloat.opp (PrimFloat.of_uint63 (Uint63.of_Z (- z)))
  else PrimFloat.of_uint63 (Uint63.of_Z z).

(** [x * n] for a float [x] and an int [n] *)
Definition float_mul_int (x : float) (n : Z) : float :=
  PrimFloat.mul x (float_of_int n).

(** [n > x] for an int [n] and a float [x]. Python compares the two
    numbers exactly; so does this for every [n] below 2^53, which converts
    without rounding. *)
Definition int_gt_float (n : Z) (x : float) : bool :=
  PrimFloat.ltb x (float_of_int n).

(** [n // m] *)
Definition floordiv (n m : Z) : result Z :=
  if decide (m = 0) then Raise ZeroDivisionError else Ok (n `div` m).

(** [numpy.mean] of a list of ints: the elements are added in float64 and
    the sum is divided by the length. Sums of agreement flags are integers
    far below 2^53, which float64 adds exactly: the sum is taken in [Z] and
    converted. *)
Definition np_mean (scores : list Z) : float :=
  PrimFloat.div (float_of_int (foldr Z.add 0 scores))
                (float_of_int (Z.of_nat (length scores))).

(** ** collections.Counter *)

Definition counter_step (c : list (string * Z)) (elem : string) : list (string * Z) :=
  dict_set c elem (default 0 (dict_get c elem) + 1).

(** [Counter(iterable)]: [mapping[elem] = mapping.get(elem, 0) + 1] for each
    element in turn. *)
Definition Counter (iterable : list string) : list (string * Z) :=
  foldl counter_step [] iterable.

(** [c.most_common(1)]: [heapq.nlargest(1, c.items(), key=itemgetter(1))],
    which for one element is [max]: the first item among those of greatest
    count, or nothing for an empty counter. *)
Definition most_common_1 (c : list (string * Z)) : list (string * Z) :=
  match c with
  | [] => []
  | item :: rest =>
      [foldl (fun best it => if (best.2 <? it.2)%Z then it else best) item rest]
  end.

(** ** Raw responses *)

Module Raw.
(** A row of the frame that [read_responses] builds. *)
Record row : Type := Row {
  labelling_job_name : string;
  labels_fname : string;
  image_filename : string;
  image_index : Z;
  worker_id : string;
  labels : list string;
  dataset_object_id : string
}.
End Raw.

(** ** The decoy lookup *)

(** What [raw_labels['image_filename']] can be turned into: an element of
    the column, or the indexer that [Series.iloc] is. *)
Inductive pyobj : Type :=
| PyStr (s : string)
| ILocIndexer (obj : list string) (axis : option Z).

(** [series.iloc(axis)]: calling the indexer returns a copy of the indexer
    bound to that axis; it reads no element. *)
Definition iloc_call (series : list string) (axis : Z) : pyobj :=
  ILocIndexer series (Some axis).

(** [series.iloc[i]] *)
Definition iloc_getitem (series : list string) (i : nat) : result pyobj :=
  match series !! i with
  | Some s => Ok (PyStr s)
  | None => Raise IndexError
  end.

(** [decoys[key]] for a dict with string keys. An indexer hashes by identity
    and equals no string, so it is never found. *)
Definition decoys_getitem (decoys : gmap string string) (key : pyobj) : result string :=
  match key with
  | PyStr s =>
      match decoys !! s with
      | Some v => Ok v
      | None => Raise KeyError
      end
  | ILocIndexer _ _ => Raise KeyError
  end.

(** ** get_summary_stats_for_image *)

Module Summary.
(** The series that [get_summary_stats_for_image] returns. [all_labels] is
    the entry ['labels']; [decoy_label] is [None] for [nan]. *)
Record t : Type := Make {
  worker_list : list string;
  all_labels : list string;
  labels_all_same : bool;
  no_most_common_labels : Z;
  no_eligible_workers : Z;
  majority_label : list string;
  majority_label_description : string;
  majority_label_verbose : string;
  is_label_certain : bool;
  decoy_label : option string;
  is_decoy : bool;
  worker_quality : list (string * Z)
}.
End Summary.

(** [', '.join(l)] *)
Definition join_comma (l : list string) : string := String.concat ", " l.

(** ['{} ({} / {})'.format(label, count, total)] *)
Definition verbose_item (label : string) (count total : Z) : string :=
  label +:+ " (" +:+ pretty count +:+ " / " +:+ pretty total +:+ ")".

(** [int(any(label in most_common_labels for label in labels))] *)
Definition is_majority_label (most_common_labels labels : list string) : Z :=
  if existsb (fun label => bool_decide (label ∈ most_common_labels)) labels
  then 1 else 0.

(** The loop over [raw_labels.iterrows()] that fills the mapping. *)
Definition worker_quality_mapping (is_certain : bool)
    (most_common_labels : list string) (raw_labels : list Raw.row)
    : list (string * Z) :=
  foldl (fun mapping row =>
           if is_certain
           then dict_set mapping (Raw.worker_id row)
                  (is_majority_label most_common_labels (Raw.labels row))
           else mapping)
        [] raw_labels.

Definition get_summary_stats_for_image (raw_labels : list Raw.row)
    (min_ratings_no : Z) (min_ratings_prop : float)
    (decoys : gmap string string) : result Summary.t :=
  let worker_list := map Raw.worker_id raw_labels in
  (* [raw_labels['labels'].sum()] is the int 0 for a frame without rows,
     which [Counter] cannot iterate over. *)
  labels ← match raw_labels with
           | [] => Raise TypeError
           | _ => Ok (concat (map Raw.labels raw_labels))
           end;
  let label_counts := Counter labels in
  let labels_all_same := bool_decide (length label_counts = 1%nat) in
  most_common ← getitem0 (most_common_1 label_counts);
  let most_common_count := most_common.2 in
  let most_common_labels :=
    merge_sort String.le
      (filter (fun kv => kv.2 = most_common_count) label_counts).*1 in
  let no_labels := Z.of_nat (length worker_list) in
  let all_most_common_label_str := join_comma most_common_labels in
  let is_certain :=
    bool_decide (min_ratings_no <= most_common_count)
    && int_gt_float most_common_count (float_mul_int min_ratings_prop no_labels) in
  let most_common_label_str :=
    if is_certain
    then all_most_common_label_str +:+ " (certain)"
    else all_most_common_label_str +:+ " (need relabelling)" in
  let verbose_label_str :=
    join_comma (map (fun l => verbose_item l most_common_count no_labels)
                    most_common_labels) in
  let this_filename := iloc_call (map Raw.image_filename raw_labels) 0 in
  let '(decoy_label, is_decoy) :=
    match decoys_getitem decoys this_filename with
    | Ok v => (Some v, true)
    | Raise _ => (None, false)
    end in
  Ok {| Summary.worker_list := worker_list;
        Summary.all_labels := labels;
        Summary.labels_all_same := labels_all_same;
        Summary.no_most_common_labels := most_common_count;
        Summary.no_eligible_workers := no_labels;
        Summary.majority_label := most_common_labels;
        Summary.majority_label_description := most_common_label_str;
        Summary.majority_label_verbose := verbose_label_str;
        Summary.is_label_certain := is_certain;
        Summary.decoy_label := decoy_label;
        Summary.is_decoy := is_decoy;
        Summary.worker_quality :=
          worker_quality_mapping is_certain most_common_labels raw_labels |}.

(** ** get_workers_reliability *)

Module Worker.
(** A row of the frame that [get_workers_reliability] builds. *)
Record row : Type := Row {
  worker_id : string;
  mean : float;
  count : Z;
  is_worker_reliable : bool
}.
End Worker.

(** [worker_reliability[worker_id].append(rating)] on a
    [defaultdict(list)]. *)
Definition append_rating (d : list (string * list Z)) (worker_id : string)
    (rating : Z) : list (string * list Z) :=
  dict_set d worker_id (default [] (dict_get d worker_id) ++ [rating])%list.

(** The two nested loops that pool the ratings of every worker. *)
Definition pool_ratings (quality_column : list (list (string * Z)))
    : list (string * list Z) :=
  foldl (fun d quality_rating =>
           foldl (fun d item => append_rating d item.1 item.2) d quality_rating)
        [] quality_column.

(** Only the column ['worker_quality'] of the frames is read: a frame is
    given here by that column, one mapping per row. *)
Definition get_workers_reliability
    (experiment_df : list (list (string * Z)))
    (previous_experiments : list (list (list (string * Z))))
    (reliability_threshold : float) (no_labels_per_experiment : Z)
    : result (list Worker.row) :=
  let all_experiments := concat (experiment_df :: previous_experiments) in
  let worker_reliability := pool_ratings all_experiments in
  mapM_result
    (fun item =>
       let agreement_scores := item.2 in
       count ← floordiv (Z.of_nat (length agreement_scores))
                        no_labels_per_experiment;
       Ok {| Worker.worker_id := item.1;
             Worker.mean := np_mean agreement_scores;
             Worker.count := count;
             Worker.is_worker_reliable :=
               PrimFloat.ltb reliability_threshold (np_mean agreement_scores) |})
    worker_reliability.

(** ** Grouping by image and job *)

Definition group_key (r : Raw.row) : string * string :=
  (Raw.image_filename r, Raw.labelling_job_name r).

(** The order of the key tuples: by file name, then by job name. *)
Definition key_le (k1 k2 : string * string) : Prop :=
  if decide (k1.1 = k2.1) then String.le k1.2 k2.2 else String.le k1.1 k2.1.

#[global] Instance key_le_dec : RelDecision key_le.
Proof. intros k1 k2. unfold key_le. destruct (decide (k1.1 = k2.1)); apply _. Defined.

(** The groups of [df.groupby(['image_filename', 'labelling_job_name'])],
    in the sorted order in which pandas visits them. *)
Definition group_keys (df : list Raw.row) : list (string * string) :=
  merge_sort key_le (remove_dups (map group_key df)).

Definition get_group (df : list Raw.row) (k : string * string) : list Raw.row :=
  filter (fun r => group_key r = k) df.

(** [df.groupby([...], as_index=False).apply(get_summary_stats_for_image,
    ...).reset_index()]: one row per group, at the rank of the group's key.
    The rows carry no key column of their own. On a frame without rows no
    group is visited, and the chain raises [ValueError]. *)
Definition annotate_responses (df : list Raw.row) (min_ratings_no : Z)
    (min_ratings_prop : float) (decoys : gmap string string)
    : result (list Summary.t) :=
  match df with
  | [] => Raise ValueError
  | _ =>
      mapM_result
        (fun k => get_summary_stats_for_image (get_group df k)
                    min_ratings_no min_ratings_prop decoys)
        (group_keys df)
  end.

(** ** filter_out_unreliable_workers *)

(** [pd.concat(frames)]: no frame at all is a [ValueError]. *)
Definition pd_concat {A : Type} (frames : list (list A)) : result (list A) :=
  match frames with
  | [] => Raise ValueError
  | _ => Ok (concat frames)
  end.

Definition set_labelling_job_name (job : string) (r : Raw.row) : Raw.row :=
  {| Raw.labelling_job_name := job;
     Raw.labels_fname := Raw.labels_fname r;
     Raw.image_filename := Raw.image_filename r;
     Raw.image_index := Raw.image_index r;
     Raw.worker_id := Raw.worker_id r;
     Raw.labels := Raw.labels r;
     Raw.dataset_object_id := Raw.dataset_object_id r |}.

(** The distinct values of a key column in the order of their first
    occurrence: the order in which the join numbers the keys. *)
Fixpoint join_keys (keys : list string) : list string :=
  match keys with
  | [] => []
  | k :: keys' => k :: filter (fun k' => k' <> k) (join_keys keys')
  end.

(** The rows of the left frame in the order in which the inner join visits
    them: key by key, the keys as they are numbered, the rows of one key in
    the order of the frame. *)
Definition join_order (left : list Raw.row) : list Raw.row :=
  flat_map (fun w => filter (fun l => Raw.worker_id l = w) left)
           (join_keys (map Raw.worker_id left)).

(** [raw_responses.merge(workers_reliability)]: the inner join on the one
    column the two frames share, [worker_id]. The rows come out grouped by
    worker, not in the order of the left frame: each left row, in join
    order, with the right rows of its worker.
    The right frame is [pd.DataFrame(worker_data)]: built from no row it has
    no column, and the join finds no common column to use. *)
Definition merge (left : list Raw.row) (right : list Worker.row)
    : result (list (Raw.row * Worker.row)) :=
  match right with
  | [] => Raise MergeError
  | _ =>
      Ok (flat_map
            (fun l => map (fun r => (l, r))
                        (filter (fun r => Worker.worker_id r = Raw.worker_id l) right))
            (join_order left))
  end.

(** Lines 337 to 339: the join and the selection of the reliable rows. *)
Definition filter_raw_responses (raw_responses : list Raw.row)
    (workers_reliability : list Worker.row) : result (list (Raw.row * Worker.row)) :=
  filtered_raw_responses ← merge raw_responses workers_reliability;
  Ok (filter (fun lr => Worker.is_worker_reliable lr.2 = true) filtered_raw_responses).

Definition filter_out_unreliable_workers (raw_responses : list Raw.row)
    (previous_experiments : list (list Raw.row))
    (reliability_threshold : float) (min_ratings_no : Z)
    (min_ratings_prop : float) (decoys : gmap string string)
    (include_previous_in_output : bool)
    : result (list Summary.t * list Summary.t) :=
  unfiltered_annotated_responses ←
    annotate_responses raw_responses min_ratings_no min_ratings_prop decoys;
  previous_experiments_annotated ←
    mapM_result
      (fun responses =>
         annotate_responses responses min_ratings_no min_ratings_prop decoys)
      previous_experiments;
  workers_reliability ←
    get_workers_reliability
      (map Summary.worker_quality unfiltered_annotated_responses)
      (map (map Summary.worker_quality) previous_experiments_annotated)
      reliability_threshold 20;
  working ←
    (if include_previous_in_output
     then
       previous ← pd_concat previous_experiments;
       job ← getitem0 (map Raw.labelling_job_name raw_responses);
       Ok ((raw_responses ++ map (set_labelling_job_name job) previous)%list,
           (unfiltered_annotated_responses
              ++ concat previous_experiments_annotated)%list)
     else Ok (raw_responses, unfiltered_annotated_responses));
  filtered_raw_responses ← filter_raw_responses working.1 workers_reliability;
  filtered_annotated_responses ←
    annotate_responses (map fst filtered_raw_responses)
      min_ratings_no min_ratings_prop decoys;
  Ok (working.2, filtered_annotated_responses).

(** ** read_responses *)

Module Payload.
(** An entry of the job-input manifest: [{'index': ..., 'source-ref': ...}]. *)
Record manifest_entry : Type := Entry { index : Z; source_ref : string }.
(** A worker's submission; [annotationData_content] is JSON text. *)
Record labelling : Type := Labelling {
  workerId : string;
  annotationData_content : string
}.
(** An annotation set; [dataObject_content] is JSON text. *)
Record annotation_set : Type := AnnotationSet {
  dataObject_content : string;
  datasetObjectId : string;
  annotations : list labelling
}.
End Payload.

(** [s.split(sep)] for a separator of one character. *)
Fixpoint str_split (sep : ascii) (s : string) : list string :=
  match s with
  | EmptyString => [EmptyString]
  | String c s' =>
      if decide (c = sep) then EmptyString :: str_split sep s'
      else match str_split sep s' with
           | [] => [String c EmptyString]
           | seg :: segs => String c seg :: segs
           end
  end.

(** [l[-n]] for [n >= 1] *)
Definition getitem_neg {A : Type} (l : list A) (n : nat) : result A :=
  match rev l !! (n - 1)%nat with
  | Some x => Ok x
  | None => Raise IndexError
  end.

(** [os.path.basename(p)]: what follows the last slash. *)
Definition basename (p : string) : string :=
  match getitem_neg (str_split "/" p) 1 with
  | Ok b => b
  | Raise _ => EmptyString
  end.

(** [{d['index']: os.path.basename(d['source-ref']) for d in manifest}]: a
    later entry replaces an earlier one with the same index. *)
Definition index_to_filename_of (manifest : list Payload.manifest_entry)
    : gmap Z string :=
  foldl (fun m d => <[Payload.index d := basename (Payload.source_ref d)]> m)
        ∅ manifest.

Section read_responses.
(** The library calls of [read_responses]. [abspath] is
    [os.path.abspath], which depends on the working directory. Each
    [loads_*] is [json.loads] at one place of the payload, with the shape
    the code then reads; it raises on text that does not decode.
    [py_int] is [int] on a string. The file itself is given by what
    [json.load] made of it. *)
Variable abspath : string -> string.
Variable loads_manifest : string -> result (list Payload.manifest_entry).
Variable loads_annotations : string -> result (list (string * string)).
Variable loads_labels : string -> result (list string).
Variable py_int : string -> result Z.

(** The body of the innermost loop, for one [(label_id, label_raw)]. *)
Definition read_label (fname labelling_job_name : string)
    (index_to_filename : gmap Z string) (dataset_object_id worker_id : string)
    (item : string * string) : result Raw.row :=
  this_labels ← loads_labels item.2;
  last_part ← getitem_neg (str_split "-" item.1) 1;
  label_index ← py_int last_part;
  image_filename ← match index_to_filename !! label_index with
                   | Some f => Ok f
                   | None => Raise KeyError
                   end;
  Ok {| Raw.labelling_job_name := labelling_job_name;
        Raw.labels_fname := fname;
        Raw.image_filename := image_filename;
        Raw.image_index := label_index;
        Raw.worker_id := worker_id;
        Raw.labels := this_labels;
        Raw.dataset_object_id := dataset_object_id |}.

(** The loop over the images annotated by one worker. *)
Definition read_labelling (fname labelling_job_name : string)
    (index_to_filename : gmap Z string) (dataset_object_id : string)
    (labelling : Payload.labelling) : result (list Raw.row) :=
  this_worker_annotations ←
    loads_annotations (Payload.annotationData_content labelling);
  mapM_result
    (read_label fname labelling_job_name index_to_filename dataset_object_id
                (Payload.workerId labelling))
    this_worker_annotations.

(** The loop over the annotations of one annotation set. *)
Definition read_annotation_set (fname labelling_job_name : string)
    (annotation_set : Payload.annotation_set) : result (list Raw.row) :=
  labelling_job_input_data ←
    loads_manifest (Payload.dataObject_content annotation_set);
  let index_to_filename := index_to_filename_of labelling_job_input_data in
  rows ← mapM_result
           (read_labelling fname labelling_job_name index_to_filename
                           (Payload.datasetObjectId annotation_set))
           (Payload.annotations annotation_set);
  Ok (concat rows).

Definition read_responses (fname : string)
    (data : list Payload.annotation_set) : result (list Raw.row) :=
  labelling_job_name ← getitem_neg (str_split "/" (abspath fname)) 6;
  raw_results ← mapM_result (read_annotation_set fname labelling_job_name) data;
  Ok (concat raw_results).

(** Some worker's label index has no entry in the index-to-filename table
    of its annotation set. *)
Definition unresolved_index (data : list Payload.annotation_set) : Prop :=
  exists annotation_set manifest labelling items item last_part label_index,
    annotation_set ∈ data
    /\ loads_manifest (Payload.dataObject_content annotation_set) = Ok manifest
    /\ labelling ∈ Payload.annotations annotation_set
    /\ loads_annotations (Payload.annotationData_content labelling) = Ok items
    /\ item ∈ items
    /\ getitem_neg (str_split "-" item.1) 1 = Ok last_part
    /\ py_int last_part = Ok label_index
    /\ index_to_filename_of manifest !! label_index = None.

(** Everything in the payload decodes: the path has a job name, every
    JSON text decodes, and every label id ends in an int. *)
Definition item_decodes (item : string * string) : Prop :=
  (exists this_labels, loads_labels item.2 = Ok this_labels)
  /\ forall last_part, getitem_neg (str_split "-" item.1) 1 = Ok last_part ->
       exists label_index, py_int last_part = Ok label_index.

Definition labelling_decodes (labelling : Payload.labelling) : Prop :=
  exists items,
    loads_annotations (Payload.annotationData_content labelling) = Ok items
    /\ Forall item_decodes items.

Definition annotation_set_decodes (annotation_set : Payload.annotation_set)
  : Prop :=
  (exists manifest,
     loads_manifest (Payload.dataObject_content annotation_set) = Ok manifest)
  /\ Forall labelling_decodes (Payload.annotations annotation_set).

Definition payload_decodes (fname : string)
    (data : list Payload.annotation_set) : Prop :=
  (exists job, getitem_neg (str_split "/" (abspath fname)) 6 = Ok job)
  /\ Forall annotation_set_decodes data.
End read_responses.

(** ** lambda_preprocess.lambda_handler *)

(** The values of an event: what [json] decodes to. *)
Inductive pyval : Type :=
| PNone
| PBool (b : bool)
| PInt (z : Z)
| PFloat (x : float)
| PStr (s : string)
| PList (l : list pyval)
| PDict (d : list (string * pyval)).

(** [v[k]] for a string [k] *)
Definition py_getitem (v : pyval) (k : string) : result pyval :=
  match v with
  | PDict d =>
      match dict_get d k with
      | Some x => Ok x
      | None => Raise KeyError
      end
  | _ => Raise TypeError
  end.

(** [v.get(k)] *)
Definition py_get (v : pyval) (k : string) : result pyval :=
  match v with
  | PDict d => Ok (default PNone (dict_get d k))
  | _ => Raise AttributeError
  end.

(** [{"taskInput": {"taskObject": source}}] *)
Definition task_input (source : pyval) : pyval :=
  PDict [("taskInput", PDict [("taskObject", source)])].

Section lambda_preprocess.
(** [json.loads]; it raises on text that is not JSON. *)
Variable json_loads : string -> result pyval.

Definition lambda_handler (event : pyval) (context : pyval) : result pyval :=
  dataObject ← py_getitem event "dataObject";
  source ← py_get dataObject "source";
  match source with
  | PNone => Ok (PDict [])
  | PStr s =>
      source' ← json_loads s;
      Ok (task_input source')
  | _ => Ok (task_input source)
  end.
End lambda_preprocess.

(** ** prepare_data.prepare_manifest *)

(** [a % b]: the remainder has the sign of the divisor. *)
Definition py_mod (a b : Z) : result Z :=
  if decide (b = 0) then Raise ZeroDivisionError else Ok (a `mod` b).

(** The position that [l[i]] reads: a negative [i] counts from the end, and
    a position outside the list is an [IndexError]. *)
Definition list_position {A : Type} (l : list A) (i : Z) : result nat :=
  let j := if (i <? 0)%Z then i + Z.of_nat (length l) else i in
  if decide (0 <= j < Z.of_nat (length l)) then Ok (Z.to_nat j)
  else Raise IndexError.

(** Lines 58 and 59: the number of tasks for [n] files. *)
Definition task_count_of (n group_size : Z) : result Z :=
  q ← floordiv n group_size;
  r ← py_mod n group_size;
  Ok (q + (if (0 <? r)%Z then 1 else 0)).

(** [{'source-ref': record, 'index': idx}] *)
Definition manifest_entry_dict (record : string) (idx : Z)
  : list (string * pyval) :=
  [("source-ref", PStr record); ("index", PInt idx)].

(** The first loop, from the file at position [idx] on: the file goes to
    the end of the source list of the task [idx % task_count]. The manifest
    is given by the source lists of its tasks. *)
Fixpoint distribute (task_count : Z)
    (manifest : list (list (list (string * pyval)))) (idx : Z)
    (filename_list : list string)
  : result (list (list (list (string * pyval)))) :=
  match filename_list with
  | [] => Ok manifest
  | record :: rest =>
      k ← py_mod idx task_count;
      i ← list_position manifest k;
      distribute task_count
        (alter (fun source => (source ++ [manifest_entry_dict record idx])%list)
               i manifest)
        (idx + 1) rest
  end.

(** [d.update(other)] *)
Definition dict_update (d other : list (string * pyval)) : list (string * pyval) :=
  foldl (fun d item => dict_set d item.1 item.2) d other.

(** The body of the second loop before [json.dumps]: the first entry of
    the task is replaced by the additional data updated with that entry. *)
Definition with_additional_data
    (positive_examples negative_examples event_names : list string)
    (other_category_label : string) (source : list (list (string * pyval)))
  : result (list (list (string * pyval))) :=
  first ← getitem0 source;
  let additional_data :=
    dict_update
      [("event_names", PList (map PStr event_names));
       ("positive_examples", PList (map PStr positive_examples));
       ("negative_examples", PList (map PStr negative_examples));
       ("other_category_label", PStr other_category_label)]
      first in
  Ok (additional_data :: tail source).

Section prepare_manifest.
(** [json.dumps], on values that it can serialise. *)
Variable json_dumps : pyval -> string.

(** The record of a task once its source list is serialised:
    [{'source': json.dumps(source)}]. *)
Definition task_record (source : list (list (string * pyval))) : pyval :=
  PDict [("source", PStr (json_dumps (PList (map PDict source))))].

Definition prepare_manifest (filename_list positive_examples negative_examples
    event_names : list string) (other_category_label : string) (group_size : Z)
  : result (list pyval) :=
  task_count ← task_count_of (Z.of_nat (length filename_list)) group_size;
  manifest ← distribute task_count (replicate (Z.to_nat task_count) [])
                        0 filename_list;
  mapM_result
    (fun source =>
       source' ← with_additional_data positive_examples negative_examples
                   event_names other_category_label source;
       Ok (task_record source'))
    manifest.
End prepare_manifest.

(** [enumerate(l, start)] *)
Fixpoint enumerate_from (start : Z) (l : list string) : list (Z * string) :=
  match l with
  | [] => []
  | x :: l' => (start, x) :: enumerate_from (start + 1) l'
  end.

(** The entries that the first loop gives to task [k] out of
    [task_count]: the files whose position is [k] modulo [task_count], in
    the order of the list. *)
Definition task_entries (task_count k : Z) (start : Z) (l : list string)
  : list (list (string * pyval)) :=
  map (fun p => manifest_entry_dict p.2 p.1)
      (filter (fun p => p.1 `mod` task_count = k) (enumerate_from start l)).

(** What [read_responses] reads of a manifest entry once the manifest is
    decoded: [d['index']] and [d['source-ref']]. A missing key is a
    [KeyError]; the table of [read_responses] is keyed by ints and
    [os.path.basename] takes a string, other values are refused. *)
Definition manifest_entry_of (d : list (string * pyval))
  : result Payload.manifest_entry :=
  match dict_get d "index", dict_get d "source-ref" with
  | Some (PInt i), Some (PStr s) => Ok (Payload.Entry i s)
  | None, _ | _, None => Raise KeyError
  | _, _ => Raise TypeError
  end.

(** ** lambda_postprocess *)

(** [needle in s] for two strings: [needle] occurs in [s]. *)
Fixpoint str_contains (needle s : string) : bool :=
  String.prefix needle s
  || match s with
     | EmptyString => false
     | String _ s' => str_contains needle s'
     end.

(** [k in v] for a string [k]: a key of a dict, an item of a list, a part
    of a string; the other values are not containers. *)
Definition py_contains (k : string) (v : pyval) : result bool :=
  match v with
  | PDict d => Ok (match dict_get d k with Some _ => true | None => false end)
  | PList l =>
      Ok (existsb (fun x => match x with
                            | PStr s => String.eqb s k
                            | _ => false
                            end) l)
  | PStr s => Ok (str_contains k s)
  | _ => Raise TypeError
  end.

(** [for x in v]: the items of a list, the keys of a dict, the characters
    of a string; the other values are not iterable. *)
Definition py_iter (v : pyval) : result (list pyval) :=
  match v with
  | PList l => Ok l
  | PDict d => Ok (map (fun item => PStr item.1) d)
  | PStr s =>
      Ok (map (fun c => PStr (String c EmptyString)) (list_ascii_of_string s))
  | _ => Raise TypeError
  end.

(** A value that can be the key of a dict. *)
Definition hashable (v : pyval) : bool :=
  match v with
  | PList _ | PDict _ => false
  | _ => true
  end.

Module Consolidated.
(** [{'workerId': ..., 'annotation': ...}] *)
Record response : Type := Response { workerId : pyval; annotation : pyval }.
(** [{'datasetObjectId': ..., 'consolidatedAnnotation': {'content':
    {labelAttributeName: {'responses': responses}}}}]; the key
    [labelAttributeName] is a value of the event. *)
Record t : Type := Make {
  datasetObjectId : pyval;
  labelAttributeName : pyval;
  responses : list response
}.
End Consolidated.

Module Postprocess.
Section lambda_postprocess.
(** [json.loads] on a string; it raises on text that is not JSON. *)
Variable json_loads : string -> result pyval.
(** Lines 78 to 82 of [get_payload]: the object that the S3 URI names,
    read and decoded. It raises when the URI or the object is not as
    expected. *)
Variable s3_get_json : pyval -> result pyval.

Definition get_payload (event : pyval) : result pyval :=
  has_payload ← py_contains "payload" event;
  if (has_payload : bool) then
    payload ← py_getitem event "payload";
    s3Uri ← py_getitem payload "s3Uri";
    s3_get_json s3Uri
  else
    match event with
    | PDict d => Ok (default (PList []) (dict_get d "test_payload"))
    | _ => Raise AttributeError
    end.

(** [json.loads(v)]: only a string is decoded. *)
Definition loads (v : pyval) : result pyval :=
  match v with
  | PStr s => json_loads s
  | _ => Raise TypeError
  end.

(** The body of the loop over the annotations of a dataset object. *)
Definition read_annotation (annotation : pyval)
  : result Consolidated.response :=
  annotationData ← py_getitem annotation "annotationData";
  content ← py_getitem annotationData "content";
  response ← loads content;
  wrapped ← py_contains "annotatedResult" response;
  response ← (if (wrapped : bool) then py_getitem response "annotatedResult"
              else Ok response);
  workerId ← py_getitem annotation "workerId";
  Ok (Consolidated.Response workerId response).

(** The body of the loop over the dataset objects of the payload. *)
Definition consolidate (event dataset : pyval) : result Consolidated.t :=
  annotations ← py_getitem dataset "annotations";
  items ← py_iter annotations;
  responses ← mapM_result read_annotation items;
  datasetObjectId ← py_getitem dataset "datasetObjectId";
  label ← py_getitem event "labelAttributeName";
  if hashable label
  then Ok (Consolidated.Make datasetObjectId label responses)
  else Raise TypeError.

Definition lambda_handler (event context : pyval)
  : result (list Consolidated.t) :=
  payload ← get_payload event;
  datasets ← py_iter payload;
  mapM_result (consolidate event) datasets.
End lambda_postprocess.
End Postprocess.

(** ** The quantities of the claims *)

(** The frequency of a label in the flattened label multiset. *)
Fixpoint freq (x : string) (l : list string) : Z :=
  match l with
  | [] => 0
  | y :: l' => (if decide (x = y) then 1 else 0) + freq x l'
  end.

(** The maximum label frequency. *)
Definition max_frequency (l : list string) : Z :=
  foldr Z.max 0 (map (fun x => freq x l) l).

(** The agreement observations of a worker, pooled over the rows of all
    the frames, in the order in which the loops meet them. *)
Definition observations (w : string) (quality_column : list (list (string * Z)))
  : list Z :=
  (filter (fun item => item.1 = w) (concat quality_column)).*2.

(** ** Sample data *)

(** A raw row, with the columns that no claim reads held fixed. *)
Definition mk_row (job image worker : string) (labels : list string) : Raw.row :=
  {| Raw.labelling_job_name := job; Raw.labels_fname := "responses.json";
     Raw.image_filename := image; Raw.image_index := 0;
     Raw.worker_id := worker; Raw.labels := labels;
     Raw.dataset_object_id := "0" |}.

(** The scenario of the specification: three workers answer Cat, Dog, Cat. *)
Definition cat_dog_cat : list Raw.row :=
  [mk_row "job" "a.jpg" "w1" ["Cat"];
   mk_row "job" "a.jpg" "w2" ["Dog"];
   mk_row "job" "a.jpg" "w3" ["Cat"]].

Definition cat_dog_cat_summary : Summary.t :=
  {| Summary.worker_list := ["w1"; "w2"; "w3"];
     Summary.all_labels := ["Cat"; "Dog"; "Cat"];
     Summary.labels_all_same := false;
     Summary.no_most_common_labels := 2;
     Summary.no_eligible_workers := 3;
     Summary.majority_label := ["Cat"];
     Summary.majority_label_description := "Cat (certain)";
     Summary.majority_label_verbose := "Cat (2 / 3)";
     Summary.is_label_certain := true;
     Summary.decoy_label := None;
     Summary.is_decoy := false;
     Summary.worker_quality := [("w1", 1); ("w2", 0); ("w3", 1)] |}.

(** A worker with two rows in one group, as a worker has who answers in the
    current and in a previous round once the rounds are pooled: Cat first,
    Dog last. *)
Definition cat_cat_then_dog : list Raw.row :=
  [mk_row "job" "a.jpg" "w1" ["Cat"]; mk_row "job" "a.jpg" "w2" ["Cat"];
   mk_row "job" "a.jpg" "w1" ["Dog"]].

(** Dog and Cat tied at one answer each. *)
Definition dog_cat : list Raw.row :=
  [mk_row "job" "a.jpg" "w1" ["Dog"]; mk_row "job" "a.jpg" "w2" ["Cat"]].

Definition dog_cat_summary : Summary.t :=
  {| Summary.worker_list := ["w1"; "w2"];
     Summary.all_labels := ["Dog"; "Cat"];
     Summary.labels_all_same := false;
     Summary.no_most_common_labels := 1;
     Summary.no_eligible_workers := 2;
     Summary.majority_label := ["Cat"; "Dog"];
     Summary.majority_label_description := "Cat, Dog (need relabelling)";
     Summary.majority_label_verbose := "Cat (1 / 2), Dog (1 / 2)";
     Summary.is_label_certain := false;
     Summary.decoy_label := None;
     Summary.is_decoy := false;
     Summary.worker_quality := [] |}.

(** Two rows of ratings: worker a agrees once in two, worker b twice. *)
Definition half_and_all : list (list (string * Z)) :=
  [[("a", 0); ("b", 1)]; [("a", 1); ("b", 1)]].

Definition half_and_all_workers : list Worker.row :=
  [ {| Worker.worker_id := "a"; Worker.mean := 0.5%float;
       Worker.count := 1; Worker.is_worker_reliable := false |};
    {| Worker.worker_id := "b"; Worker.mean := 1%float;
       Worker.count := 1; Worker.is_worker_reliable := true |} ].

(** The current round: two workers answer Cat on x.jpg. *)
Definition round2 : list Raw.row :=
  [mk_row "job2" "x.jpg" "w1" ["Cat"]; mk_row "job2" "x.jpg" "w2" ["Cat"]].

(** A previous round: three workers answer Cat on the same image. *)
Definition round1 : list Raw.row :=
  [mk_row "job1" "x.jpg" "w1" ["Cat"]; mk_row "job1" "x.jpg" "w2" ["Cat"];
   mk_row "job1" "x.jpg" "w3" ["Cat"]].

(** The tables of a returning call, the empty tables otherwise. *)
Definition returned_tables (r : result (list Summary.t * list Summary.t))
  : list Summary.t * list Summary.t :=
  match r with
  | Ok tables => tables
  | Raise _ => ([], [])
  end.

Definition two_rounds_tables : list Summary.t * list Summary.t :=
  Eval vm_compute in
    returned_tables
      (filter_out_unreliable_workers round2 [round1] 0.8%float 2 0.5%float ∅ true).

(** Three workers on one image; the third disagrees with the majority. *)
Definition cat_cat_dog : list Raw.row :=
  [mk_row "job" "a.jpg" "w1" ["Cat"]; mk_row "job" "a.jpg" "w2" ["Cat"];
   mk_row "job" "a.jpg" "w3" ["Dog"]].

Definition one_round_tables : list Summary.t * list Summary.t :=
  Eval vm_compute in
    returned_tables
      (filter_out_unreliable_workers cat_cat_dog [] 0.8%float 2 0.5%float ∅ false).

(** [int] on a string of decimal digits; anything else is refused here. *)
Fixpoint digits_value (s : string) (acc : Z) : result Z :=
  match s with
  | EmptyString => Ok acc
  | String c s' =>
      let n := Z.of_N (N_of_ascii c) - 48 in
      if (0 <=? n)%Z && (n <=? 9)%Z then digits_value s' (10 * acc + n)
      else Raise ValueError
  end.

Definition int_of_digits (s : string) : result Z :=
  match s with
  | EmptyString => Raise ValueError
  | _ => digits_value s 0
  end.

(** The JSON texts of the sample are named, not spelled out: each decoder
    knows the texts of the sample and refuses any other. *)
Definition sample_loads_manifest (text : string)
  : result (list Payload.manifest_entry) :=
  if String.eqb text "manifest"
  then Ok [Payload.Entry 0 "s3://bucket/in/a.jpg";
           Payload.Entry 1 "s3://bucket/in/b.jpg"]
  else Raise ValueError.

Definition sample_loads_annotations (text : string)
  : result (list (string * string)) :=
  if String.eqb text "answers"
  then Ok [("label-0", "cat"); ("label-5", "dog")]
  else Raise ValueError.

Definition sample_loads_labels (text : string) : result (list string) :=
  if String.eqb text "cat" then Ok ["Cat"]
  else if String.eqb text "dog" then Ok ["Dog"]
  else Raise ValueError.

Definition sample_fname : string :=
  "/data/job7/annotations/worker-response/iteration-1/0/responses.json".

(** One annotation set, one worker, two answers: the first for index 0,
    the second for index 5, which the manifest does not have. *)
Definition sample_data : list Payload.annotation_set :=
  [Payload.AnnotationSet "manifest" "42" [Payload.Labelling "worker-A" "answers"]].

Definition sample_read_responses : result (list Raw.row) :=
  read_responses (fun p => p) sample_loads_manifest sample_loads_annotations
    sample_loads_labels int_of_digits sample_fname sample_data.

(** A decoder for the one text of the sample event. *)
Definition sample_json_loads (text : string) : result pyval :=
  if String.eqb text "[1, 2]" then Ok (PList [PInt 1; PInt 2])
  else Raise ValueError.

Definition sample_event : pyval :=
  PDict [("version", PStr "2018-10-16");
         ("dataObject", PDict [("source", PStr "[1, 2]")])].

(** ** The labels of a payload *)

Section label_entries.
Variable loads_annotations : string -> result (list (string * string)).

(** The labels submitted in a payload, in the order of the loops: each with
    its annotation set and its worker's submission. A submission whose text
    does not decode contributes none. *)
Definition label_entries (data : list Payload.annotation_set)
  : list (Payload.annotation_set * Payload.labelling * (string * string)) :=
  flat_map
    (fun annotation_set =>
       flat_map
         (fun labelling =>
            match loads_annotations (Payload.annotationData_content labelling) with
            | Ok items => map (fun item => (annotation_set, labelling, item)) items
            | Raise _ => []
            end)
         (Payload.annotations annotation_set))
    data.
End label_entries.

(** Reliability frames whose workers c and d appear in previous rounds,
    supplied in the two possible orders. *)
Definition rounds_c_d : list (list (list (string * Z))) :=
  [[[("c", 0)]]; [[("d", 1)]]].

Definition rounds_d_c : list (list (list (string * Z))) :=
  [[[("d", 1)]]; [[("c", 0)]]].

Definition worker_c : Worker.row :=
  {| Worker.worker_id := "c"; Worker.mean := 0%float;
     Worker.count := 0; Worker.is_worker_reliable := false |}.

Definition worker_d : Worker.row :=
  {| Worker.worker_id := "d"; Worker.mean := 1%float;
     Worker.count := 0; Worker.is_worker_reliable := true |}.

(** The answers of the sample with the second one moved to index 1, which
    the manifest has. *)
Definition sample_loads_annotations_resolved (text : string)
  : result (list (string * string)) :=
  if String.eqb text "answers"
  then Ok [("label-0", "cat"); ("label-1", "dog")]
  else Raise ValueError.

Definition sample_rows : list Raw.row :=
  [ {| Raw.labelling_job_name := "job7"; Raw.labels_fname := sample_fname;
       Raw.image_filename := "a.jpg"; Raw.image_index := 0;
       Raw.worker_id := "worker-A"; Raw.labels := ["Cat"];
       Raw.dataset_object_id := "42" |};
    {| Raw.labelling_job_name := "job7"; Raw.labels_fname := sample_fname;
       Raw.image_filename := "b.jpg"; Raw.image_index := 1;
       Raw.worker_id := "worker-A"; Raw.labels := ["Dog"];
       Raw.dataset_object_id := "42" |} ].

(** A stand-in for [json.dumps] in the samples; the properties of
    [prepare_manifest] hold for every serialiser. *)
Definition sample_json_dumps (v : pyval) : string := "[...]".

(** Three files to label. *)
Definition sample_files : list string :=
  ["s3://bucket/in/a.jpg"; "s3://bucket/in/b.jpg"; "s3://bucket/in/c.jpg"].

(** An event of the post-processing handler that carries its payload: one
    dataset object with one annotation. *)
Definition sample_consolidation_event : pyval :=
  PDict [("labelAttributeName", PStr "event");
         ("test_payload",
          PList [PDict [("datasetObjectId", PStr "7");
                        ("annotations",
                         PList [PDict [("workerId", PStr "worker-A");
                                       ("annotationData",
                                        PDict [("content", PStr "[1, 2]")])]])]])].

Definition sample_consolidated : list Consolidated.t :=
  [Consolidated.Make (PStr "7") (PStr "event")
     [Consolidated.Response (PStr "worker-A") (PList [PInt 1; PInt 2])]].

(** No object store in the samples. *)
Definition sample_s3_get_json (s3Uri : pyval) : result pyval :=
  Raise (Exception "ClientError").

(** The manifest of the three sample files at two files a task. *)
Definition sample_manifest : list pyval :=
  Eval vm_compute in
    match prepare_manifest sample_json_dumps sample_files [] [] ["Cat"; "Dog"]
            "Other" 2 with
    | Ok manifest => manifest
    | Raise _ => []
    end.

(** Two images answered by the same two workers, in opposite orders. *)
Definition crossed_rows : list Raw.row :=
  [mk_row "job" "a.jpg" "w1" ["Cat"]; mk_row "job" "a.jpg" "w2" ["Cat"];
   mk_row "job" "b.jpg" "w2" ["Dog"]; mk_row "job" "b.jpg" "w1" ["Dog"]].

Definition crossed_tables : list Summary.t * list Summary.t :=
  Eval vm_compute in
    returned_tables
      (filter_out_unreliable_workers crossed_rows [] 0.8%float 2 0.5%float ∅ false).

(** * Properties *)

(** ** The error monad *)

Lemma bind_Ok {A B : Type} (m : result A) (f : A -> result B) (b : B) :
  m ≫= f = Ok b -> exists a, m = Ok a /\ f a = Ok b.
Proof. destruct m as [a|e]; simpl; [eauto | discriminate]. Qed.

Lemma mapM_result_Ok_length {A B : Type} (f : A -> result B) l ys :
  mapM_result f l = Ok ys -> length ys = length l.
Proof.
  revert ys. induction l as [|x l IH]; intros ys; simpl.
  - intros [= <-]. reflexivity.
  - destruct (f x) as [y|]; [|discriminate].
    destruct (mapM_result f l) as [ys'|]; [|discriminate].
    intros [= <-]. simpl. f_equal. by apply IH.
Qed.

Lemma mapM_result_Ok_lookup {A B : Type} (f : A -> result B) l ys i x :
  mapM_result f l = Ok ys -> l !! i = Some x ->
  exists y, ys !! i = Some y /\ f x = Ok y.
Proof.
  revert ys i. induction l as [|x' l IH]; intros ys i; simpl; [done|].
  destruct (f x') as [y|] eqn:Hy; [|discriminate].
  destruct (mapM_result f l) as [ys'|]; [|discriminate].
  intros [= <-]. destruct i as [|i]; simpl.
  - intros [= ->]. eauto.
  - by apply IH.
Qed.

Lemma mapM_result_Ok_lookup_inv {A B : Type} (f : A -> result B) l ys i y :
  mapM_result f l = Ok ys -> ys !! i = Some y ->
  exists x, l !! i = Some x /\ f x = Ok y.
Proof.
  revert ys i. induction l as [|x' l IH]; intros ys i; simpl.
  - intros [= <-]. done.
  - destruct (f x') as [y'|] eqn:Hy; [|discriminate].
    destruct (mapM_result f l) as [ys'|]; [|discriminate].
    intros [= <-]. destruct i as [|i]; simpl.
    + intros [= ->]. eauto.
    + by apply IH.
Qed.

Lemma mapM_result_total {A B : Type} (f : A -> result B) l :
  (forall x, x ∈ l -> exists y, f x = Ok y) -> exists ys, mapM_result f l = Ok ys.
Proof.
  induction l as [|x l IH]; intros Hf; simpl; [eauto|].
  destruct (Hf x) as [y ->]; [left|].
  destruct IH as [ys ->]; [|eauto].
  intros z Hz. apply Hf. by right.
Qed.

Lemma mapM_result_Raise {A B : Type} (f : A -> result B) l x e :
  x ∈ l -> f x = Raise e -> exists e', mapM_result f l = Raise e'.
Proof.
  induction l as [|x' l IH]; intros Hx Hf; [by apply elem_of_nil in Hx|].
  simpl. apply elem_of_cons in Hx as [->|Hx].
  - rewrite Hf. eauto.
  - destruct (f x'); [|eauto].
    destruct (IH Hx Hf) as [e' ->]. eauto.
Qed.

(** ** Insertion-ordered dictionaries *)

Section pydict_facts.
Context {K V : Type} `{EqDecision K}.
Implicit Types (d : list (K * V)) (k : K) (v : V).

Lemma dict_get_set d k v k' :
  dict_get (dict_set d k v) k' = if decide (k' = k) then Some v else dict_get d k'.
Proof.
  induction d as [|[k0 v0] d IH]; simpl.
  - by destruct (decide (k' = k)).
  - destruct (decide (k = k0)) as [->|Hne]; simpl.
    + by destruct (decide (k' = k0)).
    + destruct (decide (k' = k0)) as [->|Hne'].
      * destruct (decide (k0 = k)); congruence.
      * apply IH.
Qed.

Lemma dict_get_None d k : dict_get d k = None <-> k ∉ d.*1.
Proof.
  induction d as [|[k0 v0] d IH]; simpl.
  - split; [intros _; apply not_elem_of_nil | done].
  - rewrite not_elem_of_cons. destruct (decide (k = k0)) as [->|Hne].
    + split; [discriminate | intros [? _]; done].
    + rewrite IH. split; [done | intros [_ ?]; done].
Qed.

Lemma dict_get_Some_elem d k v : dict_get d k = Some v -> (k, v) ∈ d.
Proof.
  induction d as [|[k0 v0] d IH]; simpl; [done|].
  destruct (decide (k = k0)) as [->|].
  - intros [= ->]. left.
  - intros. right. auto.
Qed.

Lemma dict_elem_get d k v : NoDup d.*1 -> (k, v) ∈ d -> dict_get d k = Some v.
Proof.
  induction d as [|[k0 v0] d IH]; simpl; intros Hnd Hin.
  - by apply elem_of_nil in Hin.
  - apply NoDup_cons in Hnd as [Hk0 Hnd].
    apply elem_of_cons in Hin as [[= -> ->]|Hin].
    + by rewrite decide_True.
    + destruct (decide (k = k0)) as [->|]; [|auto].
      exfalso. apply Hk0. apply list_elem_of_fmap. by exists (k0, v).
Qed.

Lemma dict_set_keys d k v :
  (dict_set d k v).*1 = if decide (k ∈ d.*1) then d.*1 else (d.*1 ++ [k])%list.
Proof.
  induction d as [|[k0 v0] d IH].
  - done.
  - cbn [dict_set]. destruct (decide (k = k0)) as [->|Hne].
    + csimpl. clear IH. case_decide as Hin; [done|].
      exfalso. apply Hin. left.
    + csimpl. rewrite IH. clear IH.
      destruct (decide (k ∈ d.*1)) as [Hin|Hnin]; case_decide as Hin'.
      * done.
      * exfalso. apply Hin'. by right.
      * apply elem_of_cons in Hin' as [?|?]; done.
      * done.
Qed.

Lemma dict_set_NoDup d k v : NoDup d.*1 -> NoDup (dict_set d k v).*1.
Proof.
  intros Hnd. rewrite dict_set_keys. destruct (decide (k ∈ d.*1)); [done|].
  apply NoDup_app. split_and!; [done | | apply NoDup_singleton].
  intros x Hx ->%list_elem_of_singleton. done.
Qed.

Lemma dict_set_elem_keys d k v k' :
  k' ∈ (dict_set d k v).*1 <-> k' = k \/ k' ∈ d.*1.
Proof.
  rewrite dict_set_keys. destruct (decide (k ∈ d.*1)).
  - naive_solver.
  - rewrite elem_of_app, list_elem_of_singleton. naive_solver.
Qed.
End pydict_facts.

(** ** Counter *)

Lemma freq_nonneg x l : 0 <= freq x l.
Proof. induction l as [|y l IH]; simpl; [lia|]. destruct (decide (x = y)); lia. Qed.

Lemma freq_pos x l : x ∈ l -> 0 < freq x l.
Proof.
  induction l as [|y l IH]; [by intros ?%elem_of_nil|].
  simpl. pose proof (freq_nonneg x l).
  intros [->|Hin]%elem_of_cons.
  - rewrite decide_True by done. lia.
  - specialize (IH Hin). destruct (decide (x = y)); lia.
Qed.

Lemma freq_not_elem x l : x ∉ l -> freq x l = 0.
Proof.
  induction l as [|y l IH]; [done|].
  rewrite not_elem_of_cons. intros [Hne Hnin]. simpl.
  rewrite decide_False by done. rewrite IH by done. done.
Qed.

Lemma counter_foldl_get l c x :
  dict_get (foldl counter_step c l) x =
    if decide (x ∈ l) then Some (default 0 (dict_get c x) + freq x l)
    else dict_get c x.
Proof.
  revert c. induction l as [|y l IH]; intros c.
  - cbn [foldl]. case_decide as Hin; [by apply elem_of_nil in Hin | done].
  - cbn [foldl freq]. rewrite IH. clear IH. unfold counter_step.
    rewrite dict_get_set.
    destruct (decide (x = y)) as [->|Hne].
    + rewrite (decide_True (P := y ∈ y :: l)) by left. cbn [default].
      destruct (decide (y ∈ l)) as [Hin|Hnin]; f_equal; unfold id.
      * lia.
      * rewrite (freq_not_elem _ _ Hnin). lia.
    + destruct (decide (x ∈ l)) as [Hin|Hnin].
      * rewrite decide_True by (by right). f_equal; lia.
      * rewrite decide_False; [done|]. rewrite not_elem_of_cons. done.
Qed.

Lemma Counter_get l x :
  dict_get (Counter l) x = if decide (x ∈ l) then Some (freq x l) else None.
Proof. unfold Counter. rewrite counter_foldl_get. simpl. done. Qed.

Lemma counter_foldl_NoDup l c : NoDup c.*1 -> NoDup (foldl counter_step c l).*1.
Proof.
  revert c. induction l as [|y l IH]; intros c Hc; simpl; [done|].
  apply IH. by apply dict_set_NoDup.
Qed.

Lemma Counter_NoDup l : NoDup (Counter l).*1.
Proof. apply counter_foldl_NoDup. simpl. apply NoDup_nil_2. Qed.

(** The items of the counter are the distinct labels, each with its
    frequency. *)
Lemma elem_of_Counter l x n : (x, n) ∈ Counter l <-> x ∈ l /\ n = freq x l.
Proof.
  split.
  - intros Hin. apply (dict_elem_get _ _ _ (Counter_NoDup l)) in Hin.
    rewrite Counter_get in Hin. destruct (decide (x ∈ l)); naive_solver.
  - intros [Hin ->]. apply dict_get_Some_elem.
    rewrite Counter_get. by rewrite decide_True.
Qed.

Lemma Counter_nil_inv l : Counter l = [] -> l = [].
Proof.
  destruct l as [|x l]; [done|]. intros Hc.
  assert (Hin : (x, freq x (x :: l)) ∈ Counter (x :: l)).
  { apply elem_of_Counter. split; [left | done]. }
  rewrite Hc in Hin. by apply elem_of_nil in Hin.
Qed.

(** ** The most common count is the maximum frequency *)

Lemma most_common_fold_spec (rest : list (string * Z)) item :
  let best := foldl (fun best it => if (best.2 <? it.2)%Z then it else best) item rest in
  best ∈ item :: rest /\ forall it, it ∈ item :: rest -> it.2 <= best.2.
Proof.
  revert item. induction rest as [|y rest IH]; intros item; simpl.
  - split; [left|]. intros it ->%list_elem_of_singleton. lia.
  - destruct (IH (if (item.2 <? y.2)%Z then y else item)) as [Hin Hmax].
    split.
    + apply elem_of_cons in Hin as [->|Hin].
      * destruct (item.2 <? y.2)%Z; [right; left | left].
      * right; by right.
    + intros it Hit.
      assert (Hb : item.2 <= (if (item.2 <? y.2)%Z then y else item).2
                   /\ y.2 <= (if (item.2 <? y.2)%Z then y else item).2).
      { destruct (Z.ltb_spec item.2 y.2); simpl; lia. }
      pose proof (Hmax _ (list_elem_of_here _ _)) as Hb'.
      apply elem_of_cons in Hit as [->|[->|Hit]%elem_of_cons].
      * lia.
      * lia.
      * apply Hmax. by right.
Qed.

Lemma most_common_1_spec c best :
  getitem0 (most_common_1 c) = Ok best ->
  best ∈ c /\ forall it, it ∈ c -> it.2 <= best.2.
Proof.
  destruct c as [|item rest]; simpl; [discriminate|].
  intros [= <-]. apply most_common_fold_spec.
Qed.

Lemma foldr_max_le (zs : list Z) z : z ∈ zs -> z <= foldr Z.max 0 zs.
Proof.
  induction zs as [|y zs IH]; [by intros ?%elem_of_nil|].
  simpl. intros [->|Hin]%elem_of_cons; [lia|]. specialize (IH Hin). lia.
Qed.

Lemma foldr_max_elem (zs : list Z) :
  zs <> [] -> (forall z, z ∈ zs -> 0 <= z) -> foldr Z.max 0 zs ∈ zs.
Proof.
  induction zs as [|y zs IH]; [done|]. intros _ Hpos. simpl.
  destruct zs as [|y' zs].
  - simpl. rewrite Z.max_l; [left|]. apply Hpos. left.
  - destruct (Z.max_spec y (foldr Z.max 0 (y' :: zs))) as [[_ ->]|[_ ->]].
    + right. apply IH; [done|]. intros z Hz. apply Hpos. by right.
    + left.
Qed.

(** [max_frequency] is attained by a label of the list and bounds the
    frequency of every label. *)
Lemma max_frequency_attained l :
  l <> [] -> exists x, x ∈ l /\ freq x l = max_frequency l.
Proof.
  intros Hl. unfold max_frequency.
  assert (Hin : foldr Z.max 0 (map (fun x => freq x l) l) ∈ map (fun x => freq x l) l).
  { apply foldr_max_elem.
    - by destruct l.
    - intros z (x & -> & _)%list_elem_of_fmap. apply freq_nonneg. }
  apply list_elem_of_fmap in Hin as (x & Heq & Hx). eauto.
Qed.

Lemma max_frequency_bound l x : freq x l <= max_frequency l.
Proof.
  destruct (decide (x ∈ l)) as [Hin|Hnin].
  - apply foldr_max_le. apply list_elem_of_fmap. eauto.
  - rewrite (freq_not_elem _ _ Hnin). unfold max_frequency.
    generalize (map (fun x => freq x l) l). intros zs.
    induction zs; simpl; lia.
Qed.

Lemma most_common_count_max l best :
  getitem0 (most_common_1 (Counter l)) = Ok best ->
  l <> [] /\ best.1 ∈ l /\ best.2 = max_frequency l.
Proof.
  intros Hbest. apply most_common_1_spec in Hbest as [Hin Hmax].
  destruct best as [x n]. apply elem_of_Counter in Hin as [Hx ->]. simpl.
  assert (Hl : l <> []) by (intros ->; by apply elem_of_nil in Hx).
  split_and!; [done..|].
  destruct (max_frequency_attained l Hl) as (y & Hy & Hfy).
  pose proof (max_frequency_bound l x).
  specialize (Hmax (y, freq y l)). simpl in Hmax.
  assert (freq y l <= freq x l) by (apply Hmax, elem_of_Counter; done).
  lia.
Qed.

(** ** What get_summary_stats_for_image returns *)

Section summary_facts.
Variables (raw_labels : list Raw.row) (min_ratings_no : Z)
          (min_ratings_prop : float) (decoys : gmap string string).

Local Abbreviation labels := (concat (map Raw.labels raw_labels)).
Local Abbreviation count := (max_frequency labels).
Local Abbreviation majority :=
  (merge_sort String.le (filter (fun kv => kv.2 = count) (Counter labels)).*1).
Local Abbreviation certain :=
  (bool_decide (min_ratings_no <= count)
   && int_gt_float count
        (float_mul_int min_ratings_prop (Z.of_nat (length raw_labels)))).

(** The fields of a returned summary, with the most common count
    identified as the maximum frequency. *)
Lemma get_summary_stats_for_image_Ok out :
  get_summary_stats_for_image raw_labels min_ratings_no min_ratings_prop decoys
    = Ok out ->
  labels <> [] /\
  Summary.worker_list out = map Raw.worker_id raw_labels /\
  Summary.all_labels out = labels /\
  Summary.no_most_common_labels out = count /\
  Summary.no_eligible_workers out = Z.of_nat (length raw_labels) /\
  Summary.majority_label out = majority /\
  Summary.is_label_certain out = certain /\
  Summary.decoy_label out = None /\
  Summary.is_decoy out = false /\
  Summary.worker_quality out = worker_quality_mapping certain majority raw_labels.
Proof.
  unfold get_summary_stats_for_image. intros H.
  apply bind_Ok in H as (labels' & Hl & H).
  assert (labels' = labels) as ->.
  { destruct raw_labels; [discriminate | by injection Hl]. }
  apply bind_Ok in H as (best & Hbest & H).
  apply most_common_count_max in Hbest as (Hne & _ & Hcount).
  rewrite Hcount in H.
  rewrite length_map in H.
  unfold decoys_getitem, iloc_call in H. injection H as <-. simpl.
  split_and!; done.
Qed.

(** The call returns exactly when some label was submitted; with rows
    but no label at all, [most_common(1)[0]] raises. *)
Lemma get_summary_stats_for_image_returns :
  labels <> [] ->
  exists out,
    get_summary_stats_for_image raw_labels min_ratings_no min_ratings_prop decoys
      = Ok out.
Proof.
  intros Hne. unfold get_summary_stats_for_image.
  destruct raw_labels as [|r rs]; [done|].
  cbn [mbind result_bind].
  destruct (Counter _) as [|item rest] eqn:Hc.
  { by apply Counter_nil_inv in Hc. }
  cbn [most_common_1 getitem0 mbind result_bind]. eauto.
Qed.

Lemma get_summary_stats_for_image_no_label :
  raw_labels <> [] -> labels = [] ->
  get_summary_stats_for_image raw_labels min_ratings_no min_ratings_prop decoys
    = Raise IndexError.
Proof.
  intros Hraw Hl. unfold get_summary_stats_for_image.
  destruct raw_labels as [|r rs]; [done|].
  cbn [mbind result_bind]. rewrite Hl. done.
Qed.

(** The labels listed as the majority. *)
Lemma elem_of_majority x :
  x ∈ majority <-> x ∈ labels /\ freq x labels = count.
Proof.
  rewrite merge_sort_Permutation.
  rewrite list_elem_of_fmap. split.
  - intros ([y n] & -> & Hin). simpl.
    apply list_elem_of_filter in Hin as [Hn Hin]. simpl in Hn.
    apply elem_of_Counter in Hin as [Hy ->]. done.
  - intros [Hx Hf]. exists (x, freq x labels). split; [done|].
    apply list_elem_of_filter. split; [done|].
    by apply elem_of_Counter.
Qed.

Lemma majority_NoDup : NoDup majority.
Proof.
  rewrite merge_sort_Permutation.
  apply (sublist_NoDup _ (Counter labels).*1); [apply Counter_NoDup|].
  apply fmap_sublist, sublist_filter.
Qed.

Lemma majority_sorted : StronglySorted String.le majority.
Proof. apply StronglySorted_merge_sort; apply _. Qed.
End summary_facts.

(** ** The worker-quality mapping *)

Lemma worker_quality_mapping_uncertain majority raw_labels :
  worker_quality_mapping false majority raw_labels = [].
Proof.
  unfold worker_quality_mapping. generalize (@nil (string * Z)).
  induction raw_labels as [|r rs IH]; intros d; simpl; [done | apply IH].
Qed.

Lemma is_majority_label_1 majority labels :
  (exists label, label ∈ labels /\ label ∈ majority) ->
  is_majority_label majority labels = 1.
Proof.
  intros (label & Hl & Hm). unfold is_majority_label.
  assert (existsb (fun label => bool_decide (label ∈ majority)) labels = true) as ->; [|done].
  apply existsb_exists. exists label. split; [by apply list_elem_of_In|].
  by apply bool_decide_eq_true.
Qed.

Lemma is_majority_label_0 majority labels :
  ~ (exists label, label ∈ labels /\ label ∈ majority) ->
  is_majority_label majority labels = 0.
Proof.
  intros Hno. unfold is_majority_label.
  destruct (existsb _ labels) eqn:He; [|done].
  exfalso. apply Hno. apply existsb_exists in He as (label & Hl & Hm).
  exists label. split; [by apply list_elem_of_In|].
  by apply bool_decide_eq_true in Hm.
Qed.

Section quality_loop.
Variable majority : list string.

Local Abbreviation step :=
  (fun (mapping : list (string * Z)) (row : Raw.row) =>
     dict_set mapping (Raw.worker_id row)
       (is_majority_label majority (Raw.labels row))).

Lemma worker_quality_mapping_certain raw_labels :
  worker_quality_mapping true majority raw_labels = foldl step [] raw_labels.
Proof. reflexivity. Qed.

(** A later row of the same worker overwrites an earlier one: the entry
    of a worker is decided by the last of that worker's rows. *)
Lemma quality_loop_get raw_labels d w :
  dict_get (foldl step d raw_labels) w =
    match last (filter (fun r => Raw.worker_id r = w) raw_labels) with
    | Some r => Some (is_majority_label majority (Raw.labels r))
    | None => dict_get d w
    end.
Proof.
  revert d. induction raw_labels as [|r rs IH]; intros d; [done|].
  cbn [foldl]. rewrite IH. clear IH. rewrite filter_cons.
  destruct (decide (Raw.worker_id r = w)) as [Hw|Hw].
  - rewrite last_cons.
    destruct (last (filter _ rs)); [done|].
    cbn beta. rewrite dict_get_set. by rewrite decide_True.
  - destruct (last (filter _ rs)); [done|].
    cbn beta. rewrite dict_get_set. by rewrite decide_False.
Qed.

Lemma quality_loop_keys raw_labels d w :
  w ∈ (foldl step d raw_labels).*1 <->
  w ∈ d.*1 \/ w ∈ map Raw.worker_id raw_labels.
Proof.
  revert d. induction raw_labels as [|r rs IH]; intros d.
  - cbn [foldl map]. rewrite elem_of_nil. tauto.
  - cbn [foldl map]. rewrite IH. cbn beta. rewrite dict_set_elem_keys.
    rewrite elem_of_cons. tauto.
Qed.

Lemma quality_loop_NoDup raw_labels d :
  NoDup d.*1 -> NoDup (foldl step d raw_labels).*1.
Proof.
  revert d. induction raw_labels as [|r rs IH]; intros d Hd; [done|].
  cbn [foldl]. apply IH. by apply dict_set_NoDup.
Qed.
End quality_loop.

Lemma filter_none {A : Type} (P : A -> Prop) `{forall x, Decision (P x)} (l : list A) :
  (forall x, x ∈ l -> ~ P x) -> filter P l = [].
Proof.
  induction l as [|x l IH]; intros Hl; [done|].
  rewrite filter_cons. rewrite decide_False by (apply Hl; left).
  apply IH. intros y Hy. apply Hl. by right.
Qed.

(** With one row per worker, the rows of a worker are that one row. *)
Lemma filter_worker_NoDup (raw_labels : list Raw.row) r :
  NoDup (map Raw.worker_id raw_labels) -> r ∈ raw_labels ->
  filter (fun r' => Raw.worker_id r' = Raw.worker_id r) raw_labels = [r].
Proof.
  induction raw_labels as [|r0 rs IH]; [by intros _ ?%elem_of_nil|].
  cbn [map]. intros [Hr0 Hnd]%NoDup_cons Hin. rewrite filter_cons.
  assert (Hrest : forall r', r' ∈ rs -> Raw.worker_id r' <> Raw.worker_id r0).
  { intros r' Hr' Heq. apply Hr0. rewrite <- Heq.
    apply list_elem_of_fmap. eauto. }
  apply elem_of_cons in Hin as [->|Hin].
  - rewrite decide_True by done. f_equal.
    apply filter_none. intros r' Hr'. by apply Hrest.
  - rewrite decide_False; [by apply IH|].
    intros Heq. by apply (Hrest r Hin).
Qed.

(** * The claims *)

Lemma cat_dog_cat_returns :
  get_summary_stats_for_image cat_dog_cat 2 0.5%float ∅ = Ok cat_dog_cat_summary.
Proof. vm_compute. reflexivity. Qed.

Lemma max_frequency_nonneg l : 0 <= max_frequency l.
Proof.
  unfold max_frequency. generalize (map (fun x => freq x l) l). intros zs.
  induction zs; simpl; lia.
Qed.

Lemma float_of_int_nonneg z :
  0 <= z -> float_of_int z = PrimFloat.of_uint63 (Uint63.of_Z z).
Proof.
  intros Hz. unfold float_of_int. by destruct (Z.ltb_spec z 0); [lia|].
Qed.

(** C1. For a non-empty group of rows, the summary that
    [get_summary_stats_for_image] returns has [is_label_certain] set if and
    only if the maximum label frequency is at least [min_ratings_no] and
    is, besides, strictly greater than [min_ratings_prop] times the number
    of rows. The two conditions are conjoined: when either fails the label
    is not certain. The product and the strict comparison are those of
    binary64, on the two counts converted to floats. *)
Theorem certain_iff_count_and_proportion
    (raw_labels : list Raw.row) (min_ratings_no : Z) (min_ratings_prop : float)
    (decoys : gmap string string) (out : Summary.t) :
  raw_labels <> [] ->
  get_summary_stats_for_image raw_labels min_ratings_no min_ratings_prop decoys
    = Ok out ->
  (Summary.is_label_certain out = true <->
     min_ratings_no <= max_frequency (concat (map Raw.labels raw_labels))
     /\ PrimFloat.ltb
          (PrimFloat.mul min_ratings_prop
             (PrimFloat.of_uint63
                (Uint63.of_Z (Z.of_nat (length raw_labels)))))
          (PrimFloat.of_uint63
             (Uint63.of_Z (max_frequency (concat (map Raw.labels raw_labels)))))
        = true).
Proof.
  intros _ Hout.
  apply get_summary_stats_for_image_Ok in Hout as (_ & _ & _ & _ & _ & _ & -> & _).
  rewrite andb_true_iff, bool_decide_eq_true.
  unfold int_gt_float, float_mul_int.
  rewrite !float_of_int_nonneg by (apply max_frequency_nonneg || lia).
  done.
Qed.

Lemma certain_iff_count_and_proportion_witness :
  Summary.is_label_certain cat_dog_cat_summary = true <->
    2 <= max_frequency (concat (map Raw.labels cat_dog_cat))
    /\ PrimFloat.ltb
         (PrimFloat.mul 0.5%float
            (PrimFloat.of_uint63 (Uint63.of_Z (Z.of_nat (length cat_dog_cat)))))
         (PrimFloat.of_uint63
            (Uint63.of_Z (max_frequency (concat (map Raw.labels cat_dog_cat)))))
       = true.
Proof.
  apply (certain_iff_count_and_proportion cat_dog_cat 2 0.5%float ∅).
  - discriminate.
  - vm_compute. reflexivity.
Defined.

(** The proportion is tested in binary64: of a hundred answers, 29 for
    the most frequent label are more than 0.29 times a hundred, because
    that product is rounded to 28.999999999999996. *)
Example proportion_test_is_binary64 :
  exists out,
    get_summary_stats_for_image
      (replicate 29 (mk_row "job" "a.jpg" "w" ["Cat"])
         ++ replicate 71 (mk_row "job" "a.jpg" "w" []))%list
      2 0.29%float ∅ = Ok out
    /\ Summary.no_most_common_labels out = 29
    /\ Summary.no_eligible_workers out = 100
    /\ PrimFloat.mul 0.29%float 100%float = 28.999999999999996%float
    /\ Summary.is_label_certain out = true.
Proof. eexists. split_and!; vm_compute; reflexivity. Qed.

(** Two answers out of two are not certain when three are asked for,
    although they pass the proportion: the count alone decides here. *)
Example two_of_two_needs_three :
  exists out,
    get_summary_stats_for_image
      [mk_row "job" "a.jpg" "w1" ["Cat"]; mk_row "job" "a.jpg" "w2" ["Cat"]]
      3 0.5%float ∅ = Ok out
    /\ int_gt_float (Summary.no_most_common_labels out)
         (float_mul_int 0.5%float (Summary.no_eligible_workers out)) = true
    /\ Summary.is_label_certain out = false.
Proof. eexists. split; [vm_compute; reflexivity | split; vm_compute; reflexivity]. Qed.

(** Two answers in four reach the count of two but not more than half of
    the rows: the proportion alone decides here. *)
Example two_of_four_needs_majority :
  exists out,
    get_summary_stats_for_image
      [mk_row "job" "a.jpg" "w1" ["Cat"]; mk_row "job" "a.jpg" "w2" ["Cat"];
       mk_row "job" "a.jpg" "w3" ["Dog"]; mk_row "job" "a.jpg" "w4" ["Fox"]]
      2 0.5%float ∅ = Ok out
    /\ 2 <= Summary.no_most_common_labels out
    /\ Summary.is_label_certain out = false.
Proof. eexists. split; [vm_compute; reflexivity | split; [vm_compute; discriminate | vm_compute; reflexivity]]. Qed.

(** With one row per worker, the entry of a worker tells whether any of
    the labels that worker submitted is a majority label. *)
Lemma worker_quality_one_row_per_worker
    (raw_labels : list Raw.row) (min_ratings_no : Z) (min_ratings_prop : float)
    (decoys : gmap string string) (out : Summary.t) (r : Raw.row) :
  NoDup (map Raw.worker_id raw_labels) ->
  get_summary_stats_for_image raw_labels min_ratings_no min_ratings_prop decoys
    = Ok out ->
  Summary.is_label_certain out = true ->
  r ∈ raw_labels ->
  dict_get (Summary.worker_quality out) (Raw.worker_id r)
  = Some (is_majority_label (Summary.majority_label out) (Raw.labels r)).
Proof.
  intros Hnd Hout Hc Hr.
  apply get_summary_stats_for_image_Ok in Hout
    as (_ & _ & _ & _ & _ & Hmaj & Hcert & _ & _ & Hwq).
  rewrite Hwq, Hmaj. rewrite Hcert in Hc. rewrite Hc.
  rewrite worker_quality_mapping_certain, quality_loop_get.
  by rewrite (filter_worker_NoDup _ _ Hnd Hr).
Qed.

(** C2, as amended. The returned [worker_quality] mapping is empty when
    the label is not certain. When it is certain, its keys are the workers
    of the group, and a worker is mapped to 1 if one of the labels of that
    worker's last row in the group is a majority label, to 0 otherwise; a
    worker with one row in the group is so mapped by the labels that worker
    submitted. *)
Theorem worker_quality_only_when_certain
    (raw_labels : list Raw.row) (min_ratings_no : Z) (min_ratings_prop : float)
    (decoys : gmap string string) (out : Summary.t) :
  get_summary_stats_for_image raw_labels min_ratings_no min_ratings_prop decoys
    = Ok out ->
  (Summary.is_label_certain out = false -> Summary.worker_quality out = [])
  /\ (Summary.is_label_certain out = true ->
        (forall w, w ∈ (Summary.worker_quality out).*1
                   <-> w ∈ Summary.worker_list out)
        /\ forall w r,
             last (filter (fun r' => Raw.worker_id r' = w) raw_labels) = Some r ->
             ((exists label, label ∈ Raw.labels r
                             /\ label ∈ Summary.majority_label out) ->
              dict_get (Summary.worker_quality out) w = Some 1)
             /\ (~ (exists label, label ∈ Raw.labels r
                                  /\ label ∈ Summary.majority_label out) ->
                 dict_get (Summary.worker_quality out) w = Some 0)).
Proof.
  intros Hout.
  apply get_summary_stats_for_image_Ok in Hout
    as (_ & Hwl & _ & _ & _ & Hmaj & Hcert & _ & _ & Hwq).
  rewrite Hwq, Hwl, Hmaj. split.
  - intros Hc. rewrite Hcert in Hc. rewrite Hc.
    apply worker_quality_mapping_uncertain.
  - intros Hc. rewrite Hcert in Hc. rewrite Hc.
    rewrite worker_quality_mapping_certain. split.
    + intros w. rewrite quality_loop_keys. cbn [fmap list_fmap].
      rewrite elem_of_nil. tauto.
    + intros w r Hlast. rewrite quality_loop_get, Hlast.
      split; intros Hl; f_equal.
      * by apply is_majority_label_1.
      * by apply is_majority_label_0.
Qed.

Lemma worker_quality_only_when_certain_witness :
  (Summary.is_label_certain cat_dog_cat_summary = false ->
     Summary.worker_quality cat_dog_cat_summary = [])
  /\ (Summary.is_label_certain cat_dog_cat_summary = true ->
        (forall w, w ∈ (Summary.worker_quality cat_dog_cat_summary).*1
                   <-> w ∈ Summary.worker_list cat_dog_cat_summary)
        /\ forall w r,
             last (filter (fun r' => Raw.worker_id r' = w) cat_dog_cat) = Some r ->
             ((exists label, label ∈ Raw.labels r
                             /\ label ∈ Summary.majority_label cat_dog_cat_summary) ->
              dict_get (Summary.worker_quality cat_dog_cat_summary) w = Some 1)
             /\ (~ (exists label, label ∈ Raw.labels r
                                  /\ label ∈ Summary.majority_label cat_dog_cat_summary) ->
                 dict_get (Summary.worker_quality cat_dog_cat_summary) w = Some 0)).
Proof.
  apply (worker_quality_only_when_certain cat_dog_cat 2 0.5%float ∅).
  vm_compute. reflexivity.
Defined.

(** C2 fails as stated: the label is certain and Cat is the majority;
    worker w1 submitted Cat, and is mapped to 0, by the Dog of the last
    row. *)
Lemma last_row_decides_agreement :
  exists out,
    get_summary_stats_for_image cat_cat_then_dog 2 0.5%float ∅ = Ok out
    /\ Summary.is_label_certain out = true
    /\ Summary.majority_label out = ["Cat"]
    /\ (exists r, r ∈ cat_cat_then_dog /\ Raw.worker_id r = "w1"
                  /\ "Cat" ∈ Raw.labels r)
    /\ dict_get (Summary.worker_quality out) "w1" = Some 0.
Proof.
  eexists. split_and!.
  - vm_compute. reflexivity.
  - reflexivity.
  - reflexivity.
  - eexists. split_and!; [left | reflexivity | left].
  - reflexivity.
Qed.

(** Without the assumption of one row per worker: the entry of a worker is
    decided by the last row of that worker in the group. *)
Lemma worker_quality_last_row
    (raw_labels : list Raw.row) (min_ratings_no : Z) (min_ratings_prop : float)
    (decoys : gmap string string) (out : Summary.t) (w : string) :
  get_summary_stats_for_image raw_labels min_ratings_no min_ratings_prop decoys
    = Ok out ->
  Summary.is_label_certain out = true ->
  dict_get (Summary.worker_quality out) w =
    (fun r => is_majority_label (Summary.majority_label out) (Raw.labels r))
      <$> last (filter (fun r => Raw.worker_id r = w) raw_labels).
Proof.
  intros Hout Hc.
  apply get_summary_stats_for_image_Ok in Hout
    as (_ & _ & _ & _ & _ & Hmaj & Hcert & _ & _ & Hwq).
  rewrite Hwq, Hmaj. rewrite Hcert in Hc. rewrite Hc.
  rewrite worker_quality_mapping_certain, quality_loop_get.
  by destruct (last _).
Qed.

(** C4. For a non-empty group of rows, the returned [majority_label] lists
    exactly the labels whose frequency among the flattened labels is the
    maximum frequency, every tied label once, in lexicographic order; the
    reported count is that maximum, and certainty is evaluated on it. *)
Theorem majority_label_all_tied_sorted
    (raw_labels : list Raw.row) (min_ratings_no : Z) (min_ratings_prop : float)
    (decoys : gmap string string) (out : Summary.t) :
  raw_labels <> [] ->
  get_summary_stats_for_image raw_labels min_ratings_no min_ratings_prop decoys
    = Ok out ->
  (forall x, x ∈ Summary.majority_label out <->
             x ∈ concat (map Raw.labels raw_labels)
             /\ freq x (concat (map Raw.labels raw_labels))
                = max_frequency (concat (map Raw.labels raw_labels)))
  /\ NoDup (Summary.majority_label out)
  /\ StronglySorted String.le (Summary.majority_label out)
  /\ Summary.no_most_common_labels out
     = max_frequency (concat (map Raw.labels raw_labels))
  /\ Summary.is_label_certain out
     = bool_decide (min_ratings_no <= Summary.no_most_common_labels out)
       && int_gt_float (Summary.no_most_common_labels out)
            (float_mul_int min_ratings_prop (Summary.no_eligible_workers out)).
Proof.
  intros _ Hout.
  apply get_summary_stats_for_image_Ok in Hout
    as (_ & _ & _ & Hcount & Hn & Hmaj & Hcert & _).
  rewrite Hmaj, Hcount, Hn, Hcert. split_and!.
  - apply elem_of_majority.
  - apply majority_NoDup.
  - apply majority_sorted.
  - done.
  - done.
Qed.

Lemma majority_label_all_tied_sorted_witness :
  (forall x, x ∈ Summary.majority_label dog_cat_summary <->
             x ∈ concat (map Raw.labels dog_cat)
             /\ freq x (concat (map Raw.labels dog_cat))
                = max_frequency (concat (map Raw.labels dog_cat)))
  /\ NoDup (Summary.majority_label dog_cat_summary)
  /\ StronglySorted String.le (Summary.majority_label dog_cat_summary)
  /\ Summary.no_most_common_labels dog_cat_summary
     = max_frequency (concat (map Raw.labels dog_cat))
  /\ Summary.is_label_certain dog_cat_summary
     = bool_decide (2 <= Summary.no_most_common_labels dog_cat_summary)
       && int_gt_float (Summary.no_most_common_labels dog_cat_summary)
            (float_mul_int 0.5%float (Summary.no_eligible_workers dog_cat_summary)).
Proof.
  apply (majority_label_all_tied_sorted dog_cat 2 0.5%float ∅).
  - discriminate.
  - vm_compute. reflexivity.
Defined.

(** ** The decoy lookup *)

(** [iloc(0)] is a call, not a subscript: the key handed to the decoy
    lookup is an indexer, the lookup raises [KeyError] whatever the decoys
    are, and no image is ever marked as a decoy. *)
Lemma decoy_never_recognised
    (raw_labels : list Raw.row) (min_ratings_no : Z) (min_ratings_prop : float)
    (decoys : gmap string string) (out : Summary.t) :
  get_summary_stats_for_image raw_labels min_ratings_no min_ratings_prop decoys
    = Ok out ->
  Summary.is_decoy out = false /\ Summary.decoy_label out = None.
Proof.
  intros Hout.
  apply get_summary_stats_for_image_Ok in Hout
    as (_ & _ & _ & _ & _ & _ & _ & Hlabel & Hdecoy & _).
  done.
Qed.

(** The subscript [iloc[0]] reads the file name of the group, which the
    lookup then finds. *)
Example decoy_lookup_by_subscript :
  iloc_getitem (map Raw.image_filename cat_dog_cat) 0
    ≫= decoys_getitem {["a.jpg" := "Cat"]} = Ok "Cat".
Proof. vm_compute. reflexivity. Qed.

(** C5, at a failing input. The file name of the group is a key of the
    decoys, mapped to Cat, and the call returns a summary that is not marked
    as a decoy and carries no decoy label. *)
Theorem known_decoy_not_marked :
  ({["a.jpg" := "Cat"]} : gmap string string) !! "a.jpg" = Some "Cat"
  /\ Forall (fun r => Raw.image_filename r = "a.jpg") cat_dog_cat
  /\ exists out,
       get_summary_stats_for_image cat_dog_cat 2 0.5%float {["a.jpg" := "Cat"]}
         = Ok out
       /\ Summary.is_decoy out = false
       /\ Summary.decoy_label out = None.
Proof.
  split_and!.
  - vm_compute. reflexivity.
  - repeat constructor.
  - exists cat_dog_cat_summary. split_and!; vm_compute; reflexivity.
Qed.

(** ** The pooled ratings *)

Lemma foldl_concat {A B : Type} (f : A -> B -> A) (ls : list (list B)) (a : A) :
  foldl (fun a l => foldl f a l) a ls = foldl f a (concat ls).
Proof.
  revert a. induction ls as [|l ls IH]; intros a; [done|].
  cbn [foldl concat]. rewrite foldl_app. apply IH.
Qed.

Lemma pool_ratings_flat quality_column :
  pool_ratings quality_column =
    foldl (fun d item => append_rating d item.1 item.2) [] (concat quality_column).
Proof. unfold pool_ratings. apply foldl_concat. Qed.

Lemma append_foldl_get (items : list (string * Z)) d w :
  dict_get (foldl (fun d item => append_rating d item.1 item.2) d items) w =
    match (filter (fun item => item.1 = w) items).*2 with
    | [] => dict_get d w
    | obs => Some (default [] (dict_get d w) ++ obs)%list
    end.
Proof.
  revert d. induction items as [|[w' r] items IH]; intros d; [done|].
  cbn [foldl]. rewrite IH. clear IH. rewrite filter_cons. cbn [fst snd].
  unfold append_rating. rewrite dict_get_set.
  destruct (decide (w' = w)) as [->|Hne].
  - rewrite decide_True by done. csimpl.
    destruct ((filter _ items).*2) as [|o obs]; f_equal.
    rewrite <- app_assoc. done.
  - rewrite decide_False by done. done.
Qed.

Lemma append_foldl_NoDup (items : list (string * Z)) d :
  NoDup d.*1 ->
  NoDup (foldl (fun d item => append_rating d item.1 item.2) d items).*1.
Proof.
  revert d. induction items as [|[w' r] items IH]; intros d Hd; [done|].
  cbn [foldl]. apply IH. by apply dict_set_NoDup.
Qed.

(** What the two loops leave for a worker: nothing when the worker has no
    observation, the list of the observations otherwise. *)
Lemma pool_ratings_get quality_column w :
  dict_get (pool_ratings quality_column) w =
    match observations w quality_column with
    | [] => None
    | obs => Some obs
    end.
Proof. rewrite pool_ratings_flat, append_foldl_get. done. Qed.

Lemma pool_ratings_NoDup quality_column : NoDup (pool_ratings quality_column).*1.
Proof. rewrite pool_ratings_flat. apply append_foldl_NoDup. apply NoDup_nil_2. Qed.

Lemma elem_of_pool_ratings quality_column w scores :
  (w, scores) ∈ pool_ratings quality_column <->
  scores = observations w quality_column /\ scores <> [].
Proof.
  split.
  - intros Hin. apply (dict_elem_get _ _ _ (pool_ratings_NoDup _)) in Hin.
    rewrite pool_ratings_get in Hin.
    destruct (observations w quality_column); [done|].
    injection Hin as <-. done.
  - intros [-> Hne]. apply dict_get_Some_elem. rewrite pool_ratings_get.
    by destruct (observations w quality_column).
Qed.

(** ** Floats *)

Lemma float_ltb_irrefl (x : float) : PrimFloat.ltb x x = false.
Proof.
  rewrite FloatAxioms.ltb_spec. unfold SFltb.
  destruct (Prim2SF x) as [s|s| |s m e]; simpl; try reflexivity.
  - destruct s; reflexivity.
  - destruct s; rewrite Z.compare_refl, Pos.compare_cont_refl; reflexivity.
Qed.

(** ** What get_workers_reliability returns *)

Lemma mapM_result_fmap_keys {A B : Type} (f : A -> result B) (g : A -> string)
    (h : B -> string) l ys :
  (forall x y, f x = Ok y -> h y = g x) ->
  mapM_result f l = Ok ys -> map h ys = map g l.
Proof.
  intros Hfg. revert ys. induction l as [|x l IH]; intros ys; simpl.
  - intros [= <-]. done.
  - destruct (f x) as [y|] eqn:Hy; [|discriminate].
    destruct (mapM_result f l) as [ys'|]; [|discriminate].
    intros [= <-]. simpl. f_equal; [by apply Hfg | by apply IH].
Qed.

Lemma mapM_result_elem {A B : Type} (f : A -> result B) l ys y :
  mapM_result f l = Ok ys -> y ∈ ys -> exists x, x ∈ l /\ f x = Ok y.
Proof.
  intros Hm (i & Hi)%list_elem_of_lookup.
  destruct (mapM_result_Ok_lookup_inv _ _ _ _ _ Hm Hi) as (x & Hx & Hf).
  exists x. split; [by eapply list_elem_of_lookup_2 | done].
Qed.

(** The rows follow the keys of the pooled ratings, one row per key. *)
Lemma get_workers_reliability_keys
    (experiment_df : list (list (string * Z)))
    (previous_experiments : list (list (list (string * Z))))
    (reliability_threshold : float) (no_labels_per_experiment : Z)
    (df_workers : list Worker.row) :
  get_workers_reliability experiment_df previous_experiments
    reliability_threshold no_labels_per_experiment = Ok df_workers ->
  map Worker.worker_id df_workers
  = (pool_ratings (concat (experiment_df :: previous_experiments))).*1.
Proof.
  unfold get_workers_reliability. intros Hrows.
  eapply mapM_result_fmap_keys; [|exact Hrows].
  intros [w scores] row Hrow. cbn [fst snd] in Hrow.
  apply bind_Ok in Hrow as (c & _ & [= <-]). done.
Qed.

Lemma get_workers_reliability_NoDup
    (experiment_df : list (list (string * Z)))
    (previous_experiments : list (list (list (string * Z))))
    (reliability_threshold : float) (no_labels_per_experiment : Z)
    (df_workers : list Worker.row) :
  get_workers_reliability experiment_df previous_experiments
    reliability_threshold no_labels_per_experiment = Ok df_workers ->
  NoDup (map Worker.worker_id df_workers).
Proof.
  intros Hrows. rewrite (get_workers_reliability_keys _ _ _ _ _ Hrows).
  apply pool_ratings_NoDup.
Qed.

(** C3. The rows of [get_workers_reliability] are, one each, the workers
    with at least one agreement observation pooled over the current and the
    previous frames; a worker without observation has no row. A row is
    marked reliable if and only if the mean of the worker's pooled
    observations is strictly greater than [reliability_threshold]; a mean
    equal to the threshold is not reliable. *)
Theorem workers_reliability_rows
    (experiment_df : list (list (string * Z)))
    (previous_experiments : list (list (list (string * Z))))
    (reliability_threshold : float) (no_labels_per_experiment : Z)
    (df_workers : list Worker.row) :
  get_workers_reliability experiment_df previous_experiments
    reliability_threshold no_labels_per_experiment = Ok df_workers ->
  NoDup (map Worker.worker_id df_workers)
  /\ (forall w, w ∈ map Worker.worker_id df_workers <->
                observations w (concat (experiment_df :: previous_experiments)) <> [])
  /\ (forall row, row ∈ df_workers ->
        Worker.mean row
          = np_mean (observations (Worker.worker_id row)
                       (concat (experiment_df :: previous_experiments)))
        /\ (Worker.is_worker_reliable row = true <->
              PrimFloat.ltb reliability_threshold (Worker.mean row) = true)
        /\ (Worker.mean row = reliability_threshold ->
              Worker.is_worker_reliable row = false)).
Proof.
  intros Hrows.
  pose proof (get_workers_reliability_keys _ _ _ _ _ Hrows) as Hkeys.
  unfold get_workers_reliability in Hrows.
  set (pooled := concat (experiment_df :: previous_experiments)) in *.
  split_and!.
  - rewrite Hkeys. apply pool_ratings_NoDup.
  - intros w. rewrite Hkeys. rewrite list_elem_of_fmap. split.
    + intros ([w' scores] & -> & Hin). cbn [fst].
      apply elem_of_pool_ratings in Hin as [<- Hne]. done.
    + intros Hne. exists (w, observations w pooled). split; [done|].
      by apply elem_of_pool_ratings.
  - intros row Hrow.
    destruct (mapM_result_elem _ _ _ _ Hrows Hrow) as ([w scores] & Hin & Hf).
    cbn [fst snd] in Hf. apply bind_Ok in Hf as (c & _ & [= <-]).
    apply elem_of_pool_ratings in Hin as [-> _]. cbn.
    split_and!; [done | done |].
    intros ->. apply float_ltb_irrefl.
Qed.

Lemma get_workers_reliability_returns
    (experiment_df : list (list (string * Z)))
    (previous_experiments : list (list (list (string * Z))))
    (reliability_threshold : float) (no_labels_per_experiment : Z) :
  no_labels_per_experiment <> 0 ->
  exists df_workers,
    get_workers_reliability experiment_df previous_experiments
      reliability_threshold no_labels_per_experiment = Ok df_workers.
Proof.
  intros Hn. unfold get_workers_reliability. apply mapM_result_total.
  intros item _. unfold floordiv. rewrite decide_False by done.
  cbn [mbind result_bind]. eauto.
Qed.

Lemma workers_reliability_rows_witness :
  NoDup (map Worker.worker_id half_and_all_workers)
  /\ (forall w, w ∈ map Worker.worker_id half_and_all_workers <->
                observations w (concat (half_and_all :: [])) <> [])
  /\ (forall row, row ∈ half_and_all_workers ->
        Worker.mean row
          = np_mean (observations (Worker.worker_id row)
                       (concat (half_and_all :: [])))
        /\ (Worker.is_worker_reliable row = true <->
              PrimFloat.ltb 0.5%float (Worker.mean row) = true)
        /\ (Worker.mean row = 0.5%float ->
              Worker.is_worker_reliable row = false)).
Proof.
  apply (workers_reliability_rows half_and_all [] 0.5%float 2).
  vm_compute. reflexivity.
Defined.

(** The scenario of the repository's test: worker a agrees 80 times in
    100, which is the threshold and not above it; worker b always agrees. *)
Example eighty_in_hundred_not_reliable :
  get_workers_reliability
    (replicate 20 [("a", 0); ("b", 1)] ++ replicate 80 [("a", 1); ("b", 1)])%list
    [] 0.8%float 20
  = Ok [ {| Worker.worker_id := "a"; Worker.mean := 0.8%float;
            Worker.count := 5; Worker.is_worker_reliable := false |};
         {| Worker.worker_id := "b"; Worker.mean := 1%float;
            Worker.count := 5; Worker.is_worker_reliable := true |} ].
Proof. vm_compute. reflexivity. Qed.

(** ** Groups *)

Lemma elem_of_map {A B : Type} (f : A -> B) (l : list A) (y : B) :
  y ∈ map f l <-> exists x, y = f x /\ x ∈ l.
Proof. apply list_elem_of_fmap. Qed.

Lemma elem_of_group_keys df k :
  k ∈ group_keys df <-> exists r, r ∈ df /\ group_key r = k.
Proof.
  unfold group_keys. rewrite merge_sort_Permutation, elem_of_remove_dups.
  rewrite elem_of_map. split; intros (r & ? & ?); exists r; done.
Qed.

Lemma group_keys_NoDup df : NoDup (group_keys df).
Proof.
  unfold group_keys. rewrite merge_sort_Permutation. apply NoDup_remove_dups.
Qed.

(** A frame is annotated group by group, when it has a row. *)
Lemma annotate_responses_Ok df min_ratings_no min_ratings_prop decoys table :
  annotate_responses df min_ratings_no min_ratings_prop decoys = Ok table ->
  df <> []
  /\ mapM_result
       (fun k => get_summary_stats_for_image (get_group df k)
                   min_ratings_no min_ratings_prop decoys)
       (group_keys df) = Ok table.
Proof. unfold annotate_responses. by destruct df. Qed.

Lemma annotate_responses_rows df min_ratings_no min_ratings_prop decoys :
  df <> [] ->
  annotate_responses df min_ratings_no min_ratings_prop decoys
  = mapM_result
      (fun k => get_summary_stats_for_image (get_group df k)
                  min_ratings_no min_ratings_prop decoys)
      (group_keys df).
Proof. unfold annotate_responses. by destruct df. Qed.

(** The row of a group is at the rank of the group's key, and counts the
    rows of the group. *)
Lemma annotate_responses_lookup df min_ratings_no min_ratings_prop decoys table i k :
  annotate_responses df min_ratings_no min_ratings_prop decoys = Ok table ->
  group_keys df !! i = Some k ->
  exists s, table !! i = Some s
            /\ get_summary_stats_for_image (get_group df k)
                 min_ratings_no min_ratings_prop decoys = Ok s
            /\ Summary.no_eligible_workers s = Z.of_nat (length (get_group df k)).
Proof.
  intros [_ Ht]%annotate_responses_Ok Hk.
  destruct (mapM_result_Ok_lookup _ _ _ _ _ Ht Hk) as (s & Hs & Hf).
  exists s. split_and!; [done..|].
  by apply get_summary_stats_for_image_Ok in Hf as (_ & _ & _ & _ & -> & _).
Qed.

Lemma annotate_responses_length df min_ratings_no min_ratings_prop decoys table :
  annotate_responses df min_ratings_no min_ratings_prop decoys = Ok table ->
  length table = length (group_keys df).
Proof. intros [_ Ht]%annotate_responses_Ok. by eapply mapM_result_Ok_length. Qed.


(** ** The join with the reliability table *)

(** Lists split by a key: the classes of the keys together rearrange the
    list. *)
Lemma filter_classes_skip {A K : Type} `{EqDecision K} (key : A -> K)
    (ks : list K) x l :
  key x ∉ ks ->
  map (fun k => filter (fun y => key y = k) (x :: l)) ks
  = map (fun k => filter (fun y => key y = k) l) ks.
Proof.
  intros Hx. apply map_ext_in. intros k Hk%list_elem_of_In.
  rewrite filter_cons. rewrite decide_False; [done|]. by intros <-.
Qed.

Lemma filter_classes_cons {A K : Type} `{EqDecision K} (key : A -> K)
    (ks : list K) x l :
  NoDup ks -> key x ∈ ks ->
  concat (map (fun k => filter (fun y => key y = k) (x :: l)) ks)
  ≡ₚ x :: concat (map (fun k => filter (fun y => key y = k) l) ks).
Proof.
  induction 1 as [|k ks Hk Hnd IH]; intros Hx; [by apply elem_of_nil in Hx|].
  cbn [map concat]. rewrite filter_cons.
  destruct (decide (key x = k)) as [Heq|Hne].
  - rewrite filter_classes_skip by (by rewrite Heq). done.
  - apply elem_of_cons in Hx as [Hx|Hx]; [done|].
    rewrite (IH Hx). by rewrite Permutation_middle.
Qed.

Lemma filter_classes_Permutation {A K : Type} `{EqDecision K} (key : A -> K)
    (ks : list K) l :
  NoDup ks -> (forall x, x ∈ l -> key x ∈ ks) ->
  concat (map (fun k => filter (fun y => key y = k) l) ks) ≡ₚ l.
Proof.
  intros Hnd. induction l as [|x l IH]; intros Hin.
  - clear. induction ks as [|k ks IH]; [done|]. cbn. by rewrite IH.
  - rewrite filter_classes_cons; [|done|apply Hin; left].
    constructor. apply IH. intros y Hy. apply Hin. by right.
Qed.

Lemma elem_of_join_keys keys k : k ∈ join_keys keys <-> k ∈ keys.
Proof.
  induction keys as [|k0 keys IH]; [done|]. cbn [join_keys].
  rewrite !elem_of_cons, list_elem_of_filter, IH.
  destruct (decide (k = k0)); naive_solver.
Qed.

Lemma join_keys_NoDup keys : NoDup (join_keys keys).
Proof.
  induction keys as [|k0 keys IH]; cbn [join_keys]; [constructor|].
  constructor; [|by apply NoDup_filter].
  rewrite list_elem_of_filter. naive_solver.
Qed.

(** The join visits every row of the left frame once. *)
Lemma join_order_Permutation left : join_order left ≡ₚ left.
Proof.
  unfold join_order. rewrite flat_map_concat_map.
  apply (filter_classes_Permutation Raw.worker_id); [apply join_keys_NoDup|].
  intros l Hl. apply elem_of_join_keys, list_elem_of_fmap. eauto.
Qed.

(** A row survives the filtering step if and only if its worker has a row
    in the reliability table that is marked reliable. The step returns
    whenever the table has a row; the rows of a worker without a row in the
    table are then dropped. *)
Lemma filter_raw_responses_survivors raw_responses workers_reliability :
  workers_reliability <> [] ->
  exists filtered,
    filter_raw_responses raw_responses workers_reliability = Ok filtered
    /\ forall l, l ∈ map fst filtered <->
         l ∈ raw_responses
         /\ exists r, r ∈ workers_reliability
                      /\ Worker.worker_id r = Raw.worker_id l
                      /\ Worker.is_worker_reliable r = true.
Proof.
  intros Hne. unfold filter_raw_responses, merge.
  destruct workers_reliability as [|r0 right'] eqn:Hr; [done|]. rewrite <- Hr.
  cbn [mbind result_bind]. eexists. split; [done|].
  intros l. rewrite <- (join_order_Permutation raw_responses) at 2.
  rewrite elem_of_map. split.
  - intros ([l' r] & -> & Hin). cbn [fst].
    apply list_elem_of_filter in Hin as [Hrel Hin]. cbn [snd] in Hrel.
    apply list_elem_of_In, in_flat_map in Hin as (l0 & Hl0 & Hin).
    apply list_elem_of_In, elem_of_map in Hin as (r' & [= -> ->] & Hr').
    apply list_elem_of_filter in Hr' as [? ?].
    split; [by apply list_elem_of_In | eauto].
  - intros (Hl & r & Hrin & Hid & Hrel). exists (l, r). split; [done|].
    apply list_elem_of_filter. split; [done|].
    apply list_elem_of_In, in_flat_map. exists l.
    split; [by apply list_elem_of_In|].
    apply list_elem_of_In, elem_of_map. exists r. split; [done|].
    by apply list_elem_of_filter.
Qed.

Lemma filter_raw_responses_no_table raw_responses :
  filter_raw_responses raw_responses [] = Raise MergeError.
Proof. reflexivity. Qed.

Lemma filter_worker_row_NoDup (workers_reliability : list Worker.row) w :
  NoDup (map Worker.worker_id workers_reliability) ->
  filter (fun r => Worker.worker_id r = w) workers_reliability = []
  \/ exists r, filter (fun r => Worker.worker_id r = w) workers_reliability = [r].
Proof.
  induction workers_reliability as [|r0 rs IH]; [by left|].
  cbn [map]. intros [Hr0 Hnd]%NoDup_cons. rewrite filter_cons.
  destruct (decide (Worker.worker_id r0 = w)) as [Hw|Hw]; [|by apply IH].
  right. exists r0. f_equal. apply filter_none.
  intros r Hr Heq. apply Hr0. rewrite Hw, <- Heq. apply elem_of_map. eauto.
Qed.

(** The reliability table has one row per worker, so the join repeats no
    raw row: the filtered rows are a subsequence of the rows in join
    order. *)
Lemma filter_raw_responses_sublist raw_responses workers_reliability filtered :
  NoDup (map Worker.worker_id workers_reliability) ->
  filter_raw_responses raw_responses workers_reliability = Ok filtered ->
  map fst filtered `sublist_of` join_order raw_responses.
Proof.
  intros Hnd. unfold filter_raw_responses, merge.
  destruct workers_reliability as [|r0 right'] eqn:Hr; [discriminate|].
  rewrite <- Hr in *. clear Hr r0 right'. cbn [mbind result_bind].
  intros [= <-].
  induction (join_order raw_responses) as [|l ls IH]; [done|].
  cbn [flat_map]. rewrite filter_app, map_app.
  destruct (filter_worker_row_NoDup workers_reliability (Raw.worker_id l) Hnd)
    as [->|[r ->]].
  - cbn [map filter]. rewrite filter_nil. cbn [map app]. by constructor.
  - cbn [map]. rewrite filter_cons, filter_nil.
    destruct (decide _); cbn [map app fst]; by constructor.
Qed.


(** The groups do not depend on the order of the rows. *)
#[local] Instance key_le_trans : Transitive key_le.
Proof.
  intros [a1 a2] [b1 b2] [c1 c2]. unfold key_le. cbn.
  destruct (decide (a1 = b1)) as [Hab|Hab], (decide (b1 = c1)) as [Hbc|Hbc],
    (decide (a1 = c1)) as [Hac|Hac]; intros Hle1 Hle2; subst;
    try done; try (by etrans).
  exfalso. apply Hab. by apply (anti_symm String.le).
Qed.

#[local] Instance key_le_antisymm : AntiSymm (=) key_le.
Proof.
  intros [a1 a2] [b1 b2]. unfold key_le. cbn.
  destruct (decide (a1 = b1)) as [Hab|Hab], (decide (b1 = a1)) as [Hba|Hba];
    intros Hle1 Hle2; subst; try done.
  - f_equal. by apply (anti_symm String.le).
  - exfalso. apply Hab. by apply (anti_symm String.le).
Qed.

#[local] Instance key_le_total : Total key_le.
Proof.
  intros [a1 a2] [b1 b2]. unfold key_le. cbn.
  destruct (decide (a1 = b1)) as [Hab|Hab], (decide (b1 = a1)) as [Hba|Hba];
    subst; try done; apply (total String.le).
Qed.

Lemma group_keys_Permutation (df df' : list Raw.row) :
  df ≡ₚ df' -> group_keys df = group_keys df'.
Proof.
  intros Hperm. unfold group_keys.
  apply (StronglySorted_unique key_le).
  - apply StronglySorted_merge_sort; apply _.
  - apply StronglySorted_merge_sort; apply _.
  - rewrite !merge_sort_Permutation.
    apply NoDup_Permutation; [apply NoDup_remove_dups..|].
    intros k. rewrite !elem_of_remove_dups. by rewrite Hperm.
Qed.

Lemma get_group_Permutation (df df' : list Raw.row) k :
  df ≡ₚ df' -> get_group df k ≡ₚ get_group df' k.
Proof. intros Hperm. unfold get_group. by rewrite Hperm. Qed.


(** ** What filter_out_unreliable_workers returns *)

Lemma filter_out_unreliable_workers_Ok
    raw_responses previous_experiments reliability_threshold min_ratings_no
    min_ratings_prop decoys include_previous_in_output unfiltered filtered :
  filter_out_unreliable_workers raw_responses previous_experiments
    reliability_threshold min_ratings_no min_ratings_prop decoys
    include_previous_in_output = Ok (unfiltered, filtered) ->
  exists current previous_annotated workers_reliability working_raw filtered_raw,
    annotate_responses raw_responses min_ratings_no min_ratings_prop decoys
      = Ok current
    /\ mapM_result
         (fun responses =>
            annotate_responses responses min_ratings_no min_ratings_prop decoys)
         previous_experiments = Ok previous_annotated
    /\ get_workers_reliability (map Summary.worker_quality current)
         (map (map Summary.worker_quality) previous_annotated)
         reliability_threshold 20 = Ok workers_reliability
    /\ (if include_previous_in_output
        then exists job,
               previous_experiments <> []
               /\ getitem0 (map Raw.labelling_job_name raw_responses) = Ok job
               /\ working_raw
                  = (raw_responses
                       ++ map (set_labelling_job_name job)
                            (concat previous_experiments))%list
               /\ unfiltered = (current ++ concat previous_annotated)%list
        else working_raw = raw_responses /\ unfiltered = current)
    /\ filter_raw_responses working_raw workers_reliability = Ok filtered_raw
    /\ annotate_responses (map fst filtered_raw)
         min_ratings_no min_ratings_prop decoys = Ok filtered.
Proof.
  unfold filter_out_unreliable_workers. intros H.
  apply bind_Ok in H as (current & Hcur & H).
  apply bind_Ok in H as (previous_annotated & Hprev & H).
  apply bind_Ok in H as (workers_reliability & Hrel & H).
  apply bind_Ok in H as ([working_raw working_table] & Hwork & H).
  apply bind_Ok in H as (filtered_raw & Hfr & H).
  apply bind_Ok in H as (filtered' & Hfa & H).
  cbn [fst snd] in *. injection H as <- <-.
  exists current, previous_annotated, workers_reliability, working_raw, filtered_raw.
  split_and!; try done.
  destruct include_previous_in_output.
  - apply bind_Ok in Hwork as (previous & Hconcat & Hwork).
    apply bind_Ok in Hwork as (job & Hjob & [= <- <-]).
    exists job. unfold pd_concat in Hconcat.
    destruct previous_experiments; [discriminate|].
    injection Hconcat as <-. done.
  - by injection Hwork as <- <-.
Qed.

(** C6, as amended. With [include_previous_in_output] false, the first
    returned table is the consensus computed over the rows of the current
    round alone. With it true, the first returned table is that consensus
    followed by the consensus rows of each previous round, each round
    grouped on its own. *)
Theorem first_table_current_then_previous
    (raw_responses : list Raw.row) (previous_experiments : list (list Raw.row))
    (reliability_threshold : float) (min_ratings_no : Z)
    (min_ratings_prop : float) (decoys : gmap string string)
    (include_previous_in_output : bool) (unfiltered filtered : list Summary.t) :
  filter_out_unreliable_workers raw_responses previous_experiments
    reliability_threshold min_ratings_no min_ratings_prop decoys
    include_previous_in_output = Ok (unfiltered, filtered) ->
  exists current previous_annotated,
    annotate_responses raw_responses min_ratings_no min_ratings_prop decoys
      = Ok current
    /\ mapM_result
         (fun responses =>
            annotate_responses responses min_ratings_no min_ratings_prop decoys)
         previous_experiments = Ok previous_annotated
    /\ unfiltered
       = if include_previous_in_output
         then (current ++ concat previous_annotated)%list
         else current.
Proof.
  intros H. apply filter_out_unreliable_workers_Ok in H
    as (current & previous_annotated & rel & working_raw & filtered_raw
        & Hcur & Hprev & _ & Hwork & _).
  exists current, previous_annotated. split_and!; [done..|].
  destruct include_previous_in_output.
  - by destruct Hwork as (job & _ & _ & _ & ->).
  - by destruct Hwork as [_ ->].
Qed.


(** ** Two rounds on one image *)

Lemma two_rounds_return :
  filter_out_unreliable_workers round2 [round1] 0.8%float 2 0.5%float ∅ true
  = Ok two_rounds_tables.
Proof. vm_compute. reflexivity. Qed.

Lemma first_table_current_then_previous_witness :
  exists current previous_annotated,
    annotate_responses round2 2 0.5%float ∅ = Ok current
    /\ mapM_result (fun responses => annotate_responses responses 2 0.5%float ∅)
         [round1] = Ok previous_annotated
    /\ two_rounds_tables.1
       = if true then (current ++ concat previous_annotated)%list else current.
Proof.
  apply (first_table_current_then_previous round2 [round1] 0.8%float 2
           0.5%float ∅ true two_rounds_tables.1 two_rounds_tables.2).
  vm_compute. reflexivity.
Defined.

(** C6 fails as stated: with [include_previous_in_output] true and one
    previous round, the call returns, and its first table has two rows, the
    second with the three workers of the previous round, where the consensus
    over the current round alone has one row. *)
Lemma first_table_has_previous_rows :
  exists unfiltered filtered current,
    filter_out_unreliable_workers round2 [round1] 0.8%float 2 0.5%float ∅ true
      = Ok (unfiltered, filtered)
    /\ annotate_responses round2 2 0.5%float ∅ = Ok current
    /\ map Summary.worker_list current = [["w1"; "w2"]]
    /\ map Summary.worker_list unfiltered = [["w1"; "w2"]; ["w1"; "w2"; "w3"]]
    /\ unfiltered <> current.
Proof.
  eexists _, _, _. split_and!.
  - vm_compute. reflexivity.
  - vm_compute. reflexivity.
  - reflexivity.
  - reflexivity.
  - discriminate.
Qed.


(** ** One round, one unreliable worker *)

Example one_round_counts :
  map Summary.no_eligible_workers one_round_tables.1 = [3]
  /\ map Summary.no_eligible_workers one_round_tables.2 = [2].
Proof. split; reflexivity. Qed.


(** A frame without rows cannot be annotated, and a round in which no
    worker is above the threshold leaves no row for the second consensus:
    the call raises where an empty table might be expected. *)
Example no_reliable_worker_raises :
  annotate_responses [] 2 0.5%float ∅ = Raise ValueError
  /\ filter_out_unreliable_workers cat_cat_dog [] 1%float 2 0.5%float ∅ false
     = Raise ValueError.
Proof. split; vm_compute; reflexivity. Qed.

(** ** A round without any certain image *)

(** C7, at a failing input. One worker answers once. The image is not
    certain, so the worker has no agreement observation and the reliability
    table has no row; the worker is unknown to it. The filtering step then
    raises [MergeError], and so does the whole call, where the rows of an
    unknown worker were to be dropped without an error. *)
Theorem unknown_worker_alone_raises :
  (exists current,
     annotate_responses [mk_row "job" "a.jpg" "w1" ["Cat"]] 2 0.5%float ∅
       = Ok current
     /\ map Summary.is_label_certain current = [false]
     /\ get_workers_reliability (map Summary.worker_quality current) []
          0.8%float 20 = Ok [])
  /\ filter_raw_responses [mk_row "job" "a.jpg" "w1" ["Cat"]] []
     = Raise MergeError
  /\ filter_out_unreliable_workers [mk_row "job" "a.jpg" "w1" ["Cat"]] []
       0.8%float 2 0.5%float ∅ false
     = Raise MergeError.
Proof.
  split_and!.
  - eexists. split_and!; [vm_compute; reflexivity | reflexivity | reflexivity].
  - reflexivity.
  - vm_compute. reflexivity.
Qed.

(** ** read_responses *)

Lemma mapM_result_Raise_uniform {A B : Type} (f : A -> result B) l e0 :
  (forall x e, x ∈ l -> f x = Raise e -> e = e0) ->
  (exists x e, x ∈ l /\ f x = Raise e) ->
  mapM_result f l = Raise e0.
Proof.
  induction l as [|x l IH]; intros Hall (y & e & Hy & Hf).
  - by apply elem_of_nil in Hy.
  - simpl. destruct (f x) as [b|e'] eqn:Hx.
    + rewrite IH; [done | |].
      * intros z e1 Hz. apply Hall. by right.
      * apply elem_of_cons in Hy as [->|Hy]; [congruence | eauto].
    + f_equal. apply (Hall x); [left | done].
Qed.

Lemma mapM_result_Raise_inv {A B : Type} (f : A -> result B) l e :
  mapM_result f l = Raise e -> exists x, x ∈ l /\ f x = Raise e.
Proof.
  induction l as [|x l IH]; simpl; [discriminate|].
  destruct (f x) as [b|e'] eqn:Hx.
  - destruct (mapM_result f l) as [bs|e'']; [discriminate|].
    intros [= ->]. destruct IH as (y & Hy & Hf); [done|].
    exists y. split; [by right | done].
  - intros [= ->]. exists x. split; [left | done].
Qed.

Lemma str_split_nonempty sep s : str_split sep s <> [].
Proof.
  destruct s as [|c s]; simpl; [done|].
  destruct (decide (c = sep)); [done|]. by destruct (str_split sep s).
Qed.

Lemma getitem_neg_last {A : Type} (l : list A) :
  l <> [] -> exists x, getitem_neg l 1 = Ok x.
Proof.
  intros Hl. unfold getitem_neg. cbn [Nat.sub].
  destruct (rev l) as [|x l'] eqn:Hr; [|simpl; eauto].
  apply (f_equal (@rev A)) in Hr. rewrite rev_involutive in Hr. done.
Qed.

Section read_responses_facts.
Variable abspath : string -> string.
Variable loads_manifest : string -> result (list Payload.manifest_entry).
Variable loads_annotations : string -> result (list (string * string)).
Variable loads_labels : string -> result (list string).
Variable py_int : string -> result Z.

Local Abbreviation label_row := (read_label loads_labels py_int).
Local Abbreviation labelling_rows :=
  (read_labelling loads_annotations loads_labels py_int).
Local Abbreviation annotation_set_rows :=
  (read_annotation_set loads_manifest loads_annotations loads_labels py_int).
Local Abbreviation responses :=
  (read_responses abspath loads_manifest loads_annotations loads_labels py_int).
Local Abbreviation unresolved :=
  (unresolved_index loads_manifest loads_annotations py_int).
Local Abbreviation decodes :=
  (payload_decodes abspath loads_manifest loads_annotations loads_labels py_int).

(** A label whose index is not in the table cannot be read. *)
Lemma read_label_unresolved fname job table dataset_object_id worker_id item
    last_part label_index :
  getitem_neg (str_split "-" item.1) 1 = Ok last_part ->
  py_int last_part = Ok label_index ->
  table !! label_index = None ->
  exists e, label_row fname job table dataset_object_id worker_id item = Raise e.
Proof.
  intros Hlast Hint Hnone. unfold read_label.
  destruct (loads_labels item.2) as [ls|e]; cbn [mbind result_bind]; [|eauto].
  rewrite Hlast. cbn [mbind result_bind]. rewrite Hint. cbn [mbind result_bind].
  rewrite Hnone. cbn [mbind result_bind]. eauto.
Qed.

(** When the label decodes, the lookup is the only step that can raise. *)
Lemma read_label_decodes fname job table dataset_object_id worker_id item e :
  item_decodes loads_labels py_int item ->
  label_row fname job table dataset_object_id worker_id item = Raise e ->
  e = KeyError.
Proof.
  intros [[ls Hls] Hint]. unfold read_label.
  rewrite Hls. cbn [mbind result_bind].
  destruct (getitem_neg_last (str_split "-" item.1) (str_split_nonempty _ _))
    as [last_part Hlast].
  rewrite Hlast. cbn [mbind result_bind].
  destruct (Hint _ Hlast) as [label_index ->]. cbn [mbind result_bind].
  destruct (table !! label_index); cbn [mbind result_bind]; congruence.
Qed.

Lemma read_labelling_unresolved fname job table dataset_object_id labelling
    items item last_part label_index :
  loads_annotations (Payload.annotationData_content labelling) = Ok items ->
  item ∈ items ->
  getitem_neg (str_split "-" item.1) 1 = Ok last_part ->
  py_int last_part = Ok label_index ->
  table !! label_index = None ->
  exists e, labelling_rows fname job table dataset_object_id labelling = Raise e.
Proof.
  intros Hitems Hin Hlast Hint Hnone. unfold read_labelling.
  rewrite Hitems. cbn [mbind result_bind].
  destruct (read_label_unresolved fname job table dataset_object_id
              (Payload.workerId labelling) item _ _ Hlast Hint Hnone) as [e He].
  eapply mapM_result_Raise; done.
Qed.

Lemma read_labelling_decodes fname job table dataset_object_id labelling e :
  labelling_decodes loads_annotations loads_labels py_int labelling ->
  labelling_rows fname job table dataset_object_id labelling = Raise e ->
  e = KeyError.
Proof.
  intros (items & Hitems & Hall). unfold read_labelling.
  rewrite Hitems. cbn [mbind result_bind].
  intros (item & Hin & Hraise)%mapM_result_Raise_inv.
  rewrite Forall_forall in Hall. eapply read_label_decodes; [|exact Hraise].
  by apply Hall.
Qed.

Lemma read_annotation_set_unresolved fname job annotation_set manifest labelling
    items item last_part label_index :
  loads_manifest (Payload.dataObject_content annotation_set) = Ok manifest ->
  labelling ∈ Payload.annotations annotation_set ->
  loads_annotations (Payload.annotationData_content labelling) = Ok items ->
  item ∈ items ->
  getitem_neg (str_split "-" item.1) 1 = Ok last_part ->
  py_int last_part = Ok label_index ->
  index_to_filename_of manifest !! label_index = None ->
  exists e, annotation_set_rows fname job annotation_set = Raise e.
Proof.
  intros Hm Hl Hitems Hin Hlast Hint Hnone. unfold read_annotation_set.
  rewrite Hm. cbn [mbind result_bind].
  destruct (read_labelling_unresolved fname job (index_to_filename_of manifest)
              (Payload.datasetObjectId annotation_set) labelling items item _ _
              Hitems Hin Hlast Hint Hnone) as [e He].
  destruct (mapM_result_Raise _ _ _ _ Hl He) as [e' ->]. eauto.
Qed.

Lemma read_annotation_set_decodes fname job annotation_set e :
  annotation_set_decodes loads_manifest loads_annotations loads_labels py_int
    annotation_set ->
  annotation_set_rows fname job annotation_set = Raise e ->
  e = KeyError.
Proof.
  intros [[manifest Hm] Hall]. unfold read_annotation_set.
  rewrite Hm. cbn [mbind result_bind].
  destruct (mapM_result _ (Payload.annotations annotation_set))
    as [rows|e'] eqn:Hrows; cbn [mbind result_bind]; [discriminate|].
  intros [= <-].
  apply mapM_result_Raise_inv in Hrows as (l & Hin & Hraise).
  rewrite Forall_forall in Hall. eapply read_labelling_decodes; [|exact Hraise].
  by apply Hall.
Qed.

(** C9, as amended. When some worker's label index has no entry in the
    index-to-filename table of its annotation set, [read_responses] returns
    no table: it raises. The exception is the [KeyError] of the table lookup
    when everything in the payload decodes; it is otherwise the exception of
    the first step that fails. *)
Theorem read_responses_unresolved_index
    (fname : string) (data : list Payload.annotation_set) :
  unresolved data ->
  (exists e, responses fname data = Raise e)
  /\ (decodes fname data -> responses fname data = Raise KeyError).
Proof.
  intros (a & manifest & l & items & item & last_part & label_index
          & Ha & Hm & Hl & Hitems & Hin & Hlast & Hint & Hnone).
  unfold read_responses. split.
  - destruct (getitem_neg _ 6) as [job|e]; cbn [mbind result_bind]; [|eauto].
    destruct (read_annotation_set_unresolved fname job a manifest l items item
                _ _ Hm Hl Hitems Hin Hlast Hint Hnone) as [e He].
    destruct (mapM_result_Raise _ _ _ _ Ha He) as [e' ->]. eauto.
  - intros [[job ->] Hall]. cbn [mbind result_bind].
    destruct (read_annotation_set_unresolved fname job a manifest l items item
                _ _ Hm Hl Hitems Hin Hlast Hint Hnone) as [e He].
    rewrite (mapM_result_Raise_uniform _ _ KeyError); [done | |].
    + intros x e' Hx Hraise. eapply read_annotation_set_decodes; [|exact Hraise].
      rewrite Forall_forall in Hall. by apply Hall.
    + eauto.
Qed.
End read_responses_facts.

(** ** A sample payload *)

Lemma sample_unresolved_index :
  unresolved_index sample_loads_manifest sample_loads_annotations int_of_digits
    sample_data.
Proof.
  exists (Payload.AnnotationSet "manifest" "42" [Payload.Labelling "worker-A" "answers"]),
    [Payload.Entry 0 "s3://bucket/in/a.jpg"; Payload.Entry 1 "s3://bucket/in/b.jpg"],
    (Payload.Labelling "worker-A" "answers"),
    [("label-0", "cat"); ("label-5", "dog")], ("label-5", "dog"), "5", 5.
  split_and!; try reflexivity.
  - left.
  - left.
  - right; left.
Defined.

Lemma read_responses_unresolved_index_witness :
  (exists e, sample_read_responses = Raise e)
  /\ (payload_decodes (fun p => p) sample_loads_manifest sample_loads_annotations
        sample_loads_labels int_of_digits sample_fname sample_data ->
      sample_read_responses = Raise KeyError).
Proof.
  apply (read_responses_unresolved_index (fun p => p) sample_loads_manifest
           sample_loads_annotations sample_loads_labels int_of_digits
           sample_fname sample_data).
  exact sample_unresolved_index.
Defined.

(** C9 fails as stated: the sample has an answer for index 5, of which the
    manifest knows nothing, and [read_responses] raises [KeyError], the
    exception of the dictionary lookup, not a MalformedInputError. *)
Lemma unresolved_index_raises_KeyError :
  unresolved_index sample_loads_manifest sample_loads_annotations int_of_digits
    sample_data
  /\ sample_read_responses = Raise KeyError
  /\ sample_read_responses <> Raise (Exception "MalformedInputError").
Proof.
  split_and!.
  - exact sample_unresolved_index.
  - vm_compute. reflexivity.
  - vm_compute. discriminate.
Qed.

(** ** lambda_handler *)

Section lambda_preprocess_facts.
Variable json_loads : string -> result pyval.

(** C10, as amended. For an event whose [dataObject] is a dict: without a
    ['source'] entry, or with a source that is [None], the handler returns
    the empty dict and does not raise; with a source that is a string, the
    string is decoded by [json.loads] and the decoded value is returned
    wrapped as [taskInput.taskObject]; with any other source, which is
    already structured, the source itself is returned wrapped so. *)
Theorem lambda_handler_wraps_source (event context : pyval)
    (d : list (string * pyval)) :
  py_getitem event "dataObject" = Ok (PDict d) ->
  (dict_get d "source" = None \/ dict_get d "source" = Some PNone ->
   lambda_handler json_loads event context = Ok (PDict []))
  /\ (forall s, dict_get d "source" = Some (PStr s) ->
        lambda_handler json_loads event context
        = (source ← json_loads s; Ok (task_input source)))
  /\ (forall v, dict_get d "source" = Some v ->
        v <> PNone -> (forall s, v <> PStr s) ->
        lambda_handler json_loads event context = Ok (task_input v)).
Proof.
  intros Hd. unfold lambda_handler. rewrite Hd.
  cbn [mbind result_bind py_get]. split_and!.
  - intros [-> | ->]; done.
  - intros s ->. done.
  - intros v -> Hnone Hstr. cbn [default from_option id].
    destruct v; try done. by destruct (Hstr s).
Qed.
End lambda_preprocess_facts.

Lemma lambda_handler_wraps_source_witness :
  (dict_get [("source", PStr "[1, 2]")] "source" = None
   \/ dict_get [("source", PStr "[1, 2]")] "source" = Some PNone ->
   lambda_handler sample_json_loads sample_event PNone = Ok (PDict []))
  /\ (forall s, dict_get [("source", PStr "[1, 2]")] "source" = Some (PStr s) ->
        lambda_handler sample_json_loads sample_event PNone
        = (source ← sample_json_loads s; Ok (task_input source)))
  /\ (forall v, dict_get [("source", PStr "[1, 2]")] "source" = Some v ->
        v <> PNone -> (forall s, v <> PStr s) ->
        lambda_handler sample_json_loads sample_event PNone = Ok (task_input v)).
Proof.
  apply (lambda_handler_wraps_source sample_json_loads sample_event PNone
           [("source", PStr "[1, 2]")]).
  reflexivity.
Defined.

Example lambda_handler_sample :
  lambda_handler sample_json_loads sample_event PNone
  = Ok (PDict [("taskInput", PDict [("taskObject", PList [PInt 1; PInt 2])])]).
Proof. reflexivity. Qed.

(** C10 fails as stated: this event has a ['source'] entry, whose value is
    [None]; the handler returns the empty dict, not the source wrapped. *)
Lemma null_source_returns_empty :
  dict_get [("source", PNone)] "source" = Some PNone
  /\ lambda_handler sample_json_loads
       (PDict [("dataObject", PDict [("source", PNone)])]) PNone
     = Ok (PDict [])
  /\ lambda_handler sample_json_loads
       (PDict [("dataObject", PDict [("source", PNone)])]) PNone
     <> Ok (task_input PNone).
Proof. split_and!; [reflexivity | reflexivity | discriminate]. Qed.

(** * Further properties *)

(** ** More of what get_summary_stats_for_image returns *)

(** The display fields of a returned summary. *)
Lemma get_summary_stats_for_image_display
    (raw_labels : list Raw.row) (min_ratings_no : Z) (min_ratings_prop : float)
    (decoys : gmap string string) (out : Summary.t) :
  get_summary_stats_for_image raw_labels min_ratings_no min_ratings_prop decoys
    = Ok out ->
  Summary.labels_all_same out
  = bool_decide (length (Counter (Summary.all_labels out)) = 1%nat)
  /\ Summary.majority_label_description out
     = (if Summary.is_label_certain out
        then join_comma (Summary.majority_label out) +:+ " (certain)"
        else join_comma (Summary.majority_label out) +:+ " (need relabelling)")
  /\ Summary.majority_label_verbose out
     = join_comma
         (map (fun l => verbose_item l (Summary.no_most_common_labels out)
                          (Summary.no_eligible_workers out))
              (Summary.majority_label out)).
Proof.
  unfold get_summary_stats_for_image. intros H.
  apply bind_Ok in H as (labels' & Hl & H).
  apply bind_Ok in H as (best & Hbest & H).
  unfold decoys_getitem, iloc_call in H. injection H as <-. simpl.
  split_and!; done.
Qed.

Lemma freq_le_length x l : freq x l <= Z.of_nat (length l).
Proof.
  induction l as [|y l IH]; simpl; [lia|]. destruct (decide (x = y)); lia.
Qed.

Lemma freq_cons x y l :
  freq x (y :: l) = (if decide (x = y) then 1 else 0) + freq x l.
Proof. reflexivity. Qed.

Lemma sum_freq_cons_not_elem (ks l : list string) (y : string) :
  y ∉ ks ->
  foldr Z.add 0 (map (fun k => freq k (y :: l)) ks)
  = foldr Z.add 0 (map (fun k => freq k l) ks).
Proof.
  induction ks as [|k ks IH]; intros Hy; [done|].
  apply not_elem_of_cons in Hy as [Hne Hy].
  cbn [map foldr]. rewrite IH by done.
  rewrite freq_cons, decide_False by done. done.
Qed.

Lemma sum_freq_cons_le (ks l : list string) (y : string) :
  NoDup ks ->
  foldr Z.add 0 (map (fun k => freq k (y :: l)) ks)
  <= 1 + foldr Z.add 0 (map (fun k => freq k l) ks).
Proof.
  induction ks as [|k ks IH]; intros Hnd; [cbn [map foldr]; lia|].
  apply NoDup_cons in Hnd as [Hk Hnd].
  destruct (decide (k = y)) as [->|Hne].
  - cbn [map foldr]. rewrite (sum_freq_cons_not_elem _ _ _ Hk).
    rewrite freq_cons, decide_True by done. lia.
  - specialize (IH Hnd). cbn [map foldr] in *.
    rewrite freq_cons, decide_False by done. lia.
Qed.

(** The frequencies of distinct labels add up to at most the number of
    labels. *)
Lemma sum_freq_NoDup (ks l : list string) :
  NoDup ks -> foldr Z.add 0 (map (fun k => freq k l) ks) <= Z.of_nat (length l).
Proof.
  intros Hnd. induction l as [|y l IH].
  - clear Hnd. induction ks as [|k ks IHk]; cbn [map foldr length] in *;
      [lia | change (freq k []) with 0; lia].
  - pose proof (sum_freq_cons_le ks l y Hnd). cbn [length].
    rewrite Nat2Z.inj_succ. lia.
Qed.

Lemma sum_const (ks : list string) (c : Z) (f : string -> Z) :
  (forall k, k ∈ ks -> f k = c) ->
  foldr Z.add 0 (map f ks) = Z.of_nat (length ks) * c.
Proof.
  induction ks as [|k ks IH]; intros Hc; simpl; [lia|].
  rewrite (Hc k) by left. rewrite IH; [lia|]. intros k' Hk'. apply Hc. by right.
Qed.

(** X1. The call returns exactly when at least one label was submitted in
    the group; for rows that carry no label at all, [most_common(1)[0]]
    raises [IndexError]. *)
Theorem summary_returns_iff_some_label
    (raw_labels : list Raw.row) (min_ratings_no : Z) (min_ratings_prop : float)
    (decoys : gmap string string) :
  ((exists out,
      get_summary_stats_for_image raw_labels min_ratings_no min_ratings_prop
        decoys = Ok out)
   <-> concat (map Raw.labels raw_labels) <> [])
  /\ (raw_labels <> [] -> concat (map Raw.labels raw_labels) = [] ->
      get_summary_stats_for_image raw_labels min_ratings_no min_ratings_prop
        decoys = Raise IndexError).
Proof.
  split; [split|].
  - intros [out Hout]. by apply get_summary_stats_for_image_Ok in Hout as [? _].
  - apply get_summary_stats_for_image_returns.
  - apply get_summary_stats_for_image_no_label.
Qed.

(** X2. In a returned summary the majority list is not empty, the majority
    count is at least one, and the tied majority labels together account for
    no more than all the labels: the number of majority labels times the
    majority count is at most the number of labels. *)
Theorem majority_count_bounds
    (raw_labels : list Raw.row) (min_ratings_no : Z) (min_ratings_prop : float)
    (decoys : gmap string string) (out : Summary.t) :
  get_summary_stats_for_image raw_labels min_ratings_no min_ratings_prop decoys
    = Ok out ->
  Summary.majority_label out <> []
  /\ 1 <= Summary.no_most_common_labels out
  /\ Z.of_nat (length (Summary.majority_label out))
     * Summary.no_most_common_labels out
     <= Z.of_nat (length (Summary.all_labels out)).
Proof.
  intros Hout.
  apply get_summary_stats_for_image_Ok in Hout
    as (Hne & _ & Hl & Hcount & _ & Hmaj & _).
  rewrite Hmaj, Hcount, Hl.
  set (labels := concat (map Raw.labels raw_labels)) in *.
  destruct (max_frequency_attained labels Hne) as (x & Hx & Hfx).
  split_and!.
  - intros Hnil.
    assert (Hin : x ∈ merge_sort String.le
                    (filter (fun kv => kv.2 = max_frequency labels)
                            (Counter labels)).*1)
      by (by apply elem_of_majority).
    rewrite Hnil in Hin. by apply elem_of_nil in Hin.
  - rewrite <- Hfx. pose proof (freq_pos x labels Hx). lia.
  - rewrite <- (sum_const _ _ (fun k => freq k labels)).
    + apply sum_freq_NoDup, majority_NoDup.
    + intros k Hk. by apply elem_of_majority in Hk as [_ ?].
Qed.

Lemma majority_count_bounds_witness :
  Summary.majority_label cat_dog_cat_summary <> []
  /\ 1 <= Summary.no_most_common_labels cat_dog_cat_summary
  /\ Z.of_nat (length (Summary.majority_label cat_dog_cat_summary))
     * Summary.no_most_common_labels cat_dog_cat_summary
     <= Z.of_nat (length (Summary.all_labels cat_dog_cat_summary)).
Proof.
  apply (majority_count_bounds cat_dog_cat 2 0.5%float ∅).
  vm_compute. reflexivity.
Defined.

Lemma Counter_length_1 (l : list string) :
  l <> [] ->
  (length (Counter l) = 1%nat <-> forall x y, x ∈ l -> y ∈ l -> x = y).
Proof.
  intros Hl. split.
  - intros Hlen x y Hx Hy.
    destruct (Counter l) as [|[k v] [|? ?]] eqn:Hc; try discriminate.
    assert (Hxin : (x, freq x l) ∈ Counter l) by (by apply elem_of_Counter).
    assert (Hyin : (y, freq y l) ∈ Counter l) by (by apply elem_of_Counter).
    rewrite Hc in Hxin, Hyin.
    apply list_elem_of_singleton in Hxin. apply list_elem_of_singleton in Hyin.
    congruence.
  - intros Hall. pose proof (Counter_NoDup l) as Hnd.
    destruct (Counter l) as [|[k v] [|[k' v'] rest]] eqn:Hc.
    + by apply Counter_nil_inv in Hc.
    + done.
    + exfalso.
      assert (Hk : (k, v) ∈ Counter l) by (rewrite Hc; left).
      assert (Hk' : (k', v') ∈ Counter l) by (rewrite Hc; right; left).
      apply elem_of_Counter in Hk as [Hk _]. apply elem_of_Counter in Hk' as [Hk' _].
      csimpl in Hnd. apply NoDup_cons in Hnd as [Hnin _].
      apply Hnin. rewrite (Hall k k' Hk Hk'). left.
Qed.

(** X3. In a returned summary, [labels_all_same] is set exactly when all the
    submitted labels are one and the same label. *)
Theorem labels_all_same_iff
    (raw_labels : list Raw.row) (min_ratings_no : Z) (min_ratings_prop : float)
    (decoys : gmap string string) (out : Summary.t) :
  get_summary_stats_for_image raw_labels min_ratings_no min_ratings_prop decoys
    = Ok out ->
  (Summary.labels_all_same out = true <->
   forall x y, x ∈ Summary.all_labels out -> y ∈ Summary.all_labels out -> x = y).
Proof.
  intros Hout.
  pose proof (get_summary_stats_for_image_display _ _ _ _ _ Hout) as [Hsame _].
  apply get_summary_stats_for_image_Ok in Hout as (Hne & _ & Hl & _).
  rewrite Hsame, Hl, bool_decide_eq_true. by apply Counter_length_1.
Qed.

Lemma labels_all_same_iff_witness :
  Summary.labels_all_same cat_dog_cat_summary = true <->
  forall x y, x ∈ Summary.all_labels cat_dog_cat_summary ->
              y ∈ Summary.all_labels cat_dog_cat_summary -> x = y.
Proof.
  apply (labels_all_same_iff cat_dog_cat 2 0.5%float ∅).
  vm_compute. reflexivity.
Defined.

(** X4. On the same rows, raising [min_ratings_no] changes neither the
    majority labels nor their count, and never makes an uncertain label
    certain. *)
Theorem certainty_antitone_in_min_ratings_no
    (raw_labels : list Raw.row) (min_ratings_no min_ratings_no' : Z)
    (min_ratings_prop : float) (decoys : gmap string string)
    (out out' : Summary.t) :
  min_ratings_no <= min_ratings_no' ->
  get_summary_stats_for_image raw_labels min_ratings_no min_ratings_prop decoys
    = Ok out ->
  get_summary_stats_for_image raw_labels min_ratings_no' min_ratings_prop decoys
    = Ok out' ->
  Summary.majority_label out' = Summary.majority_label out
  /\ Summary.no_most_common_labels out' = Summary.no_most_common_labels out
  /\ (Summary.is_label_certain out' = true ->
      Summary.is_label_certain out = true).
Proof.
  intros Hle Hout Hout'.
  apply get_summary_stats_for_image_Ok in Hout
    as (_ & _ & _ & Hcount & _ & Hmaj & Hcert & _).
  apply get_summary_stats_for_image_Ok in Hout'
    as (_ & _ & _ & Hcount' & _ & Hmaj' & Hcert' & _).
  rewrite Hmaj, Hmaj', Hcount, Hcount', Hcert, Hcert'. split_and!; [done..|].
  rewrite !andb_true_iff, !bool_decide_eq_true. intros [? ?]. split; [lia | done].
Qed.

Lemma certainty_antitone_in_min_ratings_no_witness :
  Summary.majority_label cat_dog_cat_summary
  = Summary.majority_label cat_dog_cat_summary
  /\ Summary.no_most_common_labels cat_dog_cat_summary
     = Summary.no_most_common_labels cat_dog_cat_summary
  /\ (Summary.is_label_certain cat_dog_cat_summary = true ->
      Summary.is_label_certain cat_dog_cat_summary = true).
Proof.
  apply (certainty_antitone_in_min_ratings_no cat_dog_cat 1 2 0.5%float ∅).
  - lia.
  - vm_compute. reflexivity.
  - vm_compute. reflexivity.
Defined.

Lemma is_majority_label_flag majority labels :
  is_majority_label majority labels = 0 \/ is_majority_label majority labels = 1.
Proof. unfold is_majority_label. destruct (existsb _ labels); auto. Qed.

(** X5. The [worker_quality] mapping of a returned summary has one entry per
    worker, and every entry is the flag 0 or the flag 1. *)
Theorem worker_quality_flags
    (raw_labels : list Raw.row) (min_ratings_no : Z) (min_ratings_prop : float)
    (decoys : gmap string string) (out : Summary.t) :
  get_summary_stats_for_image raw_labels min_ratings_no min_ratings_prop decoys
    = Ok out ->
  NoDup (Summary.worker_quality out).*1
  /\ forall w v, (w, v) ∈ Summary.worker_quality out -> v = 0 \/ v = 1.
Proof.
  intros Hout.
  apply get_summary_stats_for_image_Ok in Hout
    as (_ & _ & _ & _ & _ & _ & _ & _ & _ & Hwq).
  rewrite Hwq. clear Hwq.
  destruct (bool_decide _ && _).
  - rewrite worker_quality_mapping_certain.
    assert (Hnd : NoDup
              (foldl (fun mapping row =>
                        dict_set mapping (Raw.worker_id row)
                          (is_majority_label
                             (merge_sort String.le
                                (filter (fun kv => kv.2
                                   = max_frequency (concat (map Raw.labels raw_labels)))
                                   (Counter (concat (map Raw.labels raw_labels)))).*1)
                             (Raw.labels row)))
                     [] raw_labels).*1)
      by (apply quality_loop_NoDup, NoDup_nil_2).
    split; [done|]. intros w v Hin.
    apply (dict_elem_get _ _ _ Hnd) in Hin. rewrite quality_loop_get in Hin.
    destruct (last _) as [r|]; [|done]. injection Hin as <-.
    apply is_majority_label_flag.
  - rewrite worker_quality_mapping_uncertain. split; [apply NoDup_nil_2|].
    intros w v Hin. by apply elem_of_nil in Hin.
Qed.

Lemma worker_quality_flags_witness :
  NoDup (Summary.worker_quality cat_dog_cat_summary).*1
  /\ forall w v, (w, v) ∈ Summary.worker_quality cat_dog_cat_summary ->
                 v = 0 \/ v = 1.
Proof.
  apply (worker_quality_flags cat_dog_cat 2 0.5%float ∅).
  vm_compute. reflexivity.
Defined.

(** ** More of what get_workers_reliability returns *)

(** The row of a worker, read off the worker's pooled observations. *)
Lemma get_workers_reliability_row
    (experiment_df : list (list (string * Z)))
    (previous_experiments : list (list (list (string * Z))))
    (reliability_threshold : float) (no_labels_per_experiment : Z)
    (df_workers : list Worker.row) (row : Worker.row) :
  get_workers_reliability experiment_df previous_experiments
    reliability_threshold no_labels_per_experiment = Ok df_workers ->
  (row ∈ df_workers <->
   observations (Worker.worker_id row)
     (concat (experiment_df :: previous_experiments)) <> []
   /\ no_labels_per_experiment <> 0
   /\ row = {| Worker.worker_id := Worker.worker_id row;
               Worker.mean :=
                 np_mean (observations (Worker.worker_id row)
                            (concat (experiment_df :: previous_experiments)));
               Worker.count :=
                 Z.of_nat (length (observations (Worker.worker_id row)
                                     (concat (experiment_df :: previous_experiments))))
                 `div` no_labels_per_experiment;
               Worker.is_worker_reliable :=
                 PrimFloat.ltb reliability_threshold
                   (np_mean (observations (Worker.worker_id row)
                               (concat (experiment_df :: previous_experiments)))) |}).
Proof.
  unfold get_workers_reliability. intros Hrows.
  set (pooled := concat (experiment_df :: previous_experiments)) in *.
  split.
  - intros Hrow.
    destruct (mapM_result_elem _ _ _ _ Hrows Hrow) as ([w scores] & Hin & Hf).
    cbn [fst snd] in Hf. apply bind_Ok in Hf as (c & Hc & [= <-]).
    apply elem_of_pool_ratings in Hin as [-> Hne]. cbn.
    unfold floordiv in Hc. destruct (decide (no_labels_per_experiment = 0)); [done|].
    injection Hc as <-. done.
  - intros (Hne & Hn & Hrow).
    assert (Hin : (Worker.worker_id row, observations (Worker.worker_id row) pooled)
                  ∈ pool_ratings pooled) by (by apply elem_of_pool_ratings).
    apply list_elem_of_lookup_1 in Hin as [i Hi].
    destruct (mapM_result_Ok_lookup _ _ _ _ _ Hrows Hi) as (row' & Hrow' & Hf).
    cbn [fst snd] in Hf. unfold floordiv in Hf.
    rewrite decide_False in Hf by done. cbn [mbind result_bind] in Hf.
    injection Hf as <-. rewrite Hrow. by eapply list_elem_of_lookup_2.
Qed.

(** X6. The [count] of a worker's row is the number of the worker's pooled
    observations floor-divided by [no_labels_per_experiment]: a partial
    round is dropped from the count. *)
Theorem workers_reliability_count
    (experiment_df : list (list (string * Z)))
    (previous_experiments : list (list (list (string * Z))))
    (reliability_threshold : float) (no_labels_per_experiment : Z)
    (df_workers : list Worker.row) (row : Worker.row) :
  get_workers_reliability experiment_df previous_experiments
    reliability_threshold no_labels_per_experiment = Ok df_workers ->
  row ∈ df_workers ->
  Worker.count row
  = Z.of_nat (length (observations (Worker.worker_id row)
                        (concat (experiment_df :: previous_experiments))))
    `div` no_labels_per_experiment
  /\ (0 < no_labels_per_experiment ->
      no_labels_per_experiment * Worker.count row
      <= Z.of_nat (length (observations (Worker.worker_id row)
                             (concat (experiment_df :: previous_experiments))))
      < no_labels_per_experiment * (Worker.count row + 1)).
Proof.
  intros Hrows Hrow.
  apply (get_workers_reliability_row _ _ _ _ _ _ Hrows) in Hrow as (_ & Hn & Hrow).
  rewrite Hrow. cbn [Worker.count Worker.worker_id]. split; [done|].
  intros Hpos.
  pose proof (Z.mul_div_le
    (Z.of_nat (length (observations (Worker.worker_id row)
                         (concat (experiment_df :: previous_experiments)))))
    no_labels_per_experiment Hpos).
  pose proof (Z.mul_succ_div_gt
    (Z.of_nat (length (observations (Worker.worker_id row)
                         (concat (experiment_df :: previous_experiments)))))
    no_labels_per_experiment Hpos).
  lia.
Qed.

Lemma workers_reliability_count_witness :
  Worker.count {| Worker.worker_id := "a"; Worker.mean := 0.5%float;
                  Worker.count := 1; Worker.is_worker_reliable := false |}
  = Z.of_nat (length (observations "a" (concat (half_and_all :: [])))) `div` 2
  /\ (0 < 2 ->
      2 * 1 <= Z.of_nat (length (observations "a" (concat (half_and_all :: []))))
      < 2 * (1 + 1)).
Proof.
  apply (workers_reliability_count half_and_all [] 0.5%float 2 half_and_all_workers
           {| Worker.worker_id := "a"; Worker.mean := 0.5%float;
              Worker.count := 1; Worker.is_worker_reliable := false |}).
  - vm_compute. reflexivity.
  - left.
Defined.

Lemma concat_Permutation {A : Type} (ls ls' : list (list A)) :
  ls ≡ₚ ls' -> concat ls ≡ₚ concat ls'.
Proof.
  induction 1 as [|l ls ls' _ IH|l1 l2 ls|ls1 ls2 ls3 _ IH1 _ IH2]; cbn [concat].
  - done.
  - by rewrite IH.
  - rewrite !app_assoc. by rewrite (Permutation_app_comm l2 l1).
  - by rewrite IH1.
Qed.

Lemma observations_Permutation w (column column' : list (list (string * Z))) :
  column ≡ₚ column' -> observations w column ≡ₚ observations w column'.
Proof.
  intros Hp. unfold observations. apply fmap_Permutation.
  apply filter_Permutation. by apply concat_Permutation.
Qed.

Lemma sum_Permutation (l l' : list Z) :
  l ≡ₚ l' -> foldr Z.add 0 l = foldr Z.add 0 l'.
Proof.
  induction 1 as [|x l l' _ IH|x y l|l1 l2 l3 _ IH1 _ IH2]; cbn [foldr]; lia.
Qed.

Lemma np_mean_Permutation (l l' : list Z) : l ≡ₚ l' -> np_mean l = np_mean l'.
Proof.
  intros Hp. unfold np_mean.
  by rewrite (sum_Permutation _ _ Hp), (Permutation_length Hp).
Qed.

(** X7. The reliability table does not depend on the order in which the
    previous experiments are supplied: the same rows come out, each worker
    with the same mean, count and flag; only the order of the rows can
    differ. *)
Theorem workers_reliability_round_order
    (experiment_df : list (list (string * Z)))
    (previous_experiments previous_experiments' : list (list (list (string * Z))))
    (reliability_threshold : float) (no_labels_per_experiment : Z)
    (df_workers df_workers' : list Worker.row) :
  previous_experiments ≡ₚ previous_experiments' ->
  get_workers_reliability experiment_df previous_experiments
    reliability_threshold no_labels_per_experiment = Ok df_workers ->
  get_workers_reliability experiment_df previous_experiments'
    reliability_threshold no_labels_per_experiment = Ok df_workers' ->
  df_workers ≡ₚ df_workers'.
Proof.
  intros Hp Hrows Hrows'.
  assert (Hobs : forall w,
            observations w (concat (experiment_df :: previous_experiments))
            ≡ₚ observations w (concat (experiment_df :: previous_experiments'))).
  { intros w. apply observations_Permutation, concat_Permutation.
    by constructor. }
  apply NoDup_Permutation.
  - apply (NoDup_fmap_1 Worker.worker_id).
    by apply get_workers_reliability_NoDup in Hrows.
  - apply (NoDup_fmap_1 Worker.worker_id).
    by apply get_workers_reliability_NoDup in Hrows'.
  - intros row.
    rewrite (get_workers_reliability_row _ _ _ _ _ row Hrows).
    rewrite (get_workers_reliability_row _ _ _ _ _ row Hrows').
    specialize (Hobs (Worker.worker_id row)).
    assert (Hnil : observations (Worker.worker_id row)
                     (concat (experiment_df :: previous_experiments)) = []
                   <-> observations (Worker.worker_id row)
                         (concat (experiment_df :: previous_experiments')) = []).
    { rewrite <- !length_zero_iff_nil. by rewrite (Permutation_length Hobs). }
    rewrite (np_mean_Permutation _ _ Hobs), (Permutation_length Hobs), Hnil.
    done.
Qed.

Lemma pool_ratings_nil (quality_column : list (list (string * Z))) :
  pool_ratings quality_column = [] <-> Forall (fun q => q = []) quality_column.
Proof.
  split.
  - intros Hnil. apply Forall_forall. intros q Hq.
    destruct q as [|[w r] q']; [done|]. exfalso.
    assert (Hobs : observations w quality_column <> []).
    { unfold observations. intros Hobs.
      apply fmap_nil_inv in Hobs.
      assert (Hin : (w, r) ∈ filter (fun item => item.1 = w) (concat quality_column)).
      { apply list_elem_of_filter. split; [done|].
        apply list_elem_of_In, in_concat. exists ((w, r) :: q').
        split; [by apply list_elem_of_In | left; done]. }
      rewrite Hobs in Hin. by apply elem_of_nil in Hin. }
    pose proof (pool_ratings_get quality_column w) as Hget.
    rewrite Hnil in Hget. cbn [dict_get] in Hget.
    by destruct (observations w quality_column).
  - intros Hall. rewrite pool_ratings_flat.
    assert (concat quality_column = []) as ->; [|done].
    induction Hall as [|q qs -> _ IH]; [done|]. cbn [concat app]. done.
Qed.

(** X8. With [no_labels_per_experiment] zero the call raises
    [ZeroDivisionError] as soon as one agreement observation exists in the
    frames; without any observation it returns the empty table, whatever the
    parameter. *)
Theorem workers_reliability_zero_division
    (experiment_df : list (list (string * Z)))
    (previous_experiments : list (list (list (string * Z))))
    (reliability_threshold : float) :
  (Forall (fun q => q = []) (concat (experiment_df :: previous_experiments)) ->
   forall no_labels_per_experiment,
     get_workers_reliability experiment_df previous_experiments
       reliability_threshold no_labels_per_experiment = Ok [])
  /\ (~ Forall (fun q => q = []) (concat (experiment_df :: previous_experiments)) ->
      get_workers_reliability experiment_df previous_experiments
        reliability_threshold 0 = Raise ZeroDivisionError).
Proof.
  unfold get_workers_reliability. split.
  - intros Hall n. apply pool_ratings_nil in Hall. rewrite Hall. done.
  - intros Hsome. rewrite <- pool_ratings_nil in Hsome.
    destruct (pool_ratings _) as [|item rest]; [done|]. done.
Qed.

(** ** More of what filter_out_unreliable_workers does *)

(** X9. With [include_previous_in_output] set and no previous experiment,
    the call never returns: when the current round can be annotated, it
    stops at [pd.concat] of nothing with a [ValueError]. *)
Theorem include_previous_needs_previous
    (raw_responses : list Raw.row) (reliability_threshold : float)
    (min_ratings_no : Z) (min_ratings_prop : float)
    (decoys : gmap string string) :
  (exists e,
     filter_out_unreliable_workers raw_responses [] reliability_threshold
       min_ratings_no min_ratings_prop decoys true = Raise e)
  /\ ((exists current,
         annotate_responses raw_responses min_ratings_no min_ratings_prop decoys
           = Ok current) ->
      filter_out_unreliable_workers raw_responses [] reliability_threshold
        min_ratings_no min_ratings_prop decoys true = Raise ValueError).
Proof.
  unfold filter_out_unreliable_workers.
  destruct (annotate_responses raw_responses _ _ _) as [current|e] eqn:Hcur;
    cbn [mbind result_bind mapM_result map].
  - destruct (get_workers_reliability_returns
                (map Summary.worker_quality current) [] reliability_threshold 20)
      as [rel ->]; [done|].
    cbn [mbind result_bind pd_concat]. eauto.
  - split; [eauto|]. intros [current Hc]. discriminate.
Qed.

Lemma filter_raw_responses_Ok raw_responses workers_reliability filtered l :
  filter_raw_responses raw_responses workers_reliability = Ok filtered ->
  (l ∈ map fst filtered <->
   l ∈ raw_responses
   /\ exists r, r ∈ workers_reliability
                /\ Worker.worker_id r = Raw.worker_id l
                /\ Worker.is_worker_reliable r = true).
Proof.
  intros Hf.
  destruct workers_reliability as [|r0 rs] eqn:Hrel; [discriminate|].
  rewrite <- Hrel in *.
  destruct (filter_raw_responses_survivors raw_responses workers_reliability)
    as (filtered' & Hf' & Hiff); [by rewrite Hrel|].
  assert (filtered' = filtered) as -> by congruence. apply Hiff.
Qed.

(** X10. Every worker listed in a row of the second returned table has a
    row in the reliability table that is marked reliable: the filtered
    consensus rests on the answers of reliable workers only. *)
Theorem filtered_rows_from_reliable_workers
    (raw_responses : list Raw.row) (previous_experiments : list (list Raw.row))
    (reliability_threshold : float) (min_ratings_no : Z)
    (min_ratings_prop : float) (decoys : gmap string string)
    (include_previous_in_output : bool) (unfiltered filtered : list Summary.t) :
  filter_out_unreliable_workers raw_responses previous_experiments
    reliability_threshold min_ratings_no min_ratings_prop decoys
    include_previous_in_output = Ok (unfiltered, filtered) ->
  exists current previous_annotated workers_reliability,
    annotate_responses raw_responses min_ratings_no min_ratings_prop decoys
      = Ok current
    /\ mapM_result
         (fun responses =>
            annotate_responses responses min_ratings_no min_ratings_prop decoys)
         previous_experiments = Ok previous_annotated
    /\ get_workers_reliability (map Summary.worker_quality current)
         (map (map Summary.worker_quality) previous_annotated)
         reliability_threshold 20 = Ok workers_reliability
    /\ forall s w, s ∈ filtered -> w ∈ Summary.worker_list s ->
         exists r, r ∈ workers_reliability
                   /\ Worker.worker_id r = w
                   /\ Worker.is_worker_reliable r = true.
Proof.
  intros H. apply filter_out_unreliable_workers_Ok in H
    as (current & previous_annotated & rel & working_raw & filtered_raw
        & Hcur & Hprev & Hrel & _ & Hfr & Hfa).
  exists current, previous_annotated, rel. split_and!; [done..|].
  intros s w Hs Hw. apply annotate_responses_Ok in Hfa as [_ Hfa].
  destruct (mapM_result_elem _ _ _ _ Hfa Hs) as (k & _ & Hsum).
  apply get_summary_stats_for_image_Ok in Hsum as (_ & Hwl & _).
  rewrite Hwl in Hw. apply elem_of_map in Hw as (l & -> & Hl).
  apply list_elem_of_filter in Hl as [_ Hl].
  apply (filter_raw_responses_Ok _ _ _ _ Hfr) in Hl as (_ & r & Hr & Hid & Hflag).
  eauto.
Qed.

Lemma filtered_rows_from_reliable_workers_witness :
  exists current previous_annotated workers_reliability,
    annotate_responses cat_cat_dog 2 0.5%float ∅ = Ok current
    /\ mapM_result
         (fun responses => annotate_responses responses 2 0.5%float ∅) []
       = Ok previous_annotated
    /\ get_workers_reliability (map Summary.worker_quality current)
         (map (map Summary.worker_quality) previous_annotated) 0.8%float 20
       = Ok workers_reliability
    /\ forall s w, s ∈ one_round_tables.2 -> w ∈ Summary.worker_list s ->
         exists r, r ∈ workers_reliability
                   /\ Worker.worker_id r = w
                   /\ Worker.is_worker_reliable r = true.
Proof.
  apply (filtered_rows_from_reliable_workers cat_cat_dog [] 0.8%float 2
           0.5%float ∅ false one_round_tables.1 one_round_tables.2).
  vm_compute. reflexivity.
Defined.

Lemma mapM_result_map {A B C : Type} (f : A -> result B) (g : A -> C)
    (h : B -> C) l ys :
  (forall x y, f x = Ok y -> h y = g x) ->
  mapM_result f l = Ok ys -> map h ys = map g l.
Proof.
  intros Hfg. revert ys. induction l as [|x l IH]; intros ys; simpl.
  - intros [= <-]. done.
  - destruct (f x) as [y|] eqn:Hy; [|discriminate].
    destruct (mapM_result f l) as [ys'|]; [|discriminate].
    intros [= <-]. simpl. f_equal; [by apply Hfg | by apply IH].
Qed.

(** Each row belongs to one group: over distinct keys that cover the rows,
    the sizes of the groups add up to the number of rows. *)
Lemma sum_group_sizes (df : list Raw.row) (ks : list (string * string)) :
  NoDup ks -> (forall r, r ∈ df -> group_key r ∈ ks) ->
  foldr Z.add 0 (map (fun k => Z.of_nat (length (get_group df k))) ks)
  = Z.of_nat (length df).
Proof.
  intros Hnd. induction df as [|x df IH]; intros Hcover.
  - clear. induction ks as [|k ks IH]; cbn [map foldr]; [done|].
    rewrite IH. done.
  - specialize (IH (fun r Hr => Hcover r (list_elem_of_further _ _ _ Hr))).
    cbn [length]. rewrite Nat2Z.inj_succ, <- IH.
    pose proof (Hcover x (list_elem_of_here _ _)) as Hx.
    clear IH Hcover. induction ks as [|k ks IHk]; [by apply elem_of_nil in Hx|].
    apply NoDup_cons in Hnd as [Hk Hnd]. cbn [map foldr].
    unfold get_group at 1. rewrite filter_cons.
    destruct (decide (group_key x = k)) as [Heq|Hne].
    + assert (Hrest : foldr Z.add 0
                        (map (fun k => Z.of_nat (length (get_group (x :: df) k))) ks)
                      = foldr Z.add 0
                          (map (fun k => Z.of_nat (length (get_group df k))) ks)).
      { clear IHk Hnd. subst k. clear Hx.
        induction ks as [|k' ks IH']; [done|].
        apply not_elem_of_cons in Hk as [Hne Hk]. cbn [map foldr].
        rewrite (IH' Hk). unfold get_group. rewrite filter_cons.
        rewrite decide_False by done. done. }
      rewrite Hrest. cbn [length]. unfold get_group. lia.
    + apply elem_of_cons in Hx as [Hx|Hx]; [done|].
      rewrite (IHk Hnd Hx). unfold get_group. lia.
Qed.

Lemma annotate_responses_sum
    (df : list Raw.row) (min_ratings_no : Z) (min_ratings_prop : float)
    (decoys : gmap string string) (table : list Summary.t) :
  annotate_responses df min_ratings_no min_ratings_prop decoys = Ok table ->
  foldr Z.add 0 (map Summary.no_eligible_workers table) = Z.of_nat (length df).
Proof.
  intros [_ Ht]%annotate_responses_Ok.
  assert (Hmap : map Summary.no_eligible_workers table
                 = map (fun k => Z.of_nat (length (get_group df k)))
                       (group_keys df)).
  { eapply mapM_result_map; [|exact Ht]. intros k s Hs. cbn beta in Hs.
    by apply get_summary_stats_for_image_Ok in Hs as (_ & _ & _ & _ & -> & _). }
  rewrite Hmap. apply sum_group_sizes; [apply group_keys_NoDup|].
  intros r Hr. apply elem_of_group_keys. eauto.
Qed.

(** X11. The table of [annotate_responses] has one row per distinct pair of
    image and job, and the [no_eligible_workers] of its rows add up to the
    number of raw rows: every raw row is counted in exactly one group. *)
Theorem annotate_responses_partition
    (df : list Raw.row) (min_ratings_no : Z) (min_ratings_prop : float)
    (decoys : gmap string string) (table : list Summary.t) :
  annotate_responses df min_ratings_no min_ratings_prop decoys = Ok table ->
  length table = length (remove_dups (map group_key df))
  /\ foldr Z.add 0 (map Summary.no_eligible_workers table)
     = Z.of_nat (length df).
Proof.
  intros Ht. split.
  - rewrite (annotate_responses_length _ _ _ _ _ Ht). unfold group_keys.
    apply Permutation_length, merge_sort_Permutation.
  - by eapply annotate_responses_sum.
Qed.

Lemma annotate_responses_partition_witness :
  length [cat_dog_cat_summary] = length (remove_dups (map group_key cat_dog_cat))
  /\ foldr Z.add 0 (map Summary.no_eligible_workers [cat_dog_cat_summary])
     = Z.of_nat (length cat_dog_cat).
Proof.
  apply (annotate_responses_partition cat_dog_cat 2 0.5%float ∅).
  vm_compute. reflexivity.
Defined.

Lemma sublist_same_length {A : Type} (l1 l2 : list A) :
  l1 `sublist_of` l2 -> length l1 = length l2 -> l1 = l2.
Proof.
  induction 1 as [|x l1 l2 Hsub IH|x l1 l2 Hsub IH]; cbn [length]; intros Hlen.
  - done.
  - f_equal. apply IH. lia.
  - apply sublist_length in Hsub. lia.
Qed.

(** The summary of a group does not depend on the order of its rows, as
    long as the rows of each worker keep their order. *)
Lemma freq_Permutation x (l l' : list string) : l ≡ₚ l' -> freq x l = freq x l'.
Proof.
  induction 1 as [|y l l' _ IH|y z l|l1 l2 l3 _ IH1 _ IH2]; cbn [freq]; lia.
Qed.

Lemma foldr_max_Permutation (zs zs' : list Z) :
  zs ≡ₚ zs' -> foldr Z.max 0 zs = foldr Z.max 0 zs'.
Proof.
  induction 1 as [|y l l' _ IH|y z l|l1 l2 l3 _ IH1 _ IH2]; cbn [foldr]; lia.
Qed.

Lemma max_frequency_Permutation (l l' : list string) :
  l ≡ₚ l' -> max_frequency l = max_frequency l'.
Proof.
  intros Hperm. unfold max_frequency.
  rewrite (foldr_max_Permutation _ (map (fun x => freq x l) l'))
    by (by apply Permutation_map).
  f_equal. apply map_ext. intros x. by apply freq_Permutation.
Qed.

Lemma dict_Permutation (d d' : list (string * Z)) :
  NoDup d.*1 -> NoDup d'.*1 ->
  (forall k, dict_get d k = dict_get d' k) -> d ≡ₚ d'.
Proof.
  intros Hd Hd' Hget.
  apply NoDup_Permutation; [by eapply NoDup_fmap_1..|].
  intros [k v]. split; intros Hin.
  - apply dict_get_Some_elem. rewrite <- Hget. by apply dict_elem_get.
  - apply dict_get_Some_elem. rewrite Hget. by apply dict_elem_get.
Qed.

Lemma get_summary_stats_for_image_Permutation
    (raw_labels raw_labels' : list Raw.row) (min_ratings_no : Z)
    (min_ratings_prop : float) (decoys : gmap string string)
    (out out' : Summary.t) :
  raw_labels ≡ₚ raw_labels' ->
  (forall w, filter (fun r => Raw.worker_id r = w) raw_labels
             = filter (fun r => Raw.worker_id r = w) raw_labels') ->
  get_summary_stats_for_image raw_labels min_ratings_no min_ratings_prop decoys
    = Ok out ->
  get_summary_stats_for_image raw_labels' min_ratings_no min_ratings_prop decoys
    = Ok out' ->
  Summary.worker_list out ≡ₚ Summary.worker_list out'
  /\ Summary.all_labels out ≡ₚ Summary.all_labels out'
  /\ Summary.labels_all_same out = Summary.labels_all_same out'
  /\ Summary.no_most_common_labels out = Summary.no_most_common_labels out'
  /\ Summary.no_eligible_workers out = Summary.no_eligible_workers out'
  /\ Summary.majority_label out = Summary.majority_label out'
  /\ Summary.majority_label_description out
     = Summary.majority_label_description out'
  /\ Summary.majority_label_verbose out = Summary.majority_label_verbose out'
  /\ Summary.is_label_certain out = Summary.is_label_certain out'
  /\ Summary.decoy_label out = Summary.decoy_label out'
  /\ Summary.is_decoy out = Summary.is_decoy out'
  /\ Summary.worker_quality out ≡ₚ Summary.worker_quality out'.
Proof.
  intros Hperm Hstable Hout Hout'.
  pose proof (get_summary_stats_for_image_display _ _ _ _ _ Hout)
    as (Hsame & Hdesc & Hverb).
  pose proof (get_summary_stats_for_image_display _ _ _ _ _ Hout')
    as (Hsame' & Hdesc' & Hverb').
  apply get_summary_stats_for_image_Ok in Hout
    as (Hne & Hwl & Hal & Hcount & Hn & Hmaj & Hcert & Hdl & Hd & Hwq).
  apply get_summary_stats_for_image_Ok in Hout'
    as (Hne' & Hwl' & Hal' & Hcount' & Hn' & Hmaj' & Hcert' & Hdl' & Hd' & Hwq').
  assert (Hlabels : concat (map Raw.labels raw_labels)
                    ≡ₚ concat (map Raw.labels raw_labels'))
    by (by apply concat_Permutation, Permutation_map).
  assert (Hc : Summary.no_most_common_labels out
               = Summary.no_most_common_labels out')
    by (rewrite Hcount, Hcount'; by apply max_frequency_Permutation).
  assert (Hlen : Summary.no_eligible_workers out
                 = Summary.no_eligible_workers out')
    by (rewrite Hn, Hn'; f_equal; by apply Permutation_length).
  assert (Hm : Summary.majority_label out = Summary.majority_label out').
  { rewrite Hmaj, Hmaj'. apply (StronglySorted_unique String.le).
    - apply majority_sorted.
    - apply majority_sorted.
    - apply NoDup_Permutation; [apply majority_NoDup..|].
      intros x. rewrite !elem_of_majority.
      rewrite (freq_Permutation x _ _ Hlabels),
        (max_frequency_Permutation _ _ Hlabels).
      by rewrite Hlabels. }
  assert (Hce : Summary.is_label_certain out = Summary.is_label_certain out').
  { rewrite Hcert, Hcert'.
    rewrite (max_frequency_Permutation _ _ Hlabels).
    by rewrite (Permutation_length Hperm). }
  split_and!.
  - rewrite Hwl, Hwl'. by apply Permutation_map.
  - by rewrite Hal, Hal'.
  - rewrite Hsame, Hsame', Hal, Hal'. apply bool_decide_ext.
    rewrite !Counter_length_1 by done.
    split; intros Hall x y Hx Hy; apply Hall.
    + by rewrite Hlabels.
    + by rewrite Hlabels.
    + by rewrite <- Hlabels.
    + by rewrite <- Hlabels.
  - done.
  - done.
  - done.
  - by rewrite Hdesc, Hdesc', Hce, Hm.
  - by rewrite Hverb, Hverb', Hm, Hc, Hlen.
  - done.
  - by rewrite Hdl, Hdl'.
  - by rewrite Hd, Hd'.
  - rewrite Hwq, Hwq'. rewrite <- Hcert, <- Hcert', <- Hmaj, <- Hmaj', <- Hce, <- Hm.
    destruct (Summary.is_label_certain out).
    + rewrite !worker_quality_mapping_certain.
      apply dict_Permutation; [by apply quality_loop_NoDup, NoDup_nil_2..|].
      intros w. rewrite !quality_loop_get. by rewrite Hstable.
    + by rewrite !worker_quality_mapping_uncertain.
Qed.

Lemma filter_comm {A : Type} (P Q : A -> Prop) `{!forall x, Decision (P x)}
    `{!forall x, Decision (Q x)} (l : list A) :
  filter P (filter Q l) = filter Q (filter P l).
Proof. rewrite !list_filter_filter. apply list_filter_iff. naive_solver. Qed.

(** The join keeps the rows of each worker in their order. *)
Lemma filter_flat_map_classes (left : list Raw.row) (ks : list string) w :
  NoDup ks ->
  filter (fun r => Raw.worker_id r = w)
    (flat_map (fun w' => filter (fun l => Raw.worker_id l = w') left) ks)
  = if decide (w ∈ ks) then filter (fun r => Raw.worker_id r = w) left else [].
Proof.
  induction 1 as [|k ks Hk Hnd IH]; [done|].
  cbn [flat_map]. rewrite filter_app, IH.
  destruct (decide (w = k)) as [->|Hne].
  - rewrite (decide_True (P := k ∈ k :: ks)) by left.
    rewrite (decide_False (P := k ∈ ks)) by done.
    rewrite app_nil_r. rewrite list_filter_filter.
    apply list_filter_iff. naive_solver.
  - assert (filter (fun r => Raw.worker_id r = w)
              (filter (fun l => Raw.worker_id l = k) left) = []) as ->.
    { apply filter_none. intros r Hr%list_elem_of_filter. naive_solver. }
    cbn [app]. destruct (decide (w ∈ ks)).
    + by rewrite decide_True by (by right).
    + rewrite decide_False; [done|]. by intros [?|?]%elem_of_cons.
Qed.

Lemma join_order_stable (left : list Raw.row) w :
  filter (fun r => Raw.worker_id r = w) (join_order left)
  = filter (fun r => Raw.worker_id r = w) left.
Proof.
  unfold join_order. rewrite filter_flat_map_classes by apply join_keys_NoDup.
  case_decide as Hw; [done|]. symmetry. apply filter_none.
  intros r Hr Heq. apply Hw, elem_of_join_keys, elem_of_map. eauto.
Qed.

(** X12. With [include_previous_in_output] false, when the second table
    accounts for as many rows as were given, that is, when no row was
    filtered out, the second table agrees with the first row by row in
    everything but the order in which the join left the workers: the
    worker lists, the label lists and the agreement flags are
    rearrangements of each other, and every other field is equal. *)
Theorem nothing_filtered_same_consensus
    (raw_responses : list Raw.row) (previous_experiments : list (list Raw.row))
    (reliability_threshold : float) (min_ratings_no : Z)
    (min_ratings_prop : float) (decoys : gmap string string)
    (unfiltered filtered : list Summary.t) :
  filter_out_unreliable_workers raw_responses previous_experiments
    reliability_threshold min_ratings_no min_ratings_prop decoys false
    = Ok (unfiltered, filtered) ->
  foldr Z.add 0 (map Summary.no_eligible_workers filtered)
  = Z.of_nat (length raw_responses) ->
  Forall2
    (fun f u =>
       Summary.worker_list f ≡ₚ Summary.worker_list u
       /\ Summary.all_labels f ≡ₚ Summary.all_labels u
       /\ Summary.labels_all_same f = Summary.labels_all_same u
       /\ Summary.no_most_common_labels f = Summary.no_most_common_labels u
       /\ Summary.no_eligible_workers f = Summary.no_eligible_workers u
       /\ Summary.majority_label f = Summary.majority_label u
       /\ Summary.majority_label_description f
          = Summary.majority_label_description u
       /\ Summary.majority_label_verbose f = Summary.majority_label_verbose u
       /\ Summary.is_label_certain f = Summary.is_label_certain u
       /\ Summary.decoy_label f = Summary.decoy_label u
       /\ Summary.is_decoy f = Summary.is_decoy u
       /\ Summary.worker_quality f ≡ₚ Summary.worker_quality u)
    filtered unfiltered.
Proof.
  intros H Hsum. apply filter_out_unreliable_workers_Ok in H
    as (current & previous_annotated & rel & working_raw & filtered_raw
        & Hcur & _ & Hrel & [-> ->] & Hfr & Hfa).
  assert (Hsub : map fst filtered_raw `sublist_of` join_order raw_responses).
  { eapply filter_raw_responses_sublist; [|exact Hfr].
    by apply get_workers_reliability_NoDup in Hrel. }
  rewrite (annotate_responses_sum _ _ _ _ _ Hfa) in Hsum.
  apply Nat2Z.inj in Hsum.
  rewrite <- (Permutation_length (join_order_Permutation raw_responses)) in Hsum.
  apply (sublist_same_length _ _ Hsub) in Hsum. rewrite Hsum in Hfa. clear Hsub Hsum.
  pose proof (join_order_Permutation raw_responses) as Hperm.
  pose proof (group_keys_Permutation _ _ Hperm) as Hkeys.
  apply Forall2_same_length_lookup_2.
  { rewrite (annotate_responses_length _ _ _ _ _ Hfa),
      (annotate_responses_length _ _ _ _ _ Hcur). by rewrite Hkeys. }
  intros i f u Hf Hu.
  assert (is_Some (group_keys raw_responses !! i)) as [k Hk].
  { apply lookup_lt_is_Some.
    rewrite <- (annotate_responses_length _ _ _ _ _ Hcur).
    by eapply lookup_lt_Some. }
  destruct (annotate_responses_lookup _ _ _ _ _ _ _ Hcur Hk) as (u' & Hu' & Hsu & _).
  rewrite <- Hkeys in Hk.
  destruct (annotate_responses_lookup _ _ _ _ _ _ _ Hfa Hk) as (f' & Hf' & Hsf & _).
  assert (f' = f) as -> by congruence. assert (u' = u) as -> by congruence.
  eapply get_summary_stats_for_image_Permutation; [| |exact Hsf|exact Hsu].
  - by apply get_group_Permutation.
  - intros w. unfold get_group.
    rewrite !(filter_comm (fun r => Raw.worker_id r = w)).
    by rewrite join_order_stable.
Qed.

Lemma nothing_filtered_same_consensus_witness :
  Forall2
    (fun f u =>
       Summary.worker_list f ≡ₚ Summary.worker_list u
       /\ Summary.all_labels f ≡ₚ Summary.all_labels u
       /\ Summary.labels_all_same f = Summary.labels_all_same u
       /\ Summary.no_most_common_labels f = Summary.no_most_common_labels u
       /\ Summary.no_eligible_workers f = Summary.no_eligible_workers u
       /\ Summary.majority_label f = Summary.majority_label u
       /\ Summary.majority_label_description f
          = Summary.majority_label_description u
       /\ Summary.majority_label_verbose f = Summary.majority_label_verbose u
       /\ Summary.is_label_certain f = Summary.is_label_certain u
       /\ Summary.decoy_label f = Summary.decoy_label u
       /\ Summary.is_decoy f = Summary.is_decoy u
       /\ Summary.worker_quality f ≡ₚ Summary.worker_quality u)
    crossed_tables.2 crossed_tables.1.
Proof.
  apply (nothing_filtered_same_consensus crossed_rows [] 0.8%float 2 0.5%float ∅).
  - vm_compute. reflexivity.
  - vm_compute. reflexivity.
Defined.

(** The join groups the rows by worker: on the crossed rows nothing is
    filtered out, and the second table lists the workers of b.jpg in the
    order of the join, w1 before w2, where the first table has them as
    given, w2 before w1. *)
Example join_regroups_by_worker :
  filter_out_unreliable_workers crossed_rows [] 0.8%float 2 0.5%float ∅ false
    = Ok crossed_tables
  /\ map Summary.worker_list crossed_tables.1 = [["w1"; "w2"]; ["w2"; "w1"]]
  /\ map Summary.worker_list crossed_tables.2 = [["w1"; "w2"]; ["w1"; "w2"]].
Proof. split_and!; vm_compute; reflexivity. Qed.

Lemma uncertain_summary_no_quality
    (raw_labels : list Raw.row) (min_ratings_no : Z) (min_ratings_prop : float)
    (decoys : gmap string string) (out : Summary.t) :
  get_summary_stats_for_image raw_labels min_ratings_no min_ratings_prop decoys
    = Ok out ->
  Summary.is_label_certain out = false -> Summary.worker_quality out = [].
Proof.
  intros Hout Hc.
  apply get_summary_stats_for_image_Ok in Hout
    as (_ & _ & _ & _ & _ & _ & Hcert & _ & _ & ->).
  rewrite Hcert in Hc. rewrite Hc. apply worker_quality_mapping_uncertain.
Qed.

Lemma uncertain_table_no_quality
    (df : list Raw.row) (min_ratings_no : Z) (min_ratings_prop : float)
    (decoys : gmap string string) (table : list Summary.t) :
  annotate_responses df min_ratings_no min_ratings_prop decoys = Ok table ->
  Forall (fun s => Summary.is_label_certain s = false) table ->
  Forall (fun q => q = []) (map Summary.worker_quality table).
Proof.
  intros [_ Ht]%annotate_responses_Ok Hall.
  apply Forall_forall. intros q (s & -> & Hs)%elem_of_map.
  destruct (mapM_result_elem _ _ _ _ Ht Hs) as (k & _ & Hsum).
  eapply uncertain_summary_no_quality; [exact Hsum|].
  rewrite Forall_forall in Hall. by apply Hall.
Qed.

(** X13. When no image of the current round nor of any previous round is
    certain, no worker has an agreement observation, the reliability table
    is built from no row, and the call (with [include_previous_in_output]
    false) raises [MergeError] at the join. *)
Theorem no_certain_image_raises
    (raw_responses : list Raw.row) (previous_experiments : list (list Raw.row))
    (reliability_threshold : float) (min_ratings_no : Z)
    (min_ratings_prop : float) (decoys : gmap string string)
    (current : list Summary.t) (previous_annotated : list (list Summary.t)) :
  annotate_responses raw_responses min_ratings_no min_ratings_prop decoys
    = Ok current ->
  mapM_result
    (fun responses =>
       annotate_responses responses min_ratings_no min_ratings_prop decoys)
    previous_experiments = Ok previous_annotated ->
  Forall (fun s => Summary.is_label_certain s = false)
         (current ++ concat previous_annotated) ->
  filter_out_unreliable_workers raw_responses previous_experiments
    reliability_threshold min_ratings_no min_ratings_prop decoys false
  = Raise MergeError.
Proof.
  intros Hcur Hprev Hall. unfold filter_out_unreliable_workers.
  rewrite Hcur. cbn [mbind result_bind]. rewrite Hprev. cbn [mbind result_bind].
  apply Forall_app in Hall as [Hc Hp].
  assert (Hnil : pool_ratings
                   (concat (map Summary.worker_quality current
                              :: map (map Summary.worker_quality) previous_annotated))
                 = []).
  { apply pool_ratings_nil. cbn [concat]. apply Forall_app. split.
    - by eapply uncertain_table_no_quality.
    - apply Forall_forall. intros q Hq.
      apply list_elem_of_In, in_concat in Hq as (col & Hcol & Hq).
      apply list_elem_of_In, elem_of_map in Hcol as (table & -> & Htable).
      apply list_elem_of_lookup_1 in Htable as [i Hi].
      destruct (mapM_result_Ok_lookup_inv _ _ _ _ _ Hprev Hi) as (df & _ & Hdf).
      assert (Hq' : Forall (fun q => q = []) (map Summary.worker_quality table)).
      { eapply uncertain_table_no_quality; [exact Hdf|].
        apply Forall_forall. intros s Hs. rewrite Forall_forall in Hp. apply Hp.
        apply list_elem_of_In, in_concat. exists table.
        split; apply list_elem_of_In; [by eapply list_elem_of_lookup_2 | done]. }
      rewrite Forall_forall in Hq'. apply Hq'. by apply list_elem_of_In. }
  unfold get_workers_reliability. rewrite Hnil. done.
Qed.

Lemma no_certain_image_raises_witness :
  filter_out_unreliable_workers dog_cat [] 0.8%float 2 0.5%float ∅ false
  = Raise MergeError.
Proof.
  apply (no_certain_image_raises dog_cat [] 0.8%float 2 0.5%float ∅
           [dog_cat_summary] []).
  - vm_compute. reflexivity.
  - reflexivity.
  - repeat constructor.
Defined.

Lemma workers_reliability_round_order_witness :
  (half_and_all_workers ++ [worker_c; worker_d])%list
  ≡ₚ (half_and_all_workers ++ [worker_d; worker_c])%list.
Proof.
  apply (workers_reliability_round_order half_and_all rounds_c_d rounds_d_c
           0.5%float 2).
  - apply perm_swap.
  - vm_compute. reflexivity.
  - vm_compute. reflexivity.
Defined.

(** ** More of what read_responses returns *)

Lemma getitem_neg_Raise {A : Type} (l : list A) (n : nat) :
  (length l < n)%nat -> getitem_neg l n = Raise IndexError.
Proof.
  intros Hlen. unfold getitem_neg.
  rewrite lookup_ge_None_2; [done|]. rewrite length_rev. lia.
Qed.

Lemma getitem_neg_Ok {A : Type} (l : list A) (n : nat) :
  (1 <= n <= length l)%nat -> exists x, getitem_neg l n = Ok x.
Proof.
  intros Hlen. unfold getitem_neg.
  destruct (lookup_lt_is_Some_2 (rev l) (n - 1)) as [x ->]; [|eauto].
  rewrite length_rev. lia.
Qed.

(** The table maps an index to the basename of the last manifest entry
    with that index. *)
Lemma index_to_filename_foldl (manifest : list Payload.manifest_entry)
    (m : gmap Z string) (i : Z) :
  foldl (fun m d => <[Payload.index d := basename (Payload.source_ref d)]> m)
        m manifest !! i
  = match last (filter (fun d => Payload.index d = i) manifest) with
    | Some d => Some (basename (Payload.source_ref d))
    | None => m !! i
    end.
Proof.
  revert m. induction manifest as [|d ds IH]; intros m; [done|].
  cbn [foldl]. rewrite IH. clear IH. rewrite filter_cons.
  destruct (decide (Payload.index d = i)) as [Hi|Hi].
  - rewrite last_cons. destruct (last (filter _ ds)); [done|].
    rewrite Hi. by rewrite lookup_insert_eq.
  - destruct (last (filter _ ds)); [done|]. by rewrite lookup_insert_ne.
Qed.

(** X14. A lookup in the index-to-filename table gives the basename of the
    source reference of the last manifest entry that carries the index, and
    nothing when no entry carries it: of two entries with one index, the
    later one wins. *)
Theorem index_to_filename_last_entry
    (manifest : list Payload.manifest_entry) (i : Z) :
  index_to_filename_of manifest !! i
  = (fun d => basename (Payload.source_ref d))
      <$> last (filter (fun d => Payload.index d = i) manifest).
Proof.
  unfold index_to_filename_of. rewrite index_to_filename_foldl.
  by destruct (last _).
Qed.

Lemma mapM_result_Forall2 {A B : Type} (f : A -> result B) l ys :
  mapM_result f l = Ok ys -> Forall2 (fun y x => f x = Ok y) ys l.
Proof.
  revert ys. induction l as [|x l IH]; intros ys; simpl.
  - intros [= <-]. constructor.
  - destruct (f x) as [y|] eqn:Hy; [|discriminate].
    destruct (mapM_result f l) as [ys'|]; [|discriminate].
    intros [= <-]. constructor; [done | by apply IH].
Qed.

Lemma mapM_result_concat_Forall2 {A B C : Type} (f : A -> result (list B))
    (g : A -> list C) (R : B -> C -> Prop) l yss :
  (forall x ys, x ∈ l -> f x = Ok ys -> Forall2 R ys (g x)) ->
  mapM_result f l = Ok yss ->
  Forall2 R (concat yss) (flat_map g l).
Proof.
  revert yss. induction l as [|x l IH]; intros yss Hf; simpl.
  - intros [= <-]. constructor.
  - destruct (f x) as [ys|] eqn:Hy; [|discriminate].
    destruct (mapM_result f l) as [yss'|]; [|discriminate].
    intros [= <-]. cbn [concat]. apply Forall2_app.
    + apply Hf; [left | done].
    + apply IH; [|done]. intros x' ys' Hx'. apply Hf. by right.
Qed.

Section read_responses_rows.
Variable abspath : string -> string.
Variable loads_manifest : string -> result (list Payload.manifest_entry).
Variable loads_annotations : string -> result (list (string * string)).
Variable loads_labels : string -> result (list string).
Variable py_int : string -> result Z.

(** What a row says of the label it was read from. *)
Lemma read_label_Ok fname job table dataset_object_id worker_id item r :
  read_label loads_labels py_int fname job table dataset_object_id worker_id item
    = Ok r ->
  Raw.labelling_job_name r = job
  /\ Raw.labels_fname r = fname
  /\ Raw.dataset_object_id r = dataset_object_id
  /\ Raw.worker_id r = worker_id
  /\ loads_labels item.2 = Ok (Raw.labels r)
  /\ (exists last_part,
        getitem_neg (str_split "-" item.1) 1 = Ok last_part
        /\ py_int last_part = Ok (Raw.image_index r))
  /\ table !! Raw.image_index r = Some (Raw.image_filename r).
Proof.
  unfold read_label. intros H.
  apply bind_Ok in H as (this_labels & Hl & H).
  apply bind_Ok in H as (last_part & Hlast & H).
  apply bind_Ok in H as (label_index & Hint & H).
  apply bind_Ok in H as (image_filename & Hlook & [= <-]).
  cbn. split_and!; try done; [eauto|].
  by destruct (table !! label_index) as [f|]; [injection Hlook as ->|].
Qed.

(** X15. When [read_responses] returns, its rows are, one for one and in
    the order of the payload, the labels that the workers submitted. The
    row of a label carries the job name taken from the path, the file name,
    the dataset object id of the annotation set, the worker's id, the
    decoded labels, the int that ends the label id as its index, and, as
    image file name, the entry of that index in the table of its own
    annotation set. *)
Theorem read_responses_rows
    (fname : string) (data : list Payload.annotation_set) (rows : list Raw.row) :
  read_responses abspath loads_manifest loads_annotations loads_labels py_int
    fname data = Ok rows ->
  exists job,
    getitem_neg (str_split "/" (abspath fname)) 6 = Ok job
    /\ Forall2
         (fun r entry =>
            Raw.labelling_job_name r = job
            /\ Raw.labels_fname r = fname
            /\ Raw.dataset_object_id r = Payload.datasetObjectId entry.1.1
            /\ Raw.worker_id r = Payload.workerId entry.1.2
            /\ loads_labels entry.2.2 = Ok (Raw.labels r)
            /\ (exists last_part,
                  getitem_neg (str_split "-" entry.2.1) 1 = Ok last_part
                  /\ py_int last_part = Ok (Raw.image_index r))
            /\ exists manifest,
                 loads_manifest (Payload.dataObject_content entry.1.1)
                   = Ok manifest
                 /\ index_to_filename_of manifest !! Raw.image_index r
                    = Some (Raw.image_filename r))
         rows (label_entries loads_annotations data).
Proof.
  unfold read_responses. intros H.
  apply bind_Ok in H as (job & Hjob & H).
  apply bind_Ok in H as (raw_results & Hsets & [= <-]).
  exists job. split; [done|]. unfold label_entries.
  eapply mapM_result_concat_Forall2; [|exact Hsets].
  intros a rows_a _ Ha. unfold read_annotation_set in Ha.
  apply bind_Ok in Ha as (manifest & Hm & Ha).
  apply bind_Ok in Ha as (rows_l & Hls & [= <-]).
  eapply mapM_result_concat_Forall2; [|exact Hls].
  intros l rows_items _ Hl. unfold read_labelling in Hl.
  apply bind_Ok in Hl as (items & Hitems & Hl). rewrite Hitems.
  apply Forall2_fmap_r. apply mapM_result_Forall2 in Hl.
  eapply Forall2_impl; [exact Hl|].
  intros r item Hr. cbn [fst snd].
  apply read_label_Ok in Hr as (? & ? & ? & ? & ? & ? & ?).
  split_and!; eauto.
Qed.
End read_responses_rows.

Lemma read_responses_rows_witness :
  exists job,
    getitem_neg (str_split "/" sample_fname) 6 = Ok job
    /\ Forall2
         (fun r entry =>
            Raw.labelling_job_name r = job
            /\ Raw.labels_fname r = sample_fname
            /\ Raw.dataset_object_id r = Payload.datasetObjectId entry.1.1
            /\ Raw.worker_id r = Payload.workerId entry.1.2
            /\ sample_loads_labels entry.2.2 = Ok (Raw.labels r)
            /\ (exists last_part,
                  getitem_neg (str_split "-" entry.2.1) 1 = Ok last_part
                  /\ int_of_digits last_part = Ok (Raw.image_index r))
            /\ exists manifest,
                 sample_loads_manifest (Payload.dataObject_content entry.1.1)
                   = Ok manifest
                 /\ index_to_filename_of manifest !! Raw.image_index r
                    = Some (Raw.image_filename r))
         sample_rows (label_entries sample_loads_annotations_resolved sample_data).
Proof.
  apply (read_responses_rows (fun p => p) sample_loads_manifest
           sample_loads_annotations_resolved sample_loads_labels int_of_digits
           sample_fname sample_data sample_rows).
  vm_compute. reflexivity.
Defined.

Section read_responses_path.
Variable abspath : string -> string.
Variable loads_manifest : string -> result (list Payload.manifest_entry).
Variable loads_annotations : string -> result (list (string * string)).
Variable loads_labels : string -> result (list string).
Variable py_int : string -> result Z.

(** X25. The job name is the sixth component of the absolute path counted
    from the end: on a path with fewer than six components
    [read_responses] raises [IndexError] whatever the payload holds, an
    empty payload included. *)
Theorem read_responses_short_path (fname : string)
    (data : list Payload.annotation_set) :
  (length (str_split "/" (abspath fname)) < 6)%nat ->
  read_responses abspath loads_manifest loads_annotations loads_labels py_int
    fname data = Raise IndexError.
Proof.
  intros Hlen. unfold read_responses.
  by rewrite getitem_neg_Raise by lia.
Qed.
End read_responses_path.

Lemma read_responses_short_path_witness :
  read_responses (fun p => p) sample_loads_manifest sample_loads_annotations
    sample_loads_labels int_of_digits "/data/responses.json" sample_data
  = Raise IndexError.
Proof.
  apply (read_responses_short_path (fun p => p) sample_loads_manifest
           sample_loads_annotations sample_loads_labels int_of_digits
           "/data/responses.json" sample_data).
  vm_compute. lia.
Defined.

Section lambda_preprocess_errors.
Variable json_loads : string -> result pyval.

(** X26. The pre-processing handler raises in four cases only: the event
    is not an object ([TypeError]); the event has no [dataObject]
    ([KeyError]); the [dataObject] is not an object ([AttributeError]);
    the source is a string that [json.loads] refuses (the exception of
    [json.loads]). *)
Theorem lambda_handler_raises_only (event context : pyval) (e : exn) :
  lambda_handler json_loads event context = Raise e ->
  ((forall d, event <> PDict d) /\ e = TypeError)
  \/ (exists d, event = PDict d /\ dict_get d "dataObject" = None
                /\ e = KeyError)
  \/ (exists d dataObject,
        event = PDict d /\ dict_get d "dataObject" = Some dataObject
        /\ (forall d', dataObject <> PDict d') /\ e = AttributeError)
  \/ (exists d d' s,
        event = PDict d /\ dict_get d "dataObject" = Some (PDict d')
        /\ dict_get d' "source" = Some (PStr s) /\ json_loads s = Raise e).
Proof.
  unfold lambda_handler. intros H.
  destruct event as [| | | | |l|d]; cbn in H;
    try (left; split; [by intros d|congruence]).
  right. destruct (dict_get d "dataObject") as [dataObject|] eqn:Hd; cbn in H.
  - right.
    destruct dataObject as [| | | | |l|d']; cbn in H;
      try (left; exists d; eexists; split_and!;
           [done|exact Hd|by intros d'|congruence]).
    right. exists d, d'.
    destruct (dict_get d' "source") as [source|] eqn:Hs; cbn in H; [|done].
    destruct source as [| | | |s| |]; try discriminate H.
    exists s. split_and!; [done..|].
    destruct (json_loads s); cbn in H; [done|congruence].
  - left. exists d. split_and!; [done..|congruence].
Qed.
End lambda_preprocess_errors.

Lemma lambda_handler_raises_only_witness :
  ((forall d, PList [] <> PDict d) /\ TypeError = TypeError)
  \/ (exists d, PList [] = PDict d /\ dict_get d "dataObject" = None
                /\ TypeError = KeyError)
  \/ (exists d dataObject,
        PList [] = PDict d /\ dict_get d "dataObject" = Some dataObject
        /\ (forall d', dataObject <> PDict d') /\ TypeError = AttributeError)
  \/ (exists d d' s,
        PList [] = PDict d /\ dict_get d "dataObject" = Some (PDict d')
        /\ dict_get d' "source" = Some (PStr s)
        /\ sample_json_loads s = Raise TypeError).
Proof.
  apply (lambda_handler_raises_only sample_json_loads (PList []) PNone TypeError).
  reflexivity.
Defined.

(** ** prepare_manifest *)

Lemma task_count_of_ceil (n group_size : Z) :
  0 < group_size ->
  task_count_of n group_size = Ok ((n + group_size - 1) `div` group_size).
Proof.
  intros Hg. unfold task_count_of, floordiv, py_mod.
  rewrite !decide_False by lia. cbn.
  f_equal.
  pose proof (Z.div_mod n group_size ltac:(lia)) as Hdm.
  pose proof (Z.mod_pos_bound n group_size Hg) as Hb.
  destruct (Z.ltb_spec 0 (n `mod` group_size)).
  - apply (Z.div_unique _ _ _ (n `mod` group_size - 1)); lia.
  - apply (Z.div_unique _ _ _ (group_size - 1)); lia.
Qed.

Lemma list_position_Ok {A : Type} (l : list A) (k : Z) :
  0 <= k < Z.of_nat (length l) -> list_position l k = Ok (Z.to_nat k).
Proof.
  intros Hk. unfold list_position.
  destruct (Z.ltb_spec k 0); [lia|]. by rewrite decide_True.
Qed.

Lemma task_entries_cons tc k start x l :
  task_entries tc k start (x :: l)
  = if decide (start `mod` tc = k)
    then manifest_entry_dict x start :: task_entries tc k (start + 1) l
    else task_entries tc k (start + 1) l.
Proof.
  unfold task_entries. cbn [enumerate_from]. rewrite filter_cons. cbn [fst].
  by case_decide.
Qed.

Lemma distribute_Ok tc manifest idx l :
  0 < tc -> Z.of_nat (length manifest) = tc ->
  distribute tc manifest idx l
  = Ok (imap (fun k source => (source ++ task_entries tc (Z.of_nat k) idx l)%list)
             manifest).
Proof.
  intros Htc. revert manifest idx.
  induction l as [|record rest IH]; intros manifest idx Hlen.
  - cbn. f_equal. apply list_eq. intros k. rewrite list_lookup_imap.
    destruct (manifest !! k); cbn; [|done]. by rewrite app_nil_r.
  - cbn [distribute]. unfold py_mod. rewrite decide_False by lia.
    cbn -[task_entries].
    pose proof (Z.mod_pos_bound idx tc Htc) as Hb.
    rewrite list_position_Ok by lia. cbn -[task_entries].
    rewrite IH by (by rewrite length_alter).
    f_equal. apply list_eq. intros k. rewrite !list_lookup_imap.
    rewrite task_entries_cons.
    rewrite list_lookup_alter.
    destruct (decide (Z.to_nat (idx `mod` tc) = k)) as [<-|Hne].
    + destruct (manifest !! _) as [source|]; cbn -[task_entries]; [|done].
      rewrite decide_True by lia. by rewrite <- app_assoc.
    + destruct (manifest !! k) as [source|]; cbn -[task_entries]; [|done].
      rewrite decide_False by lia. done.
Qed.

Lemma mod_shift_zero (k start tc : Z) :
  0 < tc -> 0 <= k < tc ->
  (k - start) `mod` tc = 0 <-> start `mod` tc = k.
Proof.
  intros Htc Hk. split; intros H.
  - pose proof (Z.div_mod (k - start) tc ltac:(lia)) as Hdm. rewrite H in Hdm.
    symmetry. apply (Z.mod_unique _ _ (- ((k - start) `div` tc))); lia.
  - pose proof (Z.div_mod start tc ltac:(lia)) as Hdm. rewrite H in Hdm.
    symmetry. apply (Z.mod_unique _ _ (- (start `div` tc))); lia.
Qed.

Lemma mod_shift_succ (k start tc : Z) :
  0 < tc ->
  (k - (start + 1)) `mod` tc
  = if decide ((k - start) `mod` tc = 0) then tc - 1
    else (k - start) `mod` tc - 1.
Proof.
  intros Htc.
  pose proof (Z.div_mod (k - start) tc ltac:(lia)) as Hdm.
  pose proof (Z.mod_pos_bound (k - start) tc Htc) as Hb.
  case_decide as H0; symmetry.
  - apply (Z.mod_unique _ _ ((k - start) `div` tc - 1)); lia.
  - apply (Z.mod_unique _ _ ((k - start) `div` tc)); lia.
Qed.

Lemma task_entries_lookup tc k start l (j : nat) :
  0 < tc -> 0 <= k < tc ->
  task_entries tc k start l !! j
  = (fun f => manifest_entry_dict f
               (start + (k - start) `mod` tc + Z.of_nat j * tc))
    <$> l !! Z.to_nat ((k - start) `mod` tc + Z.of_nat j * tc).
Proof.
  intros Htc Hk. revert start j.
  induction l as [|x l IH]; intros start j; [done|].
  rewrite task_entries_cons.
  pose proof (mod_shift_zero k start tc Htc Hk) as Hz.
  pose proof (mod_shift_succ k start tc Htc) as Hs.
  pose proof (Z.mod_pos_bound (k - start) tc Htc) as Hb.
  destruct (decide (start `mod` tc = k)) as [Hmod|Hmod].
  - apply Hz in Hmod. rewrite decide_True in Hs by done. rewrite Hmod.
    destruct j as [|j].
    + replace (Z.to_nat (0 + Z.of_nat 0 * tc)) with 0%nat by lia. cbn. do 2 f_equal. lia.
    + cbn [lookup list_lookup]. rewrite IH, Hs.
      replace (Z.to_nat (0 + Z.of_nat (S j) * tc))
        with (S (Z.to_nat (tc - 1 + Z.of_nat j * tc))) by nia.
      cbn [lookup list_lookup].
      by replace (start + 0 + Z.of_nat (S j) * tc)
        with (start + 1 + (tc - 1) + Z.of_nat j * tc) by lia.
  - assert ((k - start) `mod` tc <> 0) as Hne by (by rewrite Hz).
    rewrite decide_False in Hs by done.
    rewrite IH, Hs.
    replace (Z.to_nat ((k - start) `mod` tc + Z.of_nat j * tc))
      with (S (Z.to_nat ((k - start) `mod` tc - 1 + Z.of_nat j * tc))) by nia.
    cbn [lookup list_lookup].
    by replace (start + 1 + ((k - start) `mod` tc - 1) + Z.of_nat j * tc)
      with (start + (k - start) `mod` tc + Z.of_nat j * tc) by lia.
Qed.

Lemma task_entries_0_lookup tc (k : nat) l (j : nat) :
  0 < tc -> Z.of_nat k < tc ->
  task_entries tc (Z.of_nat k) 0 l !! j
  = (fun f => manifest_entry_dict f (Z.of_nat k + Z.of_nat j * tc))
    <$> l !! (k + j * Z.to_nat tc)%nat.
Proof.
  intros Htc Hk. rewrite task_entries_lookup by lia.
  rewrite Z.sub_0_r, Z.mod_small by lia.
  replace (Z.to_nat (Z.of_nat k + Z.of_nat j * tc))
    with (k + j * Z.to_nat tc)%nat by nia.
  done.
Qed.

Lemma mapM_result_then {A B C : Type} (h : A -> result B) (t : B -> C) l :
  mapM_result (fun x => y ← h x; Ok (t y)) l = map t <$> mapM_result h l.
Proof.
  induction l as [|x l IH]; [done|]. cbn. rewrite IH.
  destruct (h x); cbn; [|done]. by destruct (mapM_result h l).
Qed.

Lemma with_additional_data_entry positive_examples negative_examples
    event_names other_category_label f i rest :
  with_additional_data positive_examples negative_examples event_names
    other_category_label (manifest_entry_dict f i :: rest)
  = Ok ([("event_names", PList (map PStr event_names));
         ("positive_examples", PList (map PStr positive_examples));
         ("negative_examples", PList (map PStr negative_examples));
         ("other_category_label", PStr other_category_label);
         ("source-ref", PStr f); ("index", PInt i)] :: rest).
Proof. reflexivity. Qed.

Lemma task_count_bounds (n g : Z) :
  0 < g -> 0 < n ->
  let tc := (n + g - 1) `div` g in 0 < tc <= n /\ n <= tc * g.
Proof.
  intros Hg Hn tc.
  pose proof (Z.div_mod (n + g - 1) g ltac:(lia)) as Hdm.
  pose proof (Z.mod_pos_bound (n + g - 1) g Hg) as Hb.
  fold tc in Hdm. nia.
Qed.

Section prepare_manifest_facts.
Variable json_dumps : pyval -> string.

Lemma prepare_manifest_unfold (filename_list positive_examples
    negative_examples event_names : list string)
    (other_category_label : string) (group_size : Z) :
  prepare_manifest json_dumps filename_list positive_examples
    negative_examples event_names other_category_label group_size
  = task_count ← task_count_of (Z.of_nat (length filename_list)) group_size;
    manifest ← distribute task_count (replicate (Z.to_nat task_count) [])
                          0 filename_list;
    map (task_record json_dumps)
      <$> mapM_result
            (with_additional_data positive_examples negative_examples
               event_names other_category_label) manifest.
Proof.
  unfold prepare_manifest.
  destruct (task_count_of _ _) as [task_count|]; [|done]. cbn.
  destruct (distribute _ _ _ _) as [manifest|]; [|done]. cbn.
  apply mapM_result_then.
Qed.

Lemma prepare_manifest_sources (filename_list positive_examples
    negative_examples event_names : list string)
    (other_category_label : string) (group_size : Z) :
  0 < group_size ->
  let task_count :=
    (Z.of_nat (length filename_list) + group_size - 1) `div` group_size in
  exists sources,
    prepare_manifest json_dumps filename_list positive_examples
      negative_examples event_names other_category_label group_size
    = Ok (map (task_record json_dumps) sources)
    /\ Z.of_nat (length sources) = task_count
    /\ forall (k : nat) source, sources !! k = Some source ->
         exists f rest,
           filename_list !! k = Some f
           /\ task_entries task_count (Z.of_nat k) 0 filename_list
              = manifest_entry_dict f (Z.of_nat k) :: rest
           /\ source
              = [("event_names", PList (map PStr event_names));
                 ("positive_examples", PList (map PStr positive_examples));
                 ("negative_examples", PList (map PStr negative_examples));
                 ("other_category_label", PStr other_category_label);
                 ("source-ref", PStr f); ("index", PInt (Z.of_nat k))] :: rest.
Proof.
  intros Hg tc. rewrite prepare_manifest_unfold.
  rewrite task_count_of_ceil by done. fold tc. cbn -[task_entries].
  destruct (decide (filename_list = [])) as [Hl|Hl].
  { assert (tc = 0) as Htc0.
    { unfold tc. rewrite Hl. cbn. apply Z.div_small. lia. }
    rewrite Htc0, Hl. cbn. exists []. split_and!; [done..|]. by intros k source. }
  assert (0 < Z.of_nat (length filename_list)) as Hn
    by (destruct filename_list; [done|cbn; lia]).
  destruct (task_count_bounds _ _ Hg Hn) as [Htc Hcover]. fold tc in Htc, Hcover.
  rewrite distribute_Ok by (rewrite ?length_replicate; lia).
  cbn -[task_entries].
  set (groups := imap _ _).
  assert (Hgroups : forall (k : nat) group, groups !! k = Some group ->
            Z.of_nat k < tc /\ group = task_entries tc (Z.of_nat k) 0 filename_list).
  { intros k group. unfold groups. rewrite list_lookup_imap.
    destruct (replicate _ _ !! k) as [e|] eqn:He; [|done].
    apply lookup_replicate in He as [-> He]. cbn. intros [= <-]. split; [lia|done]. }
  assert (Hhead : forall (k : nat), Z.of_nat k < tc ->
            exists f rest, filename_list !! k = Some f
              /\ task_entries tc (Z.of_nat k) 0 filename_list
                 = manifest_entry_dict f (Z.of_nat k) :: rest).
  { intros k Hk.
    pose proof (task_entries_0_lookup tc k filename_list 0 ltac:(lia) Hk) as H0.
    rewrite Nat.add_0_r in H0.
    destruct (lookup_lt_is_Some_2 filename_list k ltac:(lia)) as [f Hf].
    rewrite Hf in H0. cbn in H0. exists f.
    destruct (task_entries _ _ _ _) as [|d rest]; [done|].
    injection H0 as ->. exists rest. split; [done|]. do 3 f_equal. lia. }
  destruct (mapM_result_total
              (with_additional_data positive_examples negative_examples
                 event_names other_category_label) groups) as [sources Hs].
  { intros group Hgroup. apply list_elem_of_lookup in Hgroup as [k Hk].
    apply Hgroups in Hk as [Hk ->].
    destruct (Hhead k Hk) as (f & rest & _ & ->).
    rewrite with_additional_data_entry. eauto. }
  exists sources. rewrite Hs. split_and!; [done| |].
  - rewrite (mapM_result_Ok_length _ _ _ Hs). unfold groups.
    rewrite length_imap, length_replicate. lia.
  - intros k source Hk.
    destruct (mapM_result_Ok_lookup_inv _ _ _ _ _ Hs Hk) as (group & Hgk & Hw).
    apply Hgroups in Hgk as [Hlt ->].
    destruct (Hhead k Hlt) as (f & rest & Hf & Hte).
    exists f, rest. split_and!; [done..|].
    rewrite Hte, with_additional_data_entry in Hw. congruence.
Qed.
End prepare_manifest_facts.

Lemma task_entries_length_iff tc (k : nat) l (j : nat) :
  0 < tc -> Z.of_nat k < tc ->
  (j < length (task_entries tc (Z.of_nat k) 0 l))%nat
  <-> (k + j * Z.to_nat tc < length l)%nat.
Proof.
  intros Htc Hk. rewrite <- !lookup_lt_is_Some.
  rewrite task_entries_0_lookup by done. apply fmap_is_Some.
Qed.

Section prepare_manifest_properties.
Variable json_dumps : pyval -> string.
Variables (filename_list positive_examples negative_examples
           event_names : list string).
Variable other_category_label : string.

(** X16. For a positive [group_size], [prepare_manifest] returns, and the
    manifest has the least number of tasks that hold all the files at
    [group_size] files a task: the quotient of the division rounded up. *)
Theorem prepare_manifest_task_count (group_size : Z) :
  0 < group_size ->
  exists manifest,
    prepare_manifest json_dumps filename_list positive_examples
      negative_examples event_names other_category_label group_size
    = Ok manifest
    /\ Z.of_nat (length manifest)
       = (Z.of_nat (length filename_list) + group_size - 1) `div` group_size
    /\ (Z.of_nat (length manifest) - 1) * group_size
       < Z.of_nat (length filename_list)
       <= Z.of_nat (length manifest) * group_size.
Proof.
  intros Hg.
  destruct (prepare_manifest_sources json_dumps filename_list positive_examples
              negative_examples event_names other_category_label group_size Hg)
    as (sources & Hret & Hlen & _).
  eexists. split; [exact Hret|]. rewrite length_map, Hlen. split; [done|].
  pose proof (Z.div_mod (Z.of_nat (length filename_list) + group_size - 1)
                group_size ltac:(lia)) as Hdm.
  pose proof (Z.mod_pos_bound (Z.of_nat (length filename_list) + group_size - 1)
                group_size Hg) as Hb.
  nia.
Qed.

(** X17. For a positive [group_size], every task of the manifest holds at
    least one file and at most [group_size] files, and the tasks are
    balanced: each holds the quotient of the number of files by the number
    of tasks, or one more. *)
Theorem prepare_manifest_group_sizes (group_size : Z) :
  0 < group_size ->
  exists sources,
    prepare_manifest json_dumps filename_list positive_examples
      negative_examples event_names other_category_label group_size
    = Ok (map (task_record json_dumps) sources)
    /\ forall source, source ∈ sources ->
         1 <= Z.of_nat (length source) <= group_size
         /\ Z.of_nat (length filename_list) `div` Z.of_nat (length sources)
            <= Z.of_nat (length source)
            <= Z.of_nat (length filename_list) `div` Z.of_nat (length sources) + 1.
Proof.
  intros Hg.
  destruct (prepare_manifest_sources json_dumps filename_list positive_examples
              negative_examples event_names other_category_label group_size Hg)
    as (sources & Hret & Hlen & Hsrc).
  exists sources. split; [exact Hret|]. intros source Hin.
  apply list_elem_of_lookup in Hin as [k Hk].
  pose proof (lookup_lt_Some _ _ _ Hk) as Hklt.
  destruct (Hsrc k source Hk) as (f & rest & Hf & Hte & ->).
  pose proof (lookup_lt_Some _ _ _ Hf) as Hkn.
  set (n := Z.of_nat (length filename_list)) in *.
  set (tc := (n + group_size - 1) `div` group_size) in *.
  assert (0 < n) as Hn by lia.
  destruct (task_count_bounds n group_size Hg Hn) as [Htc Hcover].
  fold tc in Htc, Hcover. rewrite Hlen.
  assert (Hiff : forall j : nat,
            (j < length rest + 1)%nat
            <-> Z.of_nat k + Z.of_nat j * tc < n).
  { intros j.
    pose proof (task_entries_length_iff tc k filename_list j ltac:(lia)
                  ltac:(lia)) as Hj.
    rewrite Hte in Hj. cbn [length] in Hj. unfold n. split; intros H.
    - assert (k + j * Z.to_nat tc < length filename_list)%nat by (apply Hj; lia).
      nia.
    - assert (j < S (length rest))%nat; [apply Hj; nia|lia]. }
  cbn [length].
  pose proof (Z.div_mod n tc ltac:(lia)) as Hdm.
  pose proof (Z.mod_pos_bound n tc ltac:(lia)) as Hb.
  set (q := n `div` tc) in *.
  assert (0 <= q) as Hq by (apply Z.div_pos; lia).
  split_and!.
  - lia.
  - destruct (decide (Z.of_nat (S (length rest)) <= group_size)) as [|Hgt]; [done|].
    pose proof (proj1 (Hiff (Z.to_nat group_size)) ltac:(lia)). nia.
  - destruct (decide (q <= Z.of_nat (S (length rest)))) as [|Hlt]; [done|].
    pose proof (Hiff (S (length rest))) as [_ H2].
    assert (Z.of_nat k + Z.of_nat (S (length rest)) * tc < n) as H3 by nia.
    apply H2 in H3. lia.
  - destruct (decide (Z.of_nat (S (length rest)) <= q + 1)) as [|Hgt]; [done|].
    pose proof (proj1 (Hiff (Z.to_nat (q + 1))) ltac:(lia)). nia.
Qed.

(** X18. For a positive [group_size], the files are dealt to the tasks in
    turn: the entry at place [j] of task [k] carries the file at position
    [k + j * task_count] of the list, with that position as its index. *)
Theorem prepare_manifest_round_robin (group_size : Z) :
  0 < group_size ->
  exists sources,
    prepare_manifest json_dumps filename_list positive_examples
      negative_examples event_names other_category_label group_size
    = Ok (map (task_record json_dumps) sources)
    /\ forall (k j : nat) source d,
         sources !! k = Some source -> source !! j = Some d ->
         exists f,
           filename_list !! (k + j * length sources)%nat = Some f
           /\ dict_get d "source-ref" = Some (PStr f)
           /\ dict_get d "index"
              = Some (PInt (Z.of_nat (k + j * length sources))).
Proof.
  intros Hg.
  destruct (prepare_manifest_sources json_dumps filename_list positive_examples
              negative_examples event_names other_category_label group_size Hg)
    as (sources & Hret & Hlen & Hsrc).
  exists sources. split; [exact Hret|]. intros k j source d Hk Hj.
  pose proof (lookup_lt_Some _ _ _ Hk) as Hklt.
  destruct (Hsrc k source Hk) as (f & rest & Hf & Hte & ->).
  destruct j as [|j].
  - injection Hj as <-. exists f. rewrite Nat.add_0_r.
    split_and!; [done|reflexivity|reflexivity].
  - cbn [lookup list_lookup] in Hj.
    rewrite <- Hlen in Hte.
    pose proof (task_entries_0_lookup (Z.of_nat (length sources)) k
                  filename_list (S j) ltac:(lia) ltac:(lia)) as Hl.
    rewrite Hte in Hl. cbn [lookup list_lookup] in Hl. rewrite Hj in Hl.
    rewrite Nat2Z.id in Hl.
    destruct (filename_list !! (k + S j * length sources)%nat) as [f'|]; [|done].
    cbn in Hl. injection Hl as ->. exists f'. split_and!; [done|reflexivity|].
    cbn. do 2 f_equal. lia.
Qed.
End prepare_manifest_properties.

Lemma mapM_result_app {A B : Type} (f : A -> result B) l1 l2 ys1 ys2 :
  mapM_result f l1 = Ok ys1 -> mapM_result f l2 = Ok ys2 ->
  mapM_result f (l1 ++ l2) = Ok (ys1 ++ ys2)%list.
Proof.
  revert ys1. induction l1 as [|x l1 IH]; intros ys1; cbn.
  - by intros [= <-].
  - destruct (f x) as [y|]; [|done].
    destruct (mapM_result f l1) as [ys|]; [|done].
    intros [= <-] H2. by rewrite (IH ys eq_refl H2).
Qed.

Lemma mapM_result_concat {A B : Type} (f : A -> result B) ls yss :
  Forall2 (fun l ys => mapM_result f l = Ok ys) ls yss ->
  mapM_result f (concat ls) = Ok (concat yss).
Proof.
  induction 1 as [|l ys ls yss Hl _ IH]; [done|].
  cbn [concat]. by apply mapM_result_app.
Qed.

Lemma mapM_result_map_Ok {A B C : Type} (f : B -> result C) (g : A -> B)
    (h : A -> C) l :
  (forall x, f (g x) = Ok (h x)) ->
  mapM_result f (map g l) = Ok (map h l).
Proof.
  intros Hf. induction l as [|x l IH]; [done|].
  cbn. by rewrite Hf, IH.
Qed.

Lemma source_manifest_entries tc k l f rest c1 c2 c3 c4 :
  task_entries tc k 0 l = manifest_entry_dict f k :: rest ->
  mapM_result manifest_entry_of
    ([("event_names", c1); ("positive_examples", c2);
      ("negative_examples", c3); ("other_category_label", c4);
      ("source-ref", PStr f); ("index", PInt k)] :: rest)
  = Ok (map (fun p => Payload.Entry p.1 p.2)
            (filter (fun p => p.1 `mod` tc = k) (enumerate_from 0 l))).
Proof.
  intros Hte.
  assert (mapM_result manifest_entry_of (task_entries tc k 0 l)
          = Ok (map (fun p => Payload.Entry p.1 p.2)
                  (filter (fun p => p.1 `mod` tc = k) (enumerate_from 0 l))))
    as H.
  { unfold task_entries. by apply mapM_result_map_Ok. }
  rewrite Hte in H. exact H.
Qed.

Lemma enumerate_from_fst start l p :
  p ∈ enumerate_from start l -> start <= p.1.
Proof.
  revert start. induction l as [|x l IH]; intros start; cbn.
  - by intros ?%elem_of_nil.
  - intros [->|Hp%IH]%elem_of_cons; cbn; lia.
Qed.

Lemma enumerate_from_filter_index start l i :
  filter (fun p => p.1 = i) (enumerate_from start l)
  = if decide (start <= i)
    then match l !! Z.to_nat (i - start) with
         | Some f => [(i, f)]
         | None => []
         end
    else [].
Proof.
  revert start. induction l as [|x l IH]; intros start.
  - cbn. by case_decide.
  - cbn [enumerate_from]. rewrite filter_cons, IH. cbn [fst].
    destruct (decide (start = i)) as [->|Hne].
    + destruct (decide (i + 1 <= i)) as [|_]; [lia|].
      destruct (decide (i <= i)) as [_|]; [|lia].
      by replace (Z.to_nat (i - i)) with 0%nat by lia.
    + destruct (decide (start <= i)) as [Hle|Hgt].
      * destruct (decide (start + 1 <= i)) as [_|]; [|lia].
        replace (Z.to_nat (i - start)) with (S (Z.to_nat (i - (start + 1))))
          by lia. done.
      * destruct (decide (start + 1 <= i)) as [|_]; [lia|]. done.
Qed.

Section prepare_manifest_entries.
Variable json_dumps : pyval -> string.
Variables (filename_list positive_examples negative_examples
           event_names : list string).
Variable other_category_label : string.

(** X19. For a positive [group_size], every file of the list is in the
    manifest exactly once, with its position in the list as index: read
    back as [read_responses] reads them, the entries of all the tasks are a
    rearrangement of the enumerated list. *)
Theorem prepare_manifest_each_file_once (group_size : Z) :
  0 < group_size ->
  exists sources entries,
    prepare_manifest json_dumps filename_list positive_examples
      negative_examples event_names other_category_label group_size
    = Ok (map (task_record json_dumps) sources)
    /\ mapM_result manifest_entry_of (concat sources) = Ok entries
    /\ entries ≡ₚ map (fun p => Payload.Entry p.1 p.2)
                      (enumerate_from 0 filename_list).
Proof.
  intros Hg.
  destruct (prepare_manifest_sources json_dumps filename_list positive_examples
              negative_examples event_names other_category_label group_size Hg)
    as (sources & Hret & Hlen & Hsrc).
  set (tc := Z.of_nat (length sources)).
  set (enum := enumerate_from 0 filename_list).
  set (E := fun p : Z * string => Payload.Entry p.1 p.2).
  set (ks := map Z.of_nat (seq 0 (length sources))).
  exists sources,
    (concat (map (fun k => map E (filter (fun p => p.1 `mod` tc = k) enum)) ks)).
  split; [exact Hret|]. split.
  - apply mapM_result_concat. apply Forall2_same_length_lookup_2.
    { unfold ks. by rewrite !length_map, length_seq. }
    intros k source es Hk Hes. unfold ks in Hes.
    rewrite !list_lookup_fmap in Hes.
    pose proof (lookup_lt_Some _ _ _ Hk) as Hklt.
    rewrite lookup_seq_lt in Hes by done. cbn in Hes. injection Hes as <-.
    destruct (Hsrc k source Hk) as (f & rest & Hf & Hte & ->).
    rewrite <- Hlen in Hte. by apply source_manifest_entries.
  - rewrite <- (map_map (fun k => filter (fun p => p.1 `mod` tc = k) enum) (map E)).
    rewrite <- concat_map. apply Permutation_map.
    apply (filter_classes_Permutation (fun p => p.1 `mod` tc)).
    + unfold ks. apply (NoDup_fmap_2 _), NoDup_seq.
    + intros p Hp. unfold ks.
      assert (0 < tc) as Htc.
      { unfold tc. destruct sources; [|cbn; lia].
        cbn in Hlen. unfold enum in Hp. destruct filename_list; [by apply elem_of_nil in Hp|].
        exfalso. symmetry in Hlen. apply Z.div_small_iff in Hlen; [|lia].
        cbn [length] in Hlen. lia. }
      pose proof (Z.mod_pos_bound p.1 tc Htc) as Hb.
      apply list_elem_of_fmap. exists (Z.to_nat (p.1 `mod` tc)).
      split; [lia|]. apply elem_of_seq. unfold tc in *. lia.
Qed.

(** X20. For a positive [group_size], the first entry of task [k] is the
    entry of the file at position [k], and it alone carries the category
    data: its keys are the four category fields followed by the
    source reference and the index; every other entry of the task has the
    source reference and the index only. *)
Theorem prepare_manifest_first_entry (group_size : Z) :
  0 < group_size ->
  exists sources,
    prepare_manifest json_dumps filename_list positive_examples
      negative_examples event_names other_category_label group_size
    = Ok (map (task_record json_dumps) sources)
    /\ forall (k : nat) source, sources !! k = Some source ->
         exists f rest,
           filename_list !! k = Some f
           /\ source
              = [("event_names", PList (map PStr event_names));
                 ("positive_examples", PList (map PStr positive_examples));
                 ("negative_examples", PList (map PStr negative_examples));
                 ("other_category_label", PStr other_category_label);
                 ("source-ref", PStr f); ("index", PInt (Z.of_nat k))] :: rest
           /\ forall d, d ∈ rest -> map fst d = ["source-ref"; "index"].
Proof.
  intros Hg.
  destruct (prepare_manifest_sources json_dumps filename_list positive_examples
              negative_examples event_names other_category_label group_size Hg)
    as (sources & Hret & Hlen & Hsrc).
  exists sources. split; [exact Hret|]. intros k source Hk.
  destruct (Hsrc k source Hk) as (f & rest & Hf & Hte & ->).
  exists f, rest. split_and!; [done..|].
  intros d Hd.
  assert (d ∈ task_entries
                ((Z.of_nat (length filename_list) + group_size - 1) `div` group_size)
                (Z.of_nat k) 0 filename_list) as Hin
    by (rewrite Hte; by right).
  unfold task_entries in Hin. apply list_elem_of_fmap in Hin as (p & -> & _).
  reflexivity.
Qed.

(** X21. Manifest and reader fit together: for a positive [group_size],
    the index-to-filename table that [read_responses] builds from the
    entries of task [k] resolves the index [i] to the basename of the file
    at position [i] of the list when [i] is [k] modulo the number of tasks,
    and has no entry for any other index. *)
Theorem prepare_manifest_index_resolves (group_size : Z) :
  0 < group_size ->
  exists sources,
    prepare_manifest json_dumps filename_list positive_examples
      negative_examples event_names other_category_label group_size
    = Ok (map (task_record json_dumps) sources)
    /\ forall (k : nat) source, sources !! k = Some source ->
         exists entries,
           mapM_result manifest_entry_of source = Ok entries
           /\ forall i : Z,
                index_to_filename_of entries !! i
                = if decide (0 <= i
                             /\ i `mod` Z.of_nat (length sources) = Z.of_nat k)
                  then basename <$> filename_list !! Z.to_nat i
                  else None.
Proof.
  intros Hg.
  destruct (prepare_manifest_sources json_dumps filename_list positive_examples
              negative_examples event_names other_category_label group_size Hg)
    as (sources & Hret & Hlen & Hsrc).
  exists sources. split; [exact Hret|]. intros k source Hk.
  destruct (Hsrc k source Hk) as (f & rest & Hf & Hte & ->).
  eexists. split; [by apply source_manifest_entries|].
  intros i. unfold index_to_filename_of. rewrite index_to_filename_foldl.
  rewrite lookup_empty, Hlen.
  set (tc := (Z.of_nat (length filename_list) + group_size - 1) `div` group_size).
  assert (filter (fun d => Payload.index d = i)
            (map (fun p => Payload.Entry p.1 p.2)
               (filter (fun p => p.1 `mod` tc = Z.of_nat k)
                  (enumerate_from 0 filename_list)))
          = map (fun p => Payload.Entry p.1 p.2)
              (filter (fun p => p.1 `mod` tc = Z.of_nat k)
                 (filter (fun p => p.1 = i) (enumerate_from 0 filename_list))))
    as ->.
  { induction (enumerate_from 0 filename_list) as [|p ps IH]; [done|].
    rewrite !filter_cons.
    destruct (decide (p.1 `mod` tc = Z.of_nat k)), (decide (p.1 = i));
      cbn [map]; rewrite ?filter_cons, ?IH; cbn [Payload.index];
      repeat case_decide; try done. }
  rewrite enumerate_from_filter_index, Z.sub_0_r.
  destruct (decide (0 <= i)) as [Hi|Hi].
  - destruct (filename_list !! Z.to_nat i) as [f'|]; cbn.
    + destruct (decide (i `mod` tc = Z.of_nat k)).
      * by rewrite decide_True.
      * by rewrite decide_False by tauto.
    + by case_decide.
  - cbn. by rewrite decide_False by tauto.
Qed.
End prepare_manifest_entries.

Section prepare_manifest_errors.
Variable json_dumps : pyval -> string.

(** X22. The group sizes that are not positive: a [group_size] of 0 raises
    [ZeroDivisionError] whatever the list; a negative [group_size] raises
    [IndexError] on a list with at least one file, and returns the empty
    manifest on the empty list. *)
Theorem prepare_manifest_group_size_not_positive
    (f : string) (filename_list positive_examples negative_examples
     event_names : list string) (other_category_label : string) (p : positive) :
  prepare_manifest json_dumps filename_list positive_examples
    negative_examples event_names other_category_label 0
  = Raise ZeroDivisionError
  /\ prepare_manifest json_dumps (f :: filename_list) positive_examples
       negative_examples event_names other_category_label (Z.neg p)
     = Raise IndexError
  /\ prepare_manifest json_dumps [] positive_examples
       negative_examples event_names other_category_label (Z.neg p)
     = Ok [].
Proof.
  split_and!.
  - reflexivity.
  - unfold prepare_manifest, task_count_of, floordiv, py_mod.
    rewrite !decide_False by lia. cbn [mbind result_bind].
    set (n := Z.of_nat (length (f :: filename_list))).
    assert (0 < n) as Hn by (unfold n; cbn [length]; lia).
    pose proof (Z.mod_neg_bound n (Z.neg p) ltac:(lia)) as Hb.
    pose proof (Z.div_mod n (Z.neg p) ltac:(lia)) as Hdm.
    destruct (Z.ltb_spec 0 (n `mod` Z.neg p)); [lia|].
    rewrite Z.add_0_r.
    assert (n `div` Z.neg p < 0) as Hq by nia.
    replace (Z.to_nat (n `div` Z.neg p)) with 0%nat by lia.
    cbn [replicate distribute]. unfold py_mod.
    rewrite decide_False by lia. rewrite Z.mod_0_l by lia. reflexivity.
  - unfold prepare_manifest, task_count_of, floordiv, py_mod.
    rewrite !decide_False by lia. reflexivity.
Qed.
End prepare_manifest_errors.

Lemma prepare_manifest_task_count_witness :
  exists manifest,
    prepare_manifest sample_json_dumps sample_files [] [] ["Cat"; "Dog"]
      "Other" 2 = Ok manifest
    /\ Z.of_nat (length manifest)
       = (Z.of_nat (length sample_files) + 2 - 1) `div` 2
    /\ (Z.of_nat (length manifest) - 1) * 2
       < Z.of_nat (length sample_files)
       <= Z.of_nat (length manifest) * 2.
Proof.
  apply (prepare_manifest_task_count sample_json_dumps sample_files [] []
           ["Cat"; "Dog"] "Other" 2).
  lia.
Defined.

Lemma prepare_manifest_group_sizes_witness :
  exists sources,
    prepare_manifest sample_json_dumps sample_files [] [] ["Cat"; "Dog"]
      "Other" 2 = Ok (map (task_record sample_json_dumps) sources)
    /\ forall source, source ∈ sources ->
         1 <= Z.of_nat (length source) <= 2
         /\ Z.of_nat (length sample_files) `div` Z.of_nat (length sources)
            <= Z.of_nat (length source)
            <= Z.of_nat (length sample_files) `div` Z.of_nat (length sources) + 1.
Proof.
  apply (prepare_manifest_group_sizes sample_json_dumps sample_files [] []
           ["Cat"; "Dog"] "Other" 2).
  lia.
Defined.

Lemma prepare_manifest_round_robin_witness :
  exists sources,
    prepare_manifest sample_json_dumps sample_files [] [] ["Cat"; "Dog"]
      "Other" 2 = Ok (map (task_record sample_json_dumps) sources)
    /\ forall (k j : nat) source d,
         sources !! k = Some source -> source !! j = Some d ->
         exists f,
           sample_files !! (k + j * length sources)%nat = Some f
           /\ dict_get d "source-ref" = Some (PStr f)
           /\ dict_get d "index"
              = Some (PInt (Z.of_nat (k + j * length sources))).
Proof.
  apply (prepare_manifest_round_robin sample_json_dumps sample_files [] []
           ["Cat"; "Dog"] "Other" 2).
  lia.
Defined.

Lemma prepare_manifest_each_file_once_witness :
  exists sources entries,
    prepare_manifest sample_json_dumps sample_files [] [] ["Cat"; "Dog"]
      "Other" 2 = Ok (map (task_record sample_json_dumps) sources)
    /\ mapM_result manifest_entry_of (concat sources) = Ok entries
    /\ entries ≡ₚ map (fun p => Payload.Entry p.1 p.2)
                      (enumerate_from 0 sample_files).
Proof.
  apply (prepare_manifest_each_file_once sample_json_dumps sample_files [] []
           ["Cat"; "Dog"] "Other" 2).
  lia.
Defined.

Lemma prepare_manifest_first_entry_witness :
  exists sources,
    prepare_manifest sample_json_dumps sample_files [] [] ["Cat"; "Dog"]
      "Other" 2 = Ok (map (task_record sample_json_dumps) sources)
    /\ forall (k : nat) source, sources !! k = Some source ->
         exists f rest,
           sample_files !! k = Some f
           /\ source
              = [("event_names", PList (map PStr ["Cat"; "Dog"]));
                 ("positive_examples", PList (map PStr []));
                 ("negative_examples", PList (map PStr []));
                 ("other_category_label", PStr "Other");
                 ("source-ref", PStr f); ("index", PInt (Z.of_nat k))] :: rest
           /\ forall d, d ∈ rest -> map fst d = ["source-ref"; "index"].
Proof.
  apply (prepare_manifest_first_entry sample_json_dumps sample_files [] []
           ["Cat"; "Dog"] "Other" 2).
  lia.
Defined.

Lemma prepare_manifest_index_resolves_witness :
  exists sources,
    prepare_manifest sample_json_dumps sample_files [] [] ["Cat"; "Dog"]
      "Other" 2 = Ok (map (task_record sample_json_dumps) sources)
    /\ forall (k : nat) source, sources !! k = Some source ->
         exists entries,
           mapM_result manifest_entry_of source = Ok entries
           /\ forall i : Z,
                index_to_filename_of entries !! i
                = if decide (0 <= i
                             /\ i `mod` Z.of_nat (length sources) = Z.of_nat k)
                  then basename <$> sample_files !! Z.to_nat i
                  else None.
Proof.
  apply (prepare_manifest_index_resolves sample_json_dumps sample_files [] []
           ["Cat"; "Dog"] "Other" 2).
  lia.
Defined.

(** ** lambda_postprocess *)

Section lambda_postprocess_facts.
Variable json_loads : string -> result pyval.
Variable s3_get_json : pyval -> result pyval.
Local Abbreviation handler := (Postprocess.lambda_handler json_loads s3_get_json).
Local Abbreviation payload_of := (Postprocess.get_payload s3_get_json).
Local Abbreviation annotation_of := (Postprocess.read_annotation json_loads).
Local Abbreviation consolidated_of := (Postprocess.consolidate json_loads).

Lemma read_annotation_Ok annotation r :
  annotation_of annotation = Ok r ->
  py_getitem annotation "workerId" = Ok (Consolidated.workerId r)
  /\ exists annotationData content decoded,
       py_getitem annotation "annotationData" = Ok annotationData
       /\ py_getitem annotationData "content" = Ok content
       /\ Postprocess.loads json_loads content = Ok decoded
       /\ Consolidated.annotation r
          = match decoded with
            | PDict d => default decoded (dict_get d "annotatedResult")
            | _ => decoded
            end.
Proof.
  unfold Postprocess.read_annotation. intros H.
  apply bind_Ok in H as (annotationData & Had & H).
  apply bind_Ok in H as (content & Hc & H).
  apply bind_Ok in H as (decoded & Hd & H).
  apply bind_Ok in H as (wrapped & Hw & H).
  apply bind_Ok in H as (response & Hr & H).
  apply bind_Ok in H as (workerId & Hid & [= <-]).
  split; [done|]. exists annotationData, content, decoded.
  split_and!; [done..|]. cbn.
  destruct decoded as [| | | |s|l|d]; try discriminate Hw; cbn in Hw.
  - injection Hw as <-. destruct (str_contains _ _); cbn in Hr; congruence.
  - injection Hw as <-. destruct (existsb _ _); cbn in Hr; congruence.
  - injection Hw as <-. cbn in Hr.
    destruct (dict_get d "annotatedResult"); cbn in Hr |- *; congruence.
Qed.

Lemma consolidate_Ok event dataset o :
  consolidated_of event dataset = Ok o ->
  exists annotations items,
    py_getitem dataset "annotations" = Ok annotations
    /\ py_iter annotations = Ok items
    /\ mapM_result annotation_of items = Ok (Consolidated.responses o)
    /\ py_getitem dataset "datasetObjectId" = Ok (Consolidated.datasetObjectId o)
    /\ py_getitem event "labelAttributeName"
       = Ok (Consolidated.labelAttributeName o)
    /\ hashable (Consolidated.labelAttributeName o) = true.
Proof.
  unfold Postprocess.consolidate. intros H.
  apply bind_Ok in H as (annotations & Ha & H).
  apply bind_Ok in H as (items & Hi & H).
  apply bind_Ok in H as (responses & Hr & H).
  apply bind_Ok in H as (datasetObjectId & Hd & H).
  apply bind_Ok in H as (label & Hl & H).
  destruct (hashable label) eqn:Hh; [|discriminate].
  injection H as <-. exists annotations, items. by split_and!.
Qed.

Lemma lambda_handler_postprocess_Ok event context out :
  handler event context = Ok out ->
  exists payload datasets,
    payload_of event = Ok payload
    /\ py_iter payload = Ok datasets
    /\ mapM_result (consolidated_of event) datasets = Ok out.
Proof.
  unfold Postprocess.lambda_handler. intros H.
  apply bind_Ok in H as (payload & Hp & H).
  apply bind_Ok in H as (datasets & Hd & H). eauto.
Qed.

(** X23. When the post-processing handler returns, its response has one
    object for each dataset object of the payload, in the order of the
    payload: it carries the dataset object's id, the event's
    [labelAttributeName] as the key of its content, and one response for
    each annotation, in order, with the worker's id and the decoded
    content, or the [annotatedResult] member of the decoded content when
    that is an object which has one. *)
Theorem consolidated_response_shape (event context : pyval)
    (out : list Consolidated.t) :
  handler event context = Ok out ->
  exists payload datasets,
    payload_of event = Ok payload
    /\ py_iter payload = Ok datasets
    /\ Forall2
         (fun o dataset =>
            py_getitem dataset "datasetObjectId"
            = Ok (Consolidated.datasetObjectId o)
            /\ py_getitem event "labelAttributeName"
               = Ok (Consolidated.labelAttributeName o)
            /\ exists annotations items,
                 py_getitem dataset "annotations" = Ok annotations
                 /\ py_iter annotations = Ok items
                 /\ Forall2
                      (fun r annotation =>
                         py_getitem annotation "workerId"
                         = Ok (Consolidated.workerId r)
                         /\ exists annotationData content decoded,
                              py_getitem annotation "annotationData"
                              = Ok annotationData
                              /\ py_getitem annotationData "content" = Ok content
                              /\ Postprocess.loads json_loads content = Ok decoded
                              /\ Consolidated.annotation r
                                 = match decoded with
                                   | PDict d =>
                                       default decoded
                                         (dict_get d "annotatedResult")
                                   | _ => decoded
                                   end)
                      (Consolidated.responses o) items)
         out datasets.
Proof.
  intros H. apply lambda_handler_postprocess_Ok in H
    as (payload & datasets & Hp & Hd & Hout).
  exists payload, datasets. split_and!; [done..|].
  apply mapM_result_Forall2 in Hout.
  eapply Forall2_impl; [exact Hout|]. cbn beta.
  intros o dataset Ho. apply consolidate_Ok in Ho
    as (annotations & items & Ha & Hi & Hr & Hid & Hl & _).
  split_and!; [done..|]. exists annotations, items. split_and!; [done..|].
  apply mapM_result_Forall2 in Hr.
  eapply Forall2_impl; [exact Hr|]. cbn beta.
  intros r annotation Hra. by apply read_annotation_Ok.
Qed.

(** X24. An event object with neither a [payload] nor a [test_payload]
    member gives the empty response, whatever else it holds: the
    [labelAttributeName] is not asked for when there is no dataset
    object. *)
Theorem no_payload_empty_response (d : list (string * pyval))
    (context : pyval) :
  dict_get d "payload" = None -> dict_get d "test_payload" = None ->
  handler (PDict d) context = Ok [].
Proof.
  intros Hp Ht. unfold Postprocess.lambda_handler, Postprocess.get_payload.
  cbn. by rewrite Hp, Ht.
Qed.
End lambda_postprocess_facts.

Lemma consolidated_response_shape_witness :
  exists payload datasets,
    Postprocess.get_payload sample_s3_get_json sample_consolidation_event
    = Ok payload
    /\ py_iter payload = Ok datasets
    /\ Forall2
         (fun o dataset =>
            py_getitem dataset "datasetObjectId"
            = Ok (Consolidated.datasetObjectId o)
            /\ py_getitem sample_consolidation_event "labelAttributeName"
               = Ok (Consolidated.labelAttributeName o)
            /\ exists annotations items,
                 py_getitem dataset "annotations" = Ok annotations
                 /\ py_iter annotations = Ok items
                 /\ Forall2
                      (fun r annotation =>
                         py_getitem annotation "workerId"
                         = Ok (Consolidated.workerId r)
                         /\ exists annotationData content decoded,
                              py_getitem annotation "annotationData"
                              = Ok annotationData
                              /\ py_getitem annotationData "content" = Ok content
                              /\ Postprocess.loads sample_json_loads content
                                 = Ok decoded
                              /\ Consolidated.annotation r
                                 = match decoded with
                                   | PDict d =>
                                       default decoded
                                         (dict_get d "annotatedResult")
                                   | _ => decoded
                                   end)
                      (Consolidated.responses o) items)
         sample_consolidated datasets.
Proof.
  apply (consolidated_response_shape sample_json_loads sample_s3_get_json
           sample_consolidation_event PNone sample_consolidated).
  vm_compute. reflexivity.
Defined.

Lemma no_payload_empty_response_witness :
  Postprocess.lambda_handler sample_json_loads sample_s3_get_json
    (PDict [("version", PStr "2018-10-16")]) PNone = Ok [].
Proof.
  apply (no_payload_empty_response sample_json_loads sample_s3_get_json
           [("version", PStr "2018-10-16")] PNone); reflexivity.
Defined.

(** ** From the manifest to the task input *)

Section manifest_line.
Variable json_dumps : pyval -> string.
Variable json_loads : string -> result pyval.

(** X27. Manifest and pre-processing handler fit together: every record
    of a returned manifest is [{'source': text}] for the serialised entry
    list of its task, and the pre-processing handler, given the record as
    [dataObject], decodes that text and wraps the outcome as task input;
    it raises what [json.loads] raises on the text and never answers with
    the empty object. *)
Theorem manifest_record_preprocessed (filename_list positive_examples
    negative_examples event_names : list string)
    (other_category_label : string) (group_size : Z)
    (manifest : list pyval) (k : nat) (record context : pyval) :
  prepare_manifest json_dumps filename_list positive_examples
    negative_examples event_names other_category_label group_size
  = Ok manifest ->
  manifest !! k = Some record ->
  exists source,
    record = PDict [("source", PStr (json_dumps (PList (map PDict source))))]
    /\ source <> []
    /\ lambda_handler json_loads (PDict [("dataObject", record)]) context
       = task_input <$> json_loads (json_dumps (PList (map PDict source))).
Proof.
  intros Hm Hk. rewrite prepare_manifest_unfold in Hm.
  apply bind_Ok in Hm as (task_count & _ & Hm).
  apply bind_Ok in Hm as (groups & _ & Hm).
  destruct (mapM_result _ groups) as [sources|] eqn:Hs; [|done].
  injection Hm as <-. rewrite list_lookup_fmap in Hk.
  destruct (sources !! k) as [source|] eqn:Hsk; [|done].
  injection Hk as <-. exists source. split_and!.
  - reflexivity.
  - destruct (mapM_result_Ok_lookup_inv _ _ _ _ _ Hs Hsk) as (group & _ & Hw).
    unfold with_additional_data in Hw.
    apply bind_Ok in Hw as (first & _ & [= <-]). done.
  - unfold lambda_handler, task_record. cbn. rewrite decide_True by done. cbn.
    rewrite decide_True by done. cbn. by destruct (json_loads _).
Qed.
End manifest_line.

Lemma manifest_record_preprocessed_witness :
  exists source,
    PDict [("source", PStr "[...]")]
    = PDict [("source", PStr (sample_json_dumps (PList (map PDict source))))]
    /\ source <> []
    /\ lambda_handler sample_json_loads
         (PDict [("dataObject", PDict [("source", PStr "[...]")])]) PNone
       = task_input
           <$> sample_json_loads (sample_json_dumps (PList (map PDict source))).
Proof.
  apply (manifest_record_preprocessed sample_json_dumps sample_json_loads
           sample_files [] [] ["Cat"; "Dog"] "Other" 2 sample_manifest 0).
  - vm_compute. reflexivity.
  - vm_compute. reflexivity.
Defined.
